(** * VSS enhanced extractor: field extraction, normalization and scoring

    A shallow embedding of the extraction core of the repository
    (src/vss_enhanced_extractor_v2.py, src/extractors/base_extractor.py,
    src/normalizers/field_normalizers.py, src/validators/field_validators.py,
    src/config/) together with the properties its specification states.

    Python values are modelled as follows.
    - A [str] is a list of Unicode code points ([Z]).  String constants of
      the source are written as UTF-8 literals and decoded by [Py.U].
    - Confidence scores are rationals ([Q]): the source computes them in
      binary floating point from the constants 0.1 .. 1.0; the model keeps
      the exact values of these decimal constants and of the formula, and
      does not model rounding.
    - Exceptions are values of [outcome]; the value of [datetime.now()] is
      an explicit argument. *)

From Stdlib Require Import ZArith List String Ascii Bool Lia QArith Qminmax Lqa.
Import ListNotations.
Local Open Scope Z_scope.

Set Implicit Arguments.

(** ** Python strings *)

Module Py.

Definition char := Z.
Definition str := list char.

(** UTF-8 decoding, used for the string constants of the source only. *)
Fixpoint utf8 (bs : list Z) : str :=
  match bs with
  | [] => []
  | b :: r =>
      if b <? 128 then b :: utf8 r
      else if b <? 224 then
        match r with
        | b1 :: r1 => ((b - 192) * 64 + (b1 - 128)) :: utf8 r1
        | _ => [65533]
        end
      else if b <? 240 then
        match r with
        | b1 :: b2 :: r2 =>
            ((b - 224) * 4096 + (b1 - 128) * 64 + (b2 - 128)) :: utf8 r2
        | _ => [65533]
        end
      else
        match r with
        | b1 :: b2 :: b3 :: r3 =>
            ((b - 240) * 262144 + (b1 - 128) * 4096 + (b2 - 128) * 64
             + (b3 - 128)) :: utf8 r3
        | _ => [65533]
        end
  end.

Definition U (s : string) : str :=
  utf8 (map (fun a => Z.of_N (N_of_ascii a)) (list_ascii_of_string s)).

Definition len {A : Type} (s : list A) : Z := Z.of_nat (List.length s).

(** Truth value of a string: [if s:] *)
Definition truthy (s : str) : bool :=
  match s with [] => false | _ => true end.

Fixpoint eqb (a b : str) : bool :=
  match a, b with
  | [], [] => true
  | x :: a', y :: b' => (x =? y) && eqb a' b'
  | _, _ => false
  end.

Fixpoint startswith (p s : str) : bool :=
  match p, s with
  | [], _ => true
  | x :: p', y :: s' => (x =? y) && startswith p' s'
  | _ :: _, [] => false
  end.

(** [sub in s] *)
Fixpoint contains (sub s : str) : bool :=
  startswith sub s
  || match s with
     | [] => false
     | _ :: s' => contains sub s'
     end.

Fixpoint find_from (sub s : str) (i : Z) : Z :=
  if startswith sub s then i
  else match s with
       | [] => -1
       | _ :: s' => find_from sub s' (i + 1)
       end.

(** [s.find(sub)]: lowest index, or -1. *)
Definition find (sub s : str) : Z := find_from sub s 0.

(** [s[i:j]] with Python's treatment of negative and oversized indices. *)
Definition slice_index (n i : Z) : Z :=
  if i <? 0 then Z.max 0 (i + n) else Z.min i n.

Definition slice (s : str) (i j : Z) : str :=
  let i' := slice_index (len s) i in
  let j' := slice_index (len s) j in
  firstn (Z.to_nat (j' - i')) (skipn (Z.to_nat i') s).

(** *** Character tables

    [str.isdecimal] / [\d] (general category Nd) and [str.isspace] / [\s]
    are the complete tables of Unicode 14.  Case mapping, [cased] and
    [\w] are tabulated for the Latin blocks that the patterns and keyword
    tables of the repository use (code points below U+0250, Latin Extended
    Additional U+1E00..U+1EFF, and the Kelvin and Angstrom signs); other
    code points are uncased and are not word characters unless decimal.
    The word-final form of the Greek sigma is outside that range. *)

(** First code point of each run of ten decimal digits. *)
Definition decimal_zeros : list Z :=
  [48; 1632; 1776; 1984; 2406; 2534; 2662; 2790; 2918; 3046; 3174; 3302;
   3430; 3558; 3664; 3792; 3872; 4160; 4240; 6112; 6160; 6470; 6608; 6784;
   6800; 6992; 7088; 7232; 7248; 42528; 43216; 43264; 43472; 43504; 43600;
   44016; 65296; 66720; 68912; 69734; 69872; 69942; 70096; 70384; 70736;
   70864; 71248; 71360; 71472; 71904; 72016; 72784; 73040; 73120; 92768;
   92864; 93008; 120782; 120792; 120802; 120812; 120822; 123200; 123632;
   125264; 130032].

Fixpoint decimal_in (zs : list Z) (c : Z) : option Z :=
  match zs with
  | [] => None
  | z :: zs' =>
      if (z <=? c) && (c <? z + 10) then Some (c - z) else decimal_in zs' c
  end.

(** Decimal value of a character, if it is a decimal digit. *)
Definition decimal (c : char) : option Z := decimal_in decimal_zeros c.

Definition isdecimal_char (c : char) : bool :=
  match decimal c with Some _ => true | None => false end.

Definition in_ranges (rs : list (Z * Z)) (c : Z) : bool :=
  existsb (fun r => (fst r <=? c) && (c <=? snd r)) rs.

(** Digits that are not decimal (superscripts, circled digits, ...). *)
Definition other_digit_ranges : list (Z * Z) :=
  [(178, 179); (185, 185); (4969, 4977); (6618, 6618); (8304, 8304);
   (8308, 8313); (8320, 8329); (9312, 9320); (9332, 9340); (9352, 9360);
   (9450, 9450); (9461, 9469); (9471, 9471); (10102, 10110);
   (10112, 10120); (10122, 10130); (68160, 68163); (69216, 69224);
   (69714, 69722); (127232, 127242)].

Definition isdigit_char (c : char) : bool :=
  isdecimal_char c || in_ranges other_digit_ranges c.

(** [s.isdigit()] *)
Definition isdigit (s : str) : bool :=
  truthy s && forallb isdigit_char s.

Definition space_ranges : list (Z * Z) :=
  [(9, 13); (28, 32); (133, 133); (160, 160); (5760, 5760); (8192, 8202);
   (8232, 8233); (8239, 8239); (8287, 8287); (12288, 12288)].

Definition isspace_char (c : char) : bool := in_ranges space_ranges c.

Definition alnum_ranges : list (Z * Z) :=
  [(48, 57); (65, 90); (97, 122); (170, 170); (178, 179); (181, 181);
   (185, 186); (188, 190); (192, 214); (216, 246); (248, 591);
   (7680, 7935)].

(** [\w] *)
Definition isword_char (c : char) : bool :=
  in_ranges alnum_ranges c || isdecimal_char c || (c =? 95).

Definition cased_ranges : list (Z * Z) :=
  [(65, 90); (97, 122); (170, 170); (181, 181); (186, 186); (192, 214);
   (216, 246); (248, 442); (444, 447); (452, 591); (7680, 7935)].

Definition cased (c : char) : bool := in_ranges cased_ranges c.

(** Case tables: [(first, last, stride, delta)]. *)
Fixpoint case_lookup (t : list (Z * Z * Z * Z)) (c : Z) : Z :=
  match t with
  | [] => c
  | (a, b, st, d) :: t' =>
      if (a <=? c) && (c <=? b) && ((c - a) mod st =? 0) then c + d
      else case_lookup t' c
  end.

Definition lower_table : list (Z * Z * Z * Z) :=
   [(65, 90, 1, 32); (192, 214, 1, 32); (216, 222, 1, 32); (256, 302, 2, 1);
    (304, 304, 1, (-199));
    (306, 310, 2, 1); (313, 327, 2, 1); (330, 374, 2, 1); (376, 376, 1,
    (-121)); (377, 381, 2, 1); (385, 385, 1, 210); (386, 388, 2, 1); (390,
    390, 1, 206); (391, 391, 1, 1); (393, 394, 1, 205); (395, 395, 1, 1);
    (398, 398, 1, 79); (399, 399, 1, 202); (400, 400, 1, 203); (401, 401, 1,
    1); (403, 403, 1, 205); (404, 404, 1, 207); (406, 406, 1, 211); (407,
    407, 1, 209); (408, 408, 1, 1); (412, 412, 1, 211); (413, 413, 1, 213);
    (415, 415, 1, 214); (416, 420, 2, 1); (422, 422, 1, 218); (423, 423, 1,
    1); (425, 425, 1, 218); (428, 428, 1, 1); (430, 430, 1, 218); (431, 431,
    1, 1); (433, 434, 1, 217); (435, 437, 2, 1); (439, 439, 1, 219); (440,
    440, 1, 1); (444, 444, 1, 1); (452, 452, 1, 2); (453, 453, 1, 1); (455,
    455, 1, 2); (456, 456, 1, 1); (458, 458, 1, 2); (459, 475, 2, 1); (478,
    494, 2, 1); (497, 497, 1, 2); (498, 500, 2, 1); (502, 502, 1, (-97));
    (503, 503, 1, (-56)); (504, 542, 2, 1); (544, 544, 1, (-130)); (546,
    562, 2, 1); (570, 570, 1, 10795); (571, 571, 1, 1); (573, 573, 1,
    (-163)); (574, 574, 1, 10792); (577, 577, 1, 1); (579, 579, 1, (-195));
    (580, 580, 1, 69); (581, 581, 1, 71); (582, 590, 2, 1); (7680, 7828, 2,
    1); (7838, 7838, 1, (-7615)); (7840, 7934, 2, 1); (8490, 8490, 1,
    (-8383)); (8491, 8491, 1, (-8262))].

Definition upper_table : list (Z * Z * Z * Z) :=
   [(97, 122, 1, (-32)); (181, 181, 1, 743); (224, 246, 1, (-32)); (248,
    254, 1, (-32)); (255, 255, 1, 121); (257, 303, 2, (-1)); (305, 305, 1,
    (-232)); (307, 311, 2, (-1)); (314, 328, 2, (-1)); (331, 375, 2, (-1));
    (378, 382, 2, (-1)); (383, 383, 1, (-300)); (384, 384, 1, 195); (387,
    389, 2, (-1)); (392, 392, 1, (-1)); (396, 396, 1, (-1)); (402, 402, 1,
    (-1)); (405, 405, 1, 97); (409, 409, 1, (-1)); (410, 410, 1, 163); (414,
    414, 1, 130); (417, 421, 2, (-1)); (424, 424, 1, (-1)); (429, 429, 1,
    (-1)); (432, 432, 1, (-1)); (436, 438, 2, (-1)); (441, 441, 1, (-1));
    (445, 445, 1, (-1)); (447, 447, 1, 56); (453, 453, 1, (-1)); (454, 454,
    1, (-2)); (456, 456, 1, (-1)); (457, 457, 1, (-2)); (459, 459, 1, (-1));
    (460, 460, 1, (-2)); (462, 476, 2, (-1)); (477, 477, 1, (-79)); (479,
    495, 2, (-1)); (498, 498, 1, (-1)); (499, 499, 1, (-2)); (501, 501, 1,
    (-1)); (505, 543, 2, (-1)); (547, 563, 2, (-1)); (572, 572, 1, (-1));
    (575, 576, 1, 10815); (578, 578, 1, (-1)); (583, 591, 2, (-1)); (7681,
    7829, 2, (-1)); (7835, 7835, 1, (-59)); (7841, 7935, 2, (-1))].

(** One-to-one case mapping, as the regular-expression engine uses it. *)
Definition tolower (c : char) : char := case_lookup lower_table c.
Definition toupper (c : char) : char := case_lookup upper_table c.

Fixpoint assoc_default (t : list (Z * str)) (d : str) (c : Z) : str :=
  match t with
  | [] => d
  | (k, v) :: t' => if k =? c then v else assoc_default t' d c
  end.

(** Full case mapping, as [str.lower], [str.upper] and [str.title] use it. *)
Definition lower_char (c : char) : str :=
  assoc_default [(304, [105; 775])] [tolower c] c.

Definition upper_char (c : char) : str :=
  assoc_default
    [(223, [83; 83]); (329, [700; 78]); (496, [74; 780]); (7830, [72; 817]);
     (7831, [84; 776]); (7832, [87; 778]); (7833, [89; 778]);
     (7834, [65; 702])]
    [toupper c] c.

Definition title_char (c : char) : str :=
  assoc_default
    [(223, [83; 115]); (452, [453]); (453, [453]); (454, [453]);
     (455, [456]); (456, [456]); (457, [456]); (458, [459]); (459, [459]);
     (460, [459]); (497, [498]); (498, [498]); (499, [498])]
    (upper_char c) c.

Definition lower (s : str) : str := flat_map lower_char s.
Definition upper (s : str) : str := flat_map upper_char s.

Fixpoint title_from (previous_is_cased : bool) (s : str) : str :=
  match s with
  | [] => []
  | c :: r =>
      (if previous_is_cased then lower_char c else title_char c)
        ++ title_from (cased c) r
  end.

(** [s.title()] *)
Definition title (s : str) : str := title_from false s.

Fixpoint lstrip_by (p : char -> bool) (s : str) : str :=
  match s with
  | [] => []
  | c :: r => if p c then lstrip_by p r else s
  end.

Definition rstrip_by (p : char -> bool) (s : str) : str :=
  rev (lstrip_by p (rev s)).

(** [s.strip()] *)
Definition strip (s : str) : str :=
  rstrip_by isspace_char (lstrip_by isspace_char s).

(** [s.rstrip(chars)] *)
Definition rstrip_chars (chars s : str) : str :=
  rstrip_by (fun c => existsb (Z.eqb c) chars) s.

(** [s.replace(c, '')] for a one-character [c] *)
Definition remove_char (c : char) (s : str) : str :=
  filter (fun x => negb (x =? c)) s.

(** Splitting at every character that satisfies [p]: [s.split(c)] for a
    one-character separator, and [re.split] on a character class. *)
Fixpoint split_by (p : char -> bool) (s : str) : list str :=
  match s with
  | [] => [[]]
  | c :: r =>
      if p c then [] :: split_by p r
      else match split_by p r with
           | seg :: segs => (c :: seg) :: segs
           | [] => [[c]]
           end
  end.

(** [s.split()]: maximal runs of non-whitespace. *)
Definition split_whitespace (s : str) : list str :=
  filter truthy (split_by isspace_char s).

Fixpoint int_digits (acc : Z) (s : str) : option Z :=
  match s with
  | [] => Some acc
  | c :: r =>
      match decimal c with
      | Some d => int_digits (acc * 10 + d) r
      | None => None
      end
  end.

(** [sys.get_int_max_str_digits()], the default of CPython 3.11 and
    later: [int(s)] raises ValueError on a string of more than 4300
    digits (leading zeros count), and the conversion of an integer to
    text raises ValueError when the text has more than 4300 digits, that
    is, for an integer from 10^4300 on. *)
Definition int_max_str_digits : nat := 4300.

(** [int(s)] on a string of decimal digits; [None] stands for ValueError.
    Signs, underscores and surrounding blanks, which [int] also accepts,
    do not occur in the strings the normalizers pass. *)
Definition int (s : str) : option Z :=
  match s with
  | [] => None
  | _ =>
      if (int_max_str_digits <? List.length s)%nat then None
      else int_digits 0 s
  end.

Fixpoint Z_digits (fuel : nat) (n : Z) (acc : str) : str :=
  match fuel with
  | O => acc
  | S f =>
      let acc' := (48 + n mod 10) :: acc in
      if n <? 10 then acc' else Z_digits f (n / 10) acc'
  end.

(** [str(n)] for a non-negative integer. *)
Definition str_of_Z (n : Z) : str :=
  Z_digits (S (Z.to_nat (Z.log2 n))) n [].

Fixpoint group3 (k : nat) (rev_digits : str) : str :=
  match rev_digits with
  | [] => []
  | d :: r =>
      match k with
      | O => 44 :: d :: group3 2 r
      | S k' => d :: group3 k' r
      end
  end.

(** The text of [f"{n:,}"] for a non-negative integer. *)
Definition format_thousands (n : Z) : str :=
  rev (group3 3 (rev (str_of_Z n))).

(** [f"{n:,}"] for a non-negative integer of any size; [None] stands for
    the ValueError raised when [n] has more than 4300 digits. *)
Definition format_thousands_checked (n : Z) : option str :=
  if (int_max_str_digits <? List.length (str_of_Z n))%nat then None
  else Some (format_thousands n).

End Py.


(** ** Regular expressions

    The fragment of Python's [re] that the normalizers and validators use:
    character sets, quantified single characters (greedy and lazy),
    sequence, alternation, optional groups, capturing groups, [\b], [^]
    and [$], matched by backtracking in the order [re] explores:
    alternatives left to right, greedy quantifiers longest first, lazy
    quantifiers shortest first. *)

Module Re.

Import Py.

Inductive item : Type :=
| Lit (c : char)
| Rng (a b : char)
| Among (s : str)
| Space
| Digit.

(** A bracketed set; [negated] is the leading [^]. *)
Record cset : Type := { negated : bool; items : list item }.

Definition item_ok (c : char) (i : item) : bool :=
  match i with
  | Lit x => c =? x
  | Rng a b => (a <=? c) && (c <=? b)
  | Among s => existsb (Z.eqb c) s
  | Space => isspace_char c
  | Digit => isdecimal_char c
  end.

(** With IGNORECASE a character belongs to a set when one of its case
    variants does. *)
Definition variants (ignorecase : bool) (c : char) : list char :=
  if ignorecase
  then [c; tolower c; toupper c; tolower (toupper c); toupper (tolower c)]
  else [c].

Definition cset_ok (ignorecase : bool) (s : cset) (c : char) : bool :=
  xorb (negated s)
       (existsb (fun v => existsb (item_ok v) (items s))
                (variants ignorecase c)).

Inductive regex : Type :=
| Eps
| One (s : cset)
| Rep (s : cset) (lo : nat) (hi : option nat) (greedy : bool)
| Seq (r1 r2 : regex)
| Alt (r1 r2 : regex)
| Opt (r : regex)
| Group (n : nat) (r : regex)
| WordB
| Bol
| Eol.

(** Captured groups, most recent first. *)
Definition caps := list (nat * str).

(** What is left of the subject, and the groups. *)
Definition result := (str * caps)%type.

Definition cont := option char -> str -> caps -> option result.

Definition room (hi : option nat) : bool :=
  match hi with Some O => false | _ => true end.

Definition less (hi : option nat) : option nat :=
  match hi with Some n => Some (pred n) | None => None end.

Fixpoint rep (ok : char -> bool) (lo : nat) (hi : option nat)
    (greedy : bool) (prev : option char) (s : str) (cs : caps) (k : cont)
    {struct s} : option result :=
  let stop := fun _ : unit =>
    match lo with O => k prev s cs | S _ => None end in
  match s with
  | c :: s' =>
      if room hi && ok c then
        if greedy then
          match rep ok (pred lo) (less hi) greedy (Some c) s' cs k with
          | Some x => Some x
          | None => stop tt
          end
        else
          match stop tt with
          | Some x => Some x
          | None => rep ok (pred lo) (less hi) greedy (Some c) s' cs k
          end
      else stop tt
  | [] => stop tt
  end.

Definition isword (c : option char) : bool :=
  match c with Some x => isword_char x | None => false end.

Fixpoint run (ic : bool) (r : regex) (prev : option char) (s : str)
    (cs : caps) (k : cont) {struct r} : option result :=
  match r with
  | Eps => k prev s cs
  | One st =>
      match s with
      | c :: s' => if cset_ok ic st c then k (Some c) s' cs else None
      | [] => None
      end
  | Rep st lo hi g => rep (cset_ok ic st) lo hi g prev s cs k
  | Seq r1 r2 => run ic r1 prev s cs (fun p s' cs' => run ic r2 p s' cs' k)
  | Alt r1 r2 =>
      match run ic r1 prev s cs k with
      | Some x => Some x
      | None => run ic r2 prev s cs k
      end
  | Opt r1 =>
      match run ic r1 prev s cs k with
      | Some x => Some x
      | None => k prev s cs
      end
  | Group n r1 =>
      run ic r1 prev s cs
        (fun p s' cs' =>
           k p s' ((n, firstn (List.length s - List.length s') s) :: cs'))
  | WordB =>
      if xorb (isword prev) (isword (hd_error s)) then k prev s cs else None
  | Bol =>
      match prev with None => k prev s cs | Some _ => None end
  | Eol =>
      match s with
      | [] => k prev s cs
      | [10] => k prev s cs
      | _ => None
      end
  end.

(** A match: the matched text (group 0) and the groups. *)
Record matched : Type := { text : str; captures : caps }.

Fixpoint lookup (n : nat) (cs : caps) : option str :=
  match cs with
  | [] => None
  | (m, v) :: cs' => if Nat.eqb n m then Some v else lookup n cs'
  end.

(** [m.group(n)] as [re.findall] reports it: the empty string when the
    group took no part in the match. *)
Definition group (m : matched) (n : nat) : str :=
  match lookup n (captures m) with Some v => v | None => [] end.

Definition match_at (ic : bool) (r : regex) (prev : option char) (s : str)
    : option matched :=
  match run ic r prev s [] (fun _ s' cs => Some (s', cs)) with
  | Some (s', cs) =>
      Some {| text := firstn (List.length s - List.length s') s;
              captures := cs |}
  | None => None
  end.

(** [re.match(r, s)] *)
Definition match_ (ic : bool) (r : regex) (s : str) : option matched :=
  match_at ic r None s.

Fixpoint search_from (ic : bool) (r : regex) (prev : option char) (s : str)
    : option matched :=
  match match_at ic r prev s with
  | Some m => Some m
  | None =>
      match s with
      | [] => None
      | c :: s' => search_from ic r (Some c) s'
      end
  end.

(** [re.search(r, s)] *)
Definition search (ic : bool) (r : regex) (s : str) : option matched :=
  search_from ic r None s.

(** Successive non-overlapping matches, left to right; [skip] counts the
    characters of the previous match that are still to be passed. *)
Fixpoint findall_from (ic : bool) (r : regex) (skip : nat)
    (prev : option char) (s : str) {struct s} : list matched :=
  match skip with
  | S n =>
      match s with
      | [] => []
      | c :: s' => findall_from ic r n (Some c) s'
      end
  | O =>
      match match_at ic r prev s with
      | Some m =>
          m :: match s with
               | [] => []
               | c :: s' =>
                   findall_from ic r (pred (List.length (text m))) (Some c) s'
               end
      | None =>
          match s with
          | [] => []
          | c :: s' => findall_from ic r 0 (Some c) s'
          end
      end
  end.

(** [re.findall(r, s)] *)
Definition findall (ic : bool) (r : regex) (s : str) : list matched :=
  findall_from ic r 0 None s.

(** [re.sub(set, '', s)] for a pattern that is one character set (a
    quantifier [+] on it removes the same characters). *)
Definition remove (st : cset) (s : str) : str :=
  filter (fun c => negb (cset_ok false st c)) s.

(** [re.split(set, s)] for a pattern that is one character set. *)
Definition split (st : cset) (s : str) : list str :=
  split_by (cset_ok false st) s.

(** Pattern syntax. *)
Definition set_ (l : list item) : cset := {| negated := false; items := l |}.
Definition nset (l : list item) : cset := {| negated := true; items := l |}.
Definition ch (c : string) : char := hd 0 (U c).
Definition chr (c : string) : regex := One (set_ [Lit (ch c)]).
Definition lit (s : string) : regex :=
  fold_right (fun c r => Seq (One (set_ [Lit c])) r) Eps (U s).
Definition cat (rs : list regex) : regex := fold_right Seq Eps rs.
Definition alt (rs : list regex) : regex :=
  match rs with
  | [] => Eps
  | r :: rs' => fold_left Alt rs' r
  end.
Definition star (s : cset) : regex := Rep s 0 None true.
Definition plus (s : cset) : regex := Rep s 1 None true.
Definition plus_lazy (s : cset) : regex := Rep s 1 None false.
Definition star_lazy (s : cset) : regex := Rep s 0 None false.
Definition times (s : cset) (lo hi : nat) : regex := Rep s lo (Some hi) true.
Definition spaces : regex := star (set_ [Space]).
Definition dot : cset := nset [Lit 10].
Definition digit09 : cset := set_ [Rng (ch "0") (ch "9")].

End Re.


(** ** Configuration (src/config/constants.py, src/config/patterns.py) *)

Module Config.

Import Py.

Inductive ExtractionQuality : Type :=
| EXCELLENT | GOOD | MODERATE | POOR | FAILED.

Definition quality_value (q : ExtractionQuality) : str :=
  match q with
  | EXCELLENT => U "excellent"
  | GOOD => U "good"
  | MODERATE => U "moderate"
  | POOR => U "poor"
  | FAILED => U "failed"
  end.

(** [ExtractionMethod]: the members' values, which is what the extractor
    passes around. *)
Definition CSS_SELECTOR : str := U "css_selector".
Definition REGEX_PATTERN : str := U "regex_pattern".
Definition XPATH_SIMULATION : str := U "xpath_simulation".
Definition CONTEXT_SEARCH : str := U "context_search".
Definition FALLBACK_PATTERN : str := U "fallback_pattern".

Definition METHOD_WEIGHTS : list (str * Q) :=
  [(CSS_SELECTOR, 1 # 1);
   (REGEX_PATTERN, 9 # 10);
   (XPATH_SIMULATION, 9 # 10);
   (CONTEXT_SEARCH, 8 # 10);
   (FALLBACK_PATTERN, 5 # 10)].

(** [d.get(key, default)] *)
Fixpoint get {A : Type} (d : list (str * A)) (key : str) (default : A) : A :=
  match d with
  | [] => default
  | (k, v) :: d' => if eqb k key then v else get d' key default
  end.

(** The keys of [FieldPatternsConfig.get_optimized_patterns()], in the
    order of the dictionary. *)
Inductive Field : Type :=
| so_dien_thoai | thu_nhap | ngan_hang | ma_ho_gia_dinh
| thong_tin_thanh_vien.

Definition field_names : list Field :=
  [so_dien_thoai; thu_nhap; ngan_hang; ma_ho_gia_dinh; thong_tin_thanh_vien].

Definition field_name (f : Field) : str :=
  match f with
  | so_dien_thoai => U "so_dien_thoai"
  | thu_nhap => U "thu_nhap"
  | ngan_hang => U "ngan_hang"
  | ma_ho_gia_dinh => U "ma_ho_gia_dinh"
  | thong_tin_thanh_vien => U "thong_tin_thanh_vien"
  end.

Definition Field_eqb (a b : Field) : bool :=
  match a, b with
  | so_dien_thoai, so_dien_thoai
  | thu_nhap, thu_nhap
  | ngan_hang, ngan_hang
  | ma_ho_gia_dinh, ma_ho_gia_dinh
  | thong_tin_thanh_vien, thong_tin_thanh_vien => true
  | _, _ => false
  end.

(** VALIDATION_RANGES *)
Definition income_min : Z := 100000.
Definition income_max : Z := 100000000.
Definition household_code_min_length : Z := 8.
Definition household_code_max_length : Z := 15.
Definition phone_min_length : Z := 9.
Definition phone_max_length : Z := 11.

(** ERROR_PENALTIES *)
Definition validation_error_penalty : Q := 1 # 10.
Definition data_quality_bonus : Q := 2 # 10.

(** [NormalizationMappingsConfig.get_normalization_maps()] *)
Definition banks : list (str * str) :=
  [(U "ACB", U "Ngân hàng TMCP Á Châu (ACB)");
   (U "VCB", U "Ngân hàng TMCP Ngoại thương Việt Nam (Vietcombank)");
   (U "TCB", U "Ngân hàng TMCP Kỹ thương Việt Nam (Techcombank)");
   (U "CTG", U "Ngân hàng TMCP Công thương Việt Nam (VietinBank)");
   (U "MBB", U "Ngân hàng TMCP Quân đội (MB Bank)");
   (U "VTB", U "Ngân hàng TMCP Việt Nam Thịnh vượng (VPBank)");
   (U "SHB", U "Ngân hàng TMCP Sài Gòn - Hà Nội (SHB)");
   (U "EIB", U "Ngân hàng TMCP Xuất Nhập khẩu Việt Nam (Eximbank)");
   (U "OCB", U "Ngân hàng TMCP Phương Đông (OCB)");
   (U "TPB", U "Ngân hàng TMCP Tiên Phong (TPBank)");
   (U "HDB", U "Ngân hàng TMCP Phát triển nhà TPHCM (HDBank)");
   (U "BID", U "Ngân hàng TMCP Đầu tư và Phát triển Việt Nam (BIDV)");
   (U "VIB", U "Ngân hàng TMCP Quốc tế Việt Nam (VIB)");
   (U "SEA", U "Ngân hàng TMCP Đông Nam Á (SeABank)")].

Definition relationships : list (str * str) :=
  [(U "con", U "Con"); (U "vo", U "Vợ"); (U "chong", U "Chồng");
   (U "cha", U "Cha"); (U "me", U "Mẹ"); (U "anh", U "Anh");
   (U "chi", U "Chị"); (U "em", U "Em"); (U "ong", U "Ông");
   (U "ba", U "Bà"); (U "chu", U "Chú"); (U "co", U "Cô");
   (U "bac", U "Bác"); (U "di", U "Dì"); (U "duong", U "Dượng")].

Definition currency_multipliers : list (str * Z) :=
  [(U "triệu", 1000000);
   (U "million", 1000000);
   (U "nghìn", 1000);
   (U "thousand", 1000);
   (U "k", 1000);
   (U "tỷ", 1000000000);
   (U "billion", 1000000000)].

End Config.

(** ** Data models (src/config/data_models.py) *)

Module Model.

Import Py Config.

Record MemberInfo : Type := {
  name : str;
  relationship : str;
  birth_year : option str;
  additional_info : option (list (str * str))
}.

Record NormalizedIncome : Type := {
  amount : Z;
  currency : str;
  formatted : str;
  original : str;
  parsing_successful : bool;
  multiplier_applied : option str
}.

(** [is_reasonable] *)
Definition is_reasonable (i : NormalizedIncome) : bool :=
  (100000 <=? amount i) && (amount i <=? 100000000).

Record NormalizedBank : Type := {
  code : option str;
  full_name : str;
  bank_original : str;
  match_type : str;
  bank_confidence : Q
}.

(** The values an [extracted_value] takes: [None], a string (phone,
    household code, or a raw candidate), or a normalized record. *)
Inductive value : Type :=
| VNone
| VStr (s : str)
| VIncome (i : NormalizedIncome)
| VBank (b : NormalizedBank)
| VMembers (l : list MemberInfo).

(** Python's truth value: [None], [''] and [[]] are false; instances of
    the dataclasses define neither [__bool__] nor [__len__] and are true. *)
Definition is_true (v : value) : bool :=
  match v with
  | VNone => false
  | VStr s => truthy s
  | VIncome _ => true
  | VBank _ => true
  | VMembers l => match l with [] => false | _ => true end
  end.

(** [ValidationResult]: the validity flag and the errors.  The warnings
    and the timestamp of the source are not read by the extractor and are
    left out. *)
Record ValidationResult : Type := {
  is_valid : bool;
  errors : list str
}.

Record ExtractionResult : Type := {
  result_field_name : str;
  extracted_value : value;
  confidence_score : Q;
  quality_level : ExtractionQuality;
  extraction_method : str;
  fallback_used : bool;
  validation_errors : list str;
  normalization_applied : list str;
  extraction_timestamp : Z
}.

Record ExtractionSummary : Type := {
  total_fields : Z;
  successful_extractions : Z;
  failed_extractions : Z;
  success_rate : Q;
  high_quality_count : Z;
  moderate_quality_count : Z;
  overall_quality_score : Q;
  status : str
}.

End Model.

(** ** Normalizers (src/normalizers/field_normalizers.py)

    Every [normalize] of the source wraps its body in [try/except].  The
    handlers are kept where the body can raise in this model ([int]); the
    other bodies are total here and their handlers have no counterpart. *)

Module Normalizers.

Import Py Re Config Model.

(** *** PhoneNormalizer *)

(** [r'^0[1-9][0-9]{8,9}$'] *)
Definition vietnam_phone_format : regex :=
  cat [Bol; chr "0"; One (set_ [Rng (ch "1") (ch "9")]); times digit09 8 9;
       Eol].

Definition PhoneNormalizer_normalize (phone : str) : str :=
  if negb (truthy phone) then []
  else
    let digits := Re.remove (nset [Digit]) phone in
    let digits :=
      if startswith (U "84") digits && (10 <=? len digits)
      then U "0" ++ skipn 2 digits
      else digits in
    match Re.match_ false vietnam_phone_format digits with
    | Some _ => digits
    | None => phone
    end.

(** *** IncomeNormalizer *)

(** The loop over [currency_multipliers.items()] with its [break]. *)
Fixpoint first_unit (units : list (str * Z)) (lowered : str)
    : option (str * Z) :=
  match units with
  | [] => None
  | (unit, multiplier) :: rest =>
      if contains unit lowered then Some (unit, multiplier)
      else first_unit rest lowered
  end.

Definition unparsed_income (income : str) : NormalizedIncome :=
  {| amount := 0;
     currency := U "VND";
     formatted := income;
     original := income;
     parsing_successful := false;
     multiplier_applied := None |}.

(** The two places of the [try] that can raise are [int(numeric_str)]
    and the f-string that formats the amount; the handler answers both
    with the unparsed record. *)
Definition IncomeNormalizer_normalize (income : str)
    : option NormalizedIncome :=
  if negb (truthy income) then None
  else
    let numeric_str :=
      Re.remove (nset [Digit; Lit (ch ","); Lit (ch ".")]) income in
    let numeric_str :=
      remove_char (ch ".") (remove_char (ch ",") numeric_str) in
    if truthy numeric_str then
      match int numeric_str with
      | Some amount =>
          let currency := U "VND" in
          let found := first_unit currency_multipliers (lower income) in
          let amount :=
            match found with
            | Some (_, multiplier) => amount * multiplier
            | None => amount
            end in
          match format_thousands_checked amount with
          | Some text =>
              Some {| amount := amount;
                      currency := currency;
                      formatted := text ++ U " " ++ currency;
                      original := income;
                      parsing_successful := true;
                      multiplier_applied := option_map fst found |}
          | None => Some (unparsed_income income)
          end
      | None => Some (unparsed_income income)
      end
    else Some (unparsed_income income).

(** *** BankNormalizer *)

Fixpoint exact_bank (table : list (str * str)) (bank bank_upper : str)
    : option (str * str) :=
  match table with
  | [] => None
  | (code, full) :: rest =>
      if contains code bank_upper || contains (lower code) (lower bank)
      then Some (code, full)
      else exact_bank rest bank bank_upper
  end.

Fixpoint partial_bank (table : list (str * str)) (bank_upper : str)
    : option (str * str) :=
  match table with
  | [] => None
  | (code, full) :: rest =>
      if existsb (fun word => contains word bank_upper)
                 (split_whitespace code)
      then Some (code, full)
      else partial_bank rest bank_upper
  end.

Definition BankNormalizer_normalize (bank : str) : option NormalizedBank :=
  if negb (truthy bank) then None
  else
    let bank_upper := strip (upper bank) in
    match exact_bank banks bank bank_upper with
    | Some (code, full) =>
        Some {| code := Some code; full_name := full; bank_original := bank;
                match_type := U "exact"; bank_confidence := 1 # 1 |}
    | None =>
        match partial_bank banks bank_upper with
        | Some (code, full) =>
            Some {| code := Some code; full_name := full;
                    bank_original := bank;
                    match_type := U "partial"; bank_confidence := 8 # 10 |}
        | None =>
            Some {| code := None; full_name := title bank;
                    bank_original := bank;
                    match_type := U "unknown"; bank_confidence := 5 # 10 |}
        end
    end.

(** *** HouseholdCodeNormalizer *)

(** [r'^[A-Z0-9]{8,15}$'] *)
Definition household_code_format : regex :=
  cat [Bol;
       times (set_ [Rng (ch "A") (ch "Z"); Rng (ch "0") (ch "9")]) 8 15;
       Eol].

Definition HouseholdCodeNormalizer_normalize (code : str) : str :=
  if negb (truthy code) then []
  else
    let normalized := Re.remove (set_ [Space]) (upper code) in
    match Re.match_ false household_code_format normalized with
    | Some _ => normalized
    | None => code
    end.

(** *** MemberInfoNormalizer *)

Definition member (n r : str) (y : option str) : MemberInfo :=
  {| name := n; relationship := r; birth_year := y;
     additional_info := None |}.

Fixpoint first_relationship (table : list (str * str)) (rel_lower : str)
    : option str :=
  match table with
  | [] => None
  | (key, normalized) :: rest =>
      if contains key rel_lower then Some normalized
      else first_relationship rest rel_lower
  end.

Definition _normalize_relationship (relationship : str) : str :=
  if negb (truthy relationship) then []
  else
    let rel_lower := strip (lower relationship) in
    match first_relationship relationships rel_lower with
    | Some normalized => normalized
    | None => title relationship
    end.

Definition quote : char := 34.
Definition dquote : regex := One (set_ [Lit quote]).

(** [[A-ZÀÁ...Đ]] and [[a-zàá...đ\s]] *)
Definition name_first : cset :=
  set_ [Rng (ch "A") (ch "Z");
        Among (U "ÀÁẢÃẠÂẤẦẨẪẬĂẮẰẲẴẶÈÉẺẼẸÊẾỀỂỄỆÍÌỈĨỊÒÓỎÕỌÔỐỒỔỖỘƠỚỜỞỠỢÙÚỦŨỤƯỨỪỬỮỰỲÝỶỸỴĐ")].
Definition name_rest : cset :=
  set_ [Rng (ch "a") (ch "z");
        Among (U "àáảãạâấầẩẫậăắằẳẵặèéẻẽẹêếềểễệíìỉĩịòóỏõọôốồổỗộơớờởỡợùúủũụưứừửữựỳýỷỹỵđ");
        Space].

(** [(Vợ|Chồng|Con|Cha|Mẹ|Anh|Chị|Em)] *)
Definition relation_words : regex :=
  alt [lit "Vợ"; lit "Chồng"; lit "Con"; lit "Cha"; lit "Mẹ"; lit "Anh";
       lit "Chị"; lit "Em"].

(** [<tr>\s*<td>([^<]+)</td>\s*<td>([^<]+)</td>\s*<td>([^<]+)</td>\s*</tr>] *)
Definition table_cell (n : nat) : regex :=
  cat [lit "<td>"; Group n (plus (nset [Lit (ch "<")])); lit "</td>"].
Definition tr_pattern : regex :=
  cat [lit "<tr>"; spaces; table_cell 1; spaces; table_cell 2; spaces;
       table_cell 3; spaces; lit "</tr>"].

Definition _extract_from_table_rows (text : str) : list MemberInfo :=
  if contains (U "<tr>") (lower text) then
    flat_map
      (fun m =>
         let name := strip (group m 1) in
         let relationship := strip (group m 2) in
         let birth_year := strip (group m 3) in
         if truthy name && truthy relationship then
           [member name (_normalize_relationship relationship)
                   (if isdigit birth_year then Some birth_year else None)]
         else [])
      (findall true tr_pattern text)
  else [].

(** The JSON triple [Kname:\s*V[^}]*Krelation:\s*V[^}]*Kbirth_year:\s*V],
    where a key [Kx] is the word x between double quotes and a value [V]
    is a group of one or more non-quote characters between double quotes. *)
Definition json_key (k : string) : regex :=
  cat [dquote; lit k; dquote; chr ":"; spaces].
Definition json_value (n : nat) : regex :=
  cat [dquote; Group n (plus (nset [Lit quote])); dquote].
Definition json_pattern : regex :=
  let gap := star (nset [Lit (ch "}")]) in
  cat [json_key "name"; json_value 1; gap;
       json_key "relation"; json_value 2; gap;
       json_key "birth_year"; json_value 3].

Definition _extract_from_json (text : str) : list MemberInfo :=
  if contains (quote :: U "name" ++ [quote]) text
     && contains (quote :: U "relation") text
  then
    map
      (fun m =>
         let name := group m 1 in
         let relationship := group m 2 in
         let birth_year := group m 3 in
         member (strip name) (_normalize_relationship relationship)
                (if isdigit birth_year then Some (strip birth_year)
                 else None))
      (findall false json_pattern text)
  else [].

(** Pattern 1, Name - Relationship - Year:
    [(N)\s*-\s*(R)\s*-\s*([0-9]{4})] *)
Definition pattern1 : regex :=
  cat [Group 1 (Seq (One name_first) (plus name_rest));
       spaces; chr "-"; spaces; Group 2 relation_words;
       spaces; chr "-"; spaces; Group 3 (times digit09 4 4)].

Definition structured_pattern1 (text : str) : list MemberInfo :=
  map
    (fun m =>
       let name := strip (group m 1) in
       let relationship := strip (group m 2) in
       let birth_year := strip (group m 3) in
       member name (_normalize_relationship relationship) (Some birth_year))
    (findall true pattern1 text).

(** Pattern 2, Relationship: Name (Year):
    [(R)[:\s-]*(N lazy)(?:\s*\(([0-9]{4})\))?] *)
Definition pattern2 : regex :=
  cat [Group 1 relation_words;
       star (set_ [Lit (ch ":"); Space; Lit (ch "-")]);
       Group 2 (Seq (One name_first) (plus_lazy name_rest));
       Opt (cat [spaces; chr "("; Group 3 (times digit09 4 4); chr ")"])].

Definition structured_pattern2 (text : str) : list MemberInfo :=
  map
    (fun m =>
       let relationship := group m 1 in
       let name := group m 2 in
       let birth_year := group m 3 in
       let name :=
         strip (rstrip_chars (U "(") (rstrip_chars (U ",") (strip name))) in
       member name (_normalize_relationship relationship)
              (if truthy birth_year then Some birth_year else None))
    (findall true pattern2 text).

(** [\b(19|20)\d{2}\b] *)
Definition year_pattern : regex :=
  cat [WordB; Group 1 (alt [lit "19"; lit "20"]); times (set_ [Digit]) 2 2;
       WordB].

(** Pattern 3, Name: Relationship: the name group, an optional colon
    with blanks around it, the relationship group. *)
Definition pattern3 : regex :=
  cat [Group 1 (Seq (One name_first) (plus name_rest));
       Opt (cat [spaces; chr ":"; spaces]);
       Group 2 relation_words].

Definition structured_pattern3 (text : str) : list MemberInfo :=
  map
    (fun m =>
       let name := strip (group m 1) in
       let relationship := strip (group m 2) in
       let birth_year :=
         option_map Re.text
           (search false year_pattern
              (slice text (find name text) (find name text + 100))) in
       member name (_normalize_relationship relationship) birth_year)
    (findall true pattern3 text).

(** The three blocks append to one list, one after the other. *)
Definition _extract_from_structured_text (text : str) : list MemberInfo :=
  structured_pattern1 text ++ structured_pattern2 text
    ++ structured_pattern3 text.

Definition relationship_keywords : list str :=
  [U "vợ"; U "chồng"; U "con"; U "cha"; U "mẹ"; U "anh"; U "chị"; U "em"].

(** [(N).*?(R)] *)
Definition rel_pattern : regex :=
  cat [Group 1 (Seq (One name_first) (plus name_rest));
       star_lazy dot; Group 2 relation_words].

Definition delimited_segment (segment : str) : list MemberInfo :=
  let segment := strip segment in
  if negb (truthy segment) || (len segment <? 5) then []
  else if existsb (fun rel => contains rel (lower segment))
                  relationship_keywords
  then
    match search true rel_pattern segment with
    | Some m =>
        let name_part := strip (group m 1) in
        let relationship_part := strip (group m 2) in
        let name_part :=
          strip (Re.remove (set_ [Lit (ch ":"); Lit (ch "-")]) name_part) in
        let birth_year :=
          option_map Re.text (search false year_pattern segment) in
        if truthy name_part then
          [member name_part (_normalize_relationship relationship_part)
                  birth_year]
        else []
    | None => []
    end
  else [].

Definition _extract_from_delimited_text (text : str) : list MemberInfo :=
  let segments :=
    if contains (U "|") text then split_by (Z.eqb (ch "|")) text
    else Re.split (set_ [Lit (ch ","); Lit (ch ";"); Lit 10; Lit 13]) text in
  flat_map delimited_segment segments.

(** The f-string joining [member.name.lower().strip()] and
    [member.relationship.lower().strip()] with an underscore. *)
Definition member_key (m : MemberInfo) : str :=
  strip (lower (name m)) ++ U "_" ++ strip (lower (relationship m)).

Fixpoint remove_duplicates_from (seen : list str) (members : list MemberInfo)
    : list MemberInfo :=
  match members with
  | [] => []
  | m :: rest =>
      let key := member_key m in
      if negb (existsb (eqb key) seen)
         && truthy (name m) && truthy (relationship m)
      then m :: remove_duplicates_from (key :: seen) rest
      else remove_duplicates_from seen rest
  end.

Definition _remove_duplicates (members : list MemberInfo)
    : list MemberInfo :=
  remove_duplicates_from [] members.

(** [members.extend(...)] guarded by [if not members]. *)
Definition extend_if_empty (members : list MemberInfo)
    (more : list MemberInfo) : list MemberInfo :=
  match members with
  | [] => members ++ more
  | _ => members
  end.

Definition MemberInfoNormalizer_normalize (member_text : str)
    : list MemberInfo :=
  if negb (truthy member_text) then []
  else
    let members := [] ++ _extract_from_table_rows member_text in
    let members :=
      extend_if_empty members (_extract_from_json member_text) in
    let members :=
      extend_if_empty members (_extract_from_structured_text member_text) in
    let members :=
      extend_if_empty members (_extract_from_delimited_text member_text) in
    _remove_duplicates members.

End Normalizers.


(** ** Validators (src/validators/field_validators.py)

    Each [validate] is given the value its normalizer returned.  A
    validator first tests [if not value]; the value then has the shape
    the normalizer produces (see [normalized_shape] below), and the other
    shapes are mapped to the empty-value answer. *)

Module Validators.

Import Py Re Config Model Normalizers.

Definition invalid (e : str) : ValidationResult :=
  {| is_valid := false; errors := [e] |}.

Definition validated (es : list str) : ValidationResult :=
  {| is_valid := match es with [] => true | _ => false end; errors := es |}.

Definition PhoneValidator_validate (v : value) : ValidationResult :=
  match v with
  | VStr phone =>
      if negb (truthy phone) then invalid (U "Phone number is empty")
      else
        let errors := [] in
        let errors :=
          match Re.match_ false vietnam_phone_format phone with
          | Some _ => errors
          | None => errors ++ [U "Invalid Vietnam phone number format"]
          end in
        let errors :=
          if (len phone <? phone_min_length)
             || (phone_max_length <? len phone)
          then errors
               ++ [U "Phone number length should be between "
                   ++ str_of_Z phone_min_length ++ U " and "
                   ++ str_of_Z phone_max_length ++ U " digits"]
          else errors in
        validated errors
  | _ => invalid (U "Phone number is empty")
  end.

Definition IncomeValidator_validate (v : value) : ValidationResult :=
  match v with
  | VIncome income =>
      if negb (parsing_successful income)
      then invalid (U "Income parsing failed")
      else
        let errors := [] in
        let errors :=
          if amount income <? income_min then
            errors ++ [U "Income seems too low (< "
                       ++ format_thousands income_min ++ U " VND)"]
          else if income_max <? amount income then
            errors ++ [U "Income seems too high (> "
                       ++ format_thousands income_max ++ U " VND)"]
          else errors in
        validated errors
  | _ => invalid (U "Income data is empty")
  end.

Definition BankValidator_validate (v : value) : ValidationResult :=
  match v with
  | VBank bank =>
      let errors := [] in
      let errors :=
        if eqb (match_type bank) (U "unknown") then errors
        else if eqb (match_type bank) (U "error") then
          errors ++ [U "Error occurred during bank normalization"]
        else errors in
      validated errors
  | _ => invalid (U "Bank data is empty")
  end.

Definition HouseholdCodeValidator_validate (v : value) : ValidationResult :=
  match v with
  | VStr code =>
      if negb (truthy code) then invalid (U "Household code is empty")
      else
        let errors := [] in
        let errors :=
          match Re.match_ false household_code_format code with
          | Some _ => errors
          | None =>
              errors ++ [U "Invalid household code format (should be 8-15 alphanumeric characters)"]
          end in
        let errors :=
          if len code <? household_code_min_length then
            errors ++ [U "Household code too short (minimum "
                       ++ str_of_Z household_code_min_length
                       ++ U " characters)"]
          else if household_code_max_length <? len code then
            errors ++ [U "Household code too long (maximum "
                       ++ str_of_Z household_code_max_length
                       ++ U " characters)"]
          else errors in
        validated errors
  | _ => invalid (U "Household code is empty")
  end.

(** The errors of the member at index [i] (from 0). *)
Definition member_errors (i : Z) (m : MemberInfo) : list str :=
  let member_prefix := U "Member " ++ str_of_Z (i + 1) in
  (if negb (truthy (name m)) || negb (truthy (strip (name m)))
   then [member_prefix ++ U ": Missing name"] else [])
  ++
  (if negb (truthy (relationship m))
      || negb (truthy (strip (relationship m)))
   then [member_prefix ++ U ": Missing relationship"] else []).

Fixpoint members_errors (i : Z) (members : list MemberInfo) : list str :=
  match members with
  | [] => []
  | m :: rest => member_errors i m ++ members_errors (i + 1) rest
  end.

Definition MemberInfoValidator_validate (v : value) : ValidationResult :=
  match v with
  | VMembers (m :: rest) => validated (members_errors 0 (m :: rest))
  | _ => invalid (U "No member information found")
  end.

(** [ValidatorFactory.get_validator(field_name).validate(value)] *)
Definition validate (f : Field) (v : value) : ValidationResult :=
  match f with
  | so_dien_thoai => PhoneValidator_validate v
  | thu_nhap => IncomeValidator_validate v
  | ngan_hang => BankValidator_validate v
  | ma_ho_gia_dinh => HouseholdCodeValidator_validate v
  | thong_tin_thanh_vien => MemberInfoValidator_validate v
  end.

End Validators.

(** ** The extractor (src/extractors/base_extractor.py,
       src/vss_enhanced_extractor_v2.py) *)

Module Extractor.

Import Py Config Model Normalizers Validators.

(** Exceptions: a computation returns a value or raises with a message
    ([str(e)]). *)
Inductive outcome (A : Type) : Type :=
| Ok (a : A)
| Raise (e : str).

Arguments Ok {A} a.
Arguments Raise {A} e.

Definition bind {A B : Type} (c : outcome A) (k : A -> outcome B)
    : outcome B :=
  match c with
  | Ok a => k a
  | Raise e => Raise e
  end.

Notation "x <- c ;; k" := (bind c (fun x => k))
  (at level 61, c at next level, right associativity).

(** [try: c  except Exception as e: h(str(e))] *)
Definition try_except {A : Type} (c : outcome A) (h : str -> A) : A :=
  match c with
  | Ok a => a
  | Raise e => h e
  end.

(** *** Scoring (BaseExtractor) *)

Definition Qlt_bool (x y : Q) : bool := negb (Qle_bool y x).

(** The body of the source is wrapped in a [try] whose handler returns
    0.5; nothing in the body can raise. *)
Definition calculate_confidence_score (base_confidence : Q)
    (validation_errors : list str) (method : str) : Q :=
  let confidence := base_confidence in
  let error_penalty :=
    (inject_Z (len validation_errors) * validation_error_penalty)%Q in
  let confidence := (confidence - error_penalty)%Q in
  let method_weight := get METHOD_WEIGHTS method (5 # 10) in
  let confidence := (confidence * method_weight)%Q in
  Qmax 0 (Qmin 1 confidence).

Definition determine_quality_level (confidence : Q) : ExtractionQuality :=
  if Qle_bool (9 # 10) confidence then EXCELLENT
  else if Qle_bool (7 # 10) confidence then GOOD
  else if Qle_bool (5 # 10) confidence then MODERATE
  else if Qlt_bool 0 confidence then POOR
  else FAILED.

(** [ExtractionResult(...)]; [__post_init__] stores [datetime.now()],
    here the reading [now]. *)
Definition new_ExtractionResult (field : Field) (v : value) (c : Q)
    (ql : ExtractionQuality) (method : str) (fb : bool)
    (errs applied : list str) (now : Z) : ExtractionResult :=
  {| result_field_name := field_name field;
     extracted_value := v;
     confidence_score := c;
     quality_level := ql;
     extraction_method := method;
     fallback_used := fb;
     validation_errors := errs;
     normalization_applied := applied;
     extraction_timestamp := now |}.

Definition _create_failed_extraction_result (field : Field)
    (error_message : str) (now : Z) : ExtractionResult :=
  new_ExtractionResult field VNone 0 FAILED (U "none") false
    [error_message] [] now.

(** [NormalizerFactory.get_normalizer(field_name).normalize(value)] *)
Definition normalize (f : Field) (raw : str) : value :=
  match f with
  | so_dien_thoai => VStr (PhoneNormalizer_normalize raw)
  | thu_nhap =>
      match IncomeNormalizer_normalize raw with
      | Some i => VIncome i
      | None => VNone
      end
  | ngan_hang =>
      match BankNormalizer_normalize raw with
      | Some b => VBank b
      | None => VNone
      end
  | ma_ho_gia_dinh => VStr (HouseholdCodeNormalizer_normalize raw)
  | thong_tin_thanh_vien => VMembers (MemberInfoNormalizer_normalize raw)
  end.

(** The handler of the source returns the raw value when the normalizer
    raises; the normalizers do not raise. *)
Definition _normalize_field_value (f : Field) (raw : str) : value :=
  if negb (truthy raw) then VNone else normalize f raw.

(** One entry of [extraction_attempts]: (method, value, base confidence). *)
Definition attempt := (str * str * Q)%type.

Definition confidence_of (a : attempt) : Q := snd a.

(** [max(attempts, key=lambda x: x[2])]: the first attempt of greatest
    confidence. *)
Fixpoint max_from (best : attempt) (l : list attempt) : attempt :=
  match l with
  | [] => best
  | a :: l' =>
      max_from
        (if Qlt_bool (confidence_of best) (confidence_of a) then a
         else best) l'
  end.

Definition max_attempt (l : list attempt) : option attempt :=
  match l with
  | [] => None
  | a :: l' => Some (max_from a l')
  end.

(** [if r: attempts.append((method, r, w))] *)
Definition record_attempt (attempts : list attempt) (method : str)
    (r : option str) (w : Q) : list attempt :=
  match r with
  | Some v => if truthy v then attempts ++ [(method, v, w)] else attempts
  | None => attempts
  end.

Definition _select_best_extraction_result (f : Field)
    (extraction_attempts : list attempt) : option attempt :=
  let valid_attempts :=
    if Field_eqb f thong_tin_thanh_vien then
      flat_map
        (fun a : attempt =>
           let '(method, v, base_conf) := a in
           if is_true (_normalize_field_value f v) then
             [(method, v, (base_conf + data_quality_bonus)%Q)]
           else [])
        extraction_attempts
    else [] in
  match max_attempt valid_attempts with
  | Some best => Some best
  | None => max_attempt extraction_attempts
  end.

Section Engine.

(** The five matchers of [BaseExtractor]: three query the document parsed
    by BeautifulSoup, two apply the regular expressions of the pattern
    registry to the raw text.  Each returns a candidate, nothing, or
    raises; the arbiter below is stated over their outcomes. *)
Variable extract_by_css_selectors : str -> Field -> outcome (option str).
Variable extract_by_regex : str -> Field -> outcome (option str).
Variable extract_by_context : str -> Field -> outcome (option str).
Variable extract_by_xpath_simulation : str -> Field -> outcome (option str).
Variable extract_by_fallback : str -> Field -> outcome (option str).

(** Values of the caller's [input_data], and their comparison with an
    extracted value ([CrossValidator._compare_values], which goes through
    [str()] and floating point). *)
Variable InputValue : Type.

Record Comparison : Type := {
  matches : bool;
  similarity : Q;
  notes : str
}.

Variable _compare_values : Field -> value -> InputValue -> Comparison.

(** [str()] of a normalized record or list (the generated [__repr__]). *)
Variable dataclass_repr : value -> str.

Definition py_str (v : value) : str :=
  match v with
  | VNone => U "None"
  | VStr s => s
  | _ => dataclass_repr v
  end.

Definition input_dict := list (str * InputValue).

Fixpoint dict_lookup (d : input_dict) (key : str) : option InputValue :=
  match d with
  | [] => None
  | (k, v) :: d' => if eqb k key then Some v else dict_lookup d' key
  end.

(** [if input_data:] *)
Definition provided (input_data : option input_dict) : option input_dict :=
  match input_data with
  | Some (kv :: d) => Some (kv :: d)
  | _ => None
  end.

Definition field_mappings (f : Field) : list str :=
  match f with
  | so_dien_thoai => [U "phone"; U "dien_thoai"; U "sdt"]
  | thu_nhap => [U "income"; U "salary"; U "luong"; U "thu_nhap"]
  | ngan_hang => [U "bank"; U "ngan_hang"]
  | ma_ho_gia_dinh => [U "household_code"; U "ma_ho"; U "hgd"]
  | thong_tin_thanh_vien => [U "members"; U "thanh_vien"; U "family"]
  end.

(** The entries of the dictionary [validate_field_consistency] returns
    that its callers read. *)
Record Consistency : Type := {
  is_consistent : bool;
  input_key : option str;
  comparison_notes : option str
}.

Fixpoint first_present (f : Field) (v : value) (keys : list str)
    (input_data : input_dict) : Consistency :=
  match keys with
  | [] =>
      {| is_consistent := true; input_key := None;
         comparison_notes := None |}
  | key :: keys' =>
      match dict_lookup input_data key with
      | Some input_value =>
          let consistency := _compare_values f v input_value in
          {| is_consistent := matches consistency;
             input_key := Some key;
             comparison_notes := Some (notes consistency) |}
      | None => first_present f v keys' input_data
      end
  end.

Definition validate_field_consistency (f : Field) (v : value)
    (input_data : input_dict) : Consistency :=
  first_present f v (field_mappings f) input_data.

(** The handler of the source is reached when the validator raises; the
    validators do not raise on the values the normalizers return. *)
Definition _validate_field_value (f : Field) (v : value)
    (input_data : option input_dict) : ValidationResult :=
  let validation_result := validate f v in
  match provided input_data with
  | Some d =>
      let cross_validation := validate_field_consistency f v d in
      if negb (is_consistent cross_validation) then
        {| is_valid := is_valid validation_result;
           errors :=
             errors validation_result
             ++ [U "Cross-validation failed: "
                 ++ match comparison_notes cross_validation with
                    | Some n => n
                    | None => U "Unknown issue"
                    end] |}
      else validation_result
  | None => validation_result
  end.

Definition get_normalization_applied (f : Field) (original : str)
    (normalized : value) : list str :=
  let applied := [] in
  if negb (truthy original) then applied
  else if negb (eqb original (py_str normalized)) then
    let applied := applied ++ [U "value_changed"] in
    match f with
    | so_dien_thoai =>
        let applied :=
          if contains (U "+84") original || contains (U "84") original
          then applied ++ [U "international_prefix_converted"]
          else applied in
        if existsb (fun c => contains c original)
                   [U "-"; U "("; U ")"; U " "]
        then applied ++ [U "formatting_removed"]
        else applied
    | thu_nhap =>
        let applied := applied ++ [U "currency_parsed"] in
        if contains (U "triệu") (lower original)
        then applied ++ [U "million_multiplier_applied"]
        else applied
    | ngan_hang => applied ++ [U "bank_name_standardized"]
    | ma_ho_gia_dinh =>
        let applied := applied ++ [U "uppercase_conversion"] in
        if contains (U " ") original
        then applied ++ [U "spaces_removed"]
        else applied
    | thong_tin_thanh_vien => applied
    end
  else applied.

(** The strategies of [_extract_single_field], in the order of the source,
    with the base confidence each attempt is recorded with. *)
Definition collect_attempts (html_content : str) (f : Field)
    : outcome (list attempt) :=
  let extraction_attempts := [] in
  css_result <- extract_by_css_selectors html_content f ;;
  let extraction_attempts :=
    record_attempt extraction_attempts CSS_SELECTOR css_result (9 # 10) in
  regex_result <- extract_by_regex html_content f ;;
  let extraction_attempts :=
    record_attempt extraction_attempts REGEX_PATTERN regex_result (8 # 10) in
  context_result <- extract_by_context html_content f ;;
  let extraction_attempts :=
    record_attempt extraction_attempts CONTEXT_SEARCH context_result
                   (7 # 10) in
  xpath_result <- extract_by_xpath_simulation html_content f ;;
  let extraction_attempts :=
    record_attempt extraction_attempts XPATH_SIMULATION xpath_result
                   (8 # 10) in
  match extraction_attempts with
  | [] =>
      fallback_result <- extract_by_fallback html_content f ;;
      Ok (record_attempt extraction_attempts FALLBACK_PATTERN
                         fallback_result (5 # 10))
  | _ => Ok extraction_attempts
  end.

(** The body of the [try] of [_extract_single_field]. *)
Definition extract_single_field_body (f : Field) (html_content : str)
    (input_data : option input_dict) (now : Z) : outcome ExtractionResult :=
  extraction_attempts <- collect_attempts html_content f ;;
  match _select_best_extraction_result f extraction_attempts with
  | Some (best_method, best_value, base_confidence) =>
      let normalized_value := _normalize_field_value f best_value in
      let validation_result :=
        _validate_field_value f normalized_value input_data in
      let final_confidence :=
        calculate_confidence_score base_confidence
          (errors validation_result) best_method in
      Ok (new_ExtractionResult f normalized_value final_confidence
            (determine_quality_level final_confidence) best_method
            (contains (U "fallback") best_method)
            (errors validation_result)
            (get_normalization_applied f best_value normalized_value)
            now)
  | None =>
      Ok (_create_failed_extraction_result f
            (U "No extraction pattern matched") now)
  end.

Definition _extract_single_field (f : Field) (html_content : str)
    (input_data : option input_dict) (now : Z) : ExtractionResult :=
  try_except (extract_single_field_body f html_content input_data now)
    (fun e =>
       _create_failed_extraction_result f (U "Extraction error: " ++ e) now).

Definition count_if {A : Type} (p : A -> bool) (l : list A) : Z :=
  len (filter p l).

Definition is_high (r : ExtractionResult) : bool :=
  match quality_level r with
  | EXCELLENT | GOOD => true
  | _ => false
  end.

Definition is_moderate (r : ExtractionResult) : bool :=
  match quality_level r with
  | MODERATE => true
  | _ => false
  end.

Definition _generate_extraction_summary
    (extracted_fields : list (Field * ExtractionResult))
    : ExtractionSummary :=
  let results := map snd extracted_fields in
  let total_fields := len extracted_fields in
  let successful_extractions :=
    count_if (fun r => is_true (extracted_value r)) results in
  let failed_extractions :=
    count_if (fun r => negb (is_true (extracted_value r))) results in
  let high_quality :=
    count_if (fun r => is_true (extracted_value r) && is_high r) results in
  let moderate_quality :=
    count_if (fun r => is_true (extracted_value r) && negb (is_high r)
                       && is_moderate r) results in
  let success_rate :=
    if 0 <? total_fields
    then (inject_Z successful_extractions / inject_Z total_fields)%Q
    else 0%Q in
  let quality_score :=
    if 0 <? total_fields
    then ((inject_Z high_quality * 1 + inject_Z moderate_quality * (5 # 10))
          / inject_Z total_fields)%Q
    else 0%Q in
  let status :=
    if Qlt_bool (8 # 10) quality_score then U "excellent"
    else if Qlt_bool (6 # 10) quality_score then U "good"
    else if Qlt_bool (3 # 10) quality_score then U "moderate"
    else U "poor" in
  {| total_fields := total_fields;
     successful_extractions := successful_extractions;
     failed_extractions := failed_extractions;
     success_rate := success_rate;
     high_quality_count := high_quality;
     moderate_quality_count := moderate_quality;
     overall_quality_score := quality_score;
     status := status |}.

(** The entries of the dictionary [extract_enhanced_fields] returns that
    concern the fields: the field map and the summary.  The metadata
    (engine name, call timestamp, document shape), the per-field quality
    metrics and the cross-validation report are computed from these and
    from the document and are left out. *)
Record ExtractionResults : Type := {
  input_data_provided : bool;
  extracted_fields : list (Field * ExtractionResult);
  extraction_summary : ExtractionSummary
}.

(** [clock f] is the value of [datetime.now()] when the result of field
    [f] is built during the call.  The handler around the whole body of
    the source, which answers with an error response when the document
    cannot be parsed at all, has no counterpart: the body does not raise
    here. *)
Definition extract_enhanced_fields (clock : Field -> Z) (html_content : str)
    (input_data : option input_dict) : ExtractionResults :=
  let fields :=
    map (fun f => (f, _extract_single_field f html_content input_data
                        (clock f)))
        field_names in
  {| input_data_provided :=
       match input_data with Some _ => true | None => false end;
     extracted_fields := fields;
     extraction_summary := _generate_extraction_summary fields |}.

End Engine.

End Extractor.

(** ** Derived properties of the data models (src/config/data_models.py) *)

Module Derived.

Import Py Config Model Extractor.

(** [ExtractionResult.is_successful] *)
Definition is_successful (r : ExtractionResult) : bool :=
  match extracted_value r with VNone => false | _ => true end
  && match quality_level r with FAILED => false | _ => true end.

(** [ExtractionResult.is_high_quality] *)
Definition is_high_quality (r : ExtractionResult) : bool :=
  match quality_level r with
  | EXCELLENT | GOOD => true
  | _ => false
  end.

(** [MemberInfo.is_complete]: [bool(self.name and self.relationship)] *)
Definition is_complete (m : MemberInfo) : bool :=
  truthy (name m) && truthy (relationship m).

(** [ExtractionSummary.is_successful_run] *)
Definition is_successful_run (s : ExtractionSummary) : bool :=
  Qle_bool (8 # 10) (success_rate s).

(** [ExtractionSummary.performance_grade] *)
Definition performance_grade (s : ExtractionSummary) : str :=
  if Qlt_bool (8 # 10) (overall_quality_score s) then U "A"
  else if Qlt_bool (6 # 10) (overall_quality_score s) then U "B"
  else if Qlt_bool (4 # 10) (overall_quality_score s) then U "C"
  else U "D".

End Derived.

(** ** Document shape and member elements (BaseExtractor) *)

Module Shape.

Import Py Config Model.

(** [StructureType], by the members' values. *)
Definition TABLE_BASED : str := U "table_based".
Definition FORM_BASED : str := U "form_based".
Definition DIV_BASED : str := U "div_based".
Definition MIXED_STRUCTURE : str := U "mixed_structure".

(** STRUCTURE_THRESHOLDS *)
Definition table_count_for_table_based : Z := 3.
Definition div_count_for_div_based : Z := 10.

Record HTMLAnalysis : Type := {
  total_elements : Z;
  table_count : Z;
  div_count : Z;
  span_count : Z;
  form_count : Z;
  input_count : Z;
  has_json_script : bool;
  text_length : Z;
  structure_type : str
}.

(** [HTMLAnalysis.is_table_heavy], [is_form_based], [is_div_heavy] *)
Definition is_table_heavy (a : HTMLAnalysis) : bool := 3 <? table_count a.
Definition is_form_based (a : HTMLAnalysis) : bool := 0 <? form_count a.
Definition is_div_heavy (a : HTMLAnalysis) : bool := 10 <? div_count a.

Definition _determine_structure_type (table_count form_count div_count : Z)
    : str :=
  if table_count_for_table_based <? table_count then TABLE_BASED
  else if 0 <? form_count then FORM_BASED
  else if div_count_for_div_based <? div_count then DIV_BASED
  else MIXED_STRUCTURE.

(** What [analyze_html_structure] reads off the parsed document: the
    lengths of the [find_all] results, whether a script holds a brace
    pair, and the length of the text. *)
Record SoupCounts : Type := {
  all_elements : Z;
  tables : Z;
  divs : Z;
  spans : Z;
  forms : Z;
  inputs : Z;
  json_script : bool;
  text_chars : Z
}.

(** [analyze_html_structure]; [None] stands for a document on which a
    query raises, which the handler answers with the zero shape. *)
Definition analyze_html_structure (soup : option SoupCounts) : HTMLAnalysis :=
  match soup with
  | Some c =>
      let table_count := tables c in
      let form_count := forms c in
      let div_count := divs c in
      let structure_type :=
        _determine_structure_type table_count form_count div_count in
      {| total_elements := all_elements c;
         table_count := table_count;
         div_count := div_count;
         span_count := spans c;
         form_count := form_count;
         input_count := inputs c;
         has_json_script := json_script c;
         text_length := text_chars c;
         structure_type := structure_type |}
  | None =>
      {| total_elements := 0; table_count := 0; div_count := 0;
         span_count := 0; form_count := 0; input_count := 0;
         has_json_script := false; text_length := 0;
         structure_type := MIXED_STRUCTURE |}
  end.

(** [sep.join(l)] *)
Fixpoint join (sep : str) (l : list str) : str :=
  match l with
  | [] => []
  | [a] => a
  | a :: rest => a ++ sep ++ join sep rest
  end.

Definition skip_headers : list str :=
  [U "họ tên"; U "quan hệ"; U "năm sinh"; U "name"; U "relationship"].

(** The texts that the loop of [_handle_multiple_member_elements] appends
    to [combined_text]. *)
Definition combined_text (texts : list str) : list str :=
  flat_map
    (fun element_text =>
       let text := strip element_text in
       if truthy text && (0 <? len text) then
         if negb (existsb (fun header => contains header (lower text))
                          skip_headers)
         then [text] else []
       else [])
    texts.

Fixpoint first_text (texts : list str) : option str :=
  match texts with
  | [] => None
  | element_text :: rest =>
      let text := strip element_text in
      if truthy text && (0 <? len text) then Some text
      else first_text rest
  end.

(** [_handle_multiple_member_elements]; an element stands for the text
    [element.get_text()] returns. *)
Definition _handle_multiple_member_elements (elements : list str)
    : option str :=
  match (if 1 <? len elements then combined_text elements else []) with
  | [] => first_text elements
  | combined => Some (join (U " | ") combined)
  end.

End Shape.

(** ** Quality metrics and the cross-validation report
       (src/vss_enhanced_extractor_v2.py) *)

Module Reports.

Import Py Config Model Extractor.

Record QualityMetrics : Type := {
  confidence_score : Q;
  quality_level : str;
  extraction_method : str;
  fallback_used : bool;
  validation_error_count : Z;
  normalization_steps : Z;
  data_completeness : Q;
  overall_score : Q
}.

(** [QualityMetrics.is_excellent], [is_acceptable] *)
Definition is_excellent (m : QualityMetrics) : bool :=
  Qle_bool (9 # 10) (overall_score m).
Definition is_acceptable (m : QualityMetrics) : bool :=
  Qle_bool (5 # 10) (overall_score m).

(** [sum(factors.values())] over the four factors, in their order. *)
Definition _calculate_overall_score (r : ExtractionResult) : Q :=
  let confidence := (Model.confidence_score r * (4 # 10))%Q in
  let completeness :=
    ((if is_true (extracted_value r) then 1 else 0) * (3 # 10))%Q in
  let validation :=
    (Qmax 0 (1 - inject_Z (len (validation_errors r)) * (2 # 10))
     * (2 # 10))%Q in
  let method_reliability :=
    ((if negb (Model.fallback_used r) then 8 # 10 else 4 # 10)
     * (1 # 10))%Q in
  (0 + confidence + completeness + validation + method_reliability)%Q.

Definition _calculate_quality_metrics (r : ExtractionResult)
    : QualityMetrics :=
  let overall_score := _calculate_overall_score r in
  {| confidence_score := Model.confidence_score r;
     quality_level := quality_value (Model.quality_level r);
     extraction_method := Model.extraction_method r;
     fallback_used := Model.fallback_used r;
     validation_error_count := len (validation_errors r);
     normalization_steps := len (normalization_applied r);
     data_completeness := if is_true (extracted_value r) then 1 else 0;
     overall_score := overall_score |}.

Section CrossValidation.

Variable InputValue : Type.
Variable _compare_values : Field -> value -> InputValue -> Comparison.

Record CrossValidationResult : Type := {
  input_data_keys : list str;
  extracted_fields_keys : list str;
  field_validations : list (Field * Consistency);
  overall_consistency : Q;
  inconsistencies : list str
}.

(** [CrossValidationResult.is_consistent] *)
Definition report_is_consistent (c : CrossValidationResult) : bool :=
  Qle_bool (8 # 10) (overall_consistency c).

(** The variables of the loop of [_perform_cross_validation]. *)
Record tally : Type := {
  validations : list (Field * Consistency);
  found : list str;
  total_score : Z;
  valid_fields : Z
}.

Definition tally_field (input_data : list (str * InputValue)) (t : tally)
    (entry : Field * ExtractionResult) : tally :=
  let '(f, result) := entry in
  if is_true (extracted_value result) then
    let field_validation :=
      validate_field_consistency _compare_values f
        (extracted_value result) input_data in
    let t :=
      if is_consistent field_validation then
        {| validations := validations t ++ [(f, field_validation)];
           found := found t;
           total_score := total_score t + 1;
           valid_fields := valid_fields t |}
      else
        {| validations := validations t ++ [(f, field_validation)];
           found :=
             found t
             ++ [field_name f ++ U ": "
                 ++ match comparison_notes field_validation with
                    | Some n => n
                    | None => U "Inconsistent"
                    end];
           total_score := total_score t;
           valid_fields := valid_fields t |} in
    {| validations := validations t;
       found := found t;
       total_score := total_score t;
       valid_fields := valid_fields t + 1 |}
  else t.

Definition _perform_cross_validation
    (extracted_fields : list (Field * ExtractionResult))
    (input_data : list (str * InputValue)) : CrossValidationResult :=
  let t :=
    fold_left (tally_field input_data) extracted_fields
      {| validations := []; found := []; total_score := 0;
         valid_fields := 0 |} in
  let overall_consistency :=
    if 0 <? valid_fields t
    then (inject_Z (total_score t) / inject_Z (valid_fields t))%Q
    else 0%Q in
  {| input_data_keys := map fst input_data;
     extracted_fields_keys := map (fun e => field_name (fst e))
                                  extracted_fields;
     field_validations := validations t;
     overall_consistency := overall_consistency;
     inconsistencies := found t |}.

End CrossValidation.

End Reports.

(** ** Auxiliary notions used in the statements *)

Module Aux.

Import Py.

(** A string that is empty or does not begin with a character of [p]. *)
Definition starts_clean (p : char -> bool) (s : str) : bool :=
  match s with
  | [] => true
  | c :: _ => negb (p c)
  end.

(** The longest prefix of characters of [p]; what follows it is
    [lstrip_by p s]. *)
Fixpoint take_while (p : char -> bool) (s : str) : str :=
  match s with
  | [] => []
  | c :: r => if p c then c :: take_while p r else []
  end.

(** Where [$] matches: at the end of the string, or before a newline that
    ends it. *)
Definition ends_here (s : str) : bool :=
  match s with
  | [] => true
  | c :: r => (c =? 10) && match r with [] => true | _ => false end
  end.

Definition is_some {A : Type} (o : option A) : bool :=
  match o with Some _ => true | None => false end.

(** The first candidate of a list, in its order, that is not empty. *)
Fixpoint first_candidate (l : list (str * option str * Q))
    : option (str * str * Q) :=
  match l with
  | [] => None
  | (m, Some v, w) :: rest =>
      if truthy v then Some (m, v, w) else first_candidate rest
  | (_, None, _) :: rest => first_candidate rest
  end.

(** A non-empty string whose first character is at least [m]. *)
Definition head_from (m : Z) (u : str) : bool :=
  match u with
  | [] => false
  | h :: _ => m <=? h
  end.

Definition ascii_upper_alnum (c : char) : bool :=
  ((65 <=? c) && (c <=? 90)) || ((48 <=? c) && (c <=? 57)).

(** A string of 8 to 15 characters of A-Z and 0-9. *)
Definition household_format (s : str) : bool :=
  forallb ascii_upper_alnum s
  && ((8 <=? List.length s)%nat && (List.length s <=? 15)%nat).

End Aux.

(** ** Statements of the specification, in its own words *)

Module Spec.

Import Py Config Model.

(** Order of the quality tiers: failed < poor < moderate < good < excellent. *)
Definition tier_rank (q : ExtractionQuality) : Z :=
  match q with
  | FAILED => 0
  | POOR => 1
  | MODERATE => 2
  | GOOD => 3
  | EXCELLENT => 4
  end.

(** The composite key of a member: name and relationship, compared
    case-insensitively after trimming. *)
Definition composite_key (m : MemberInfo) : str * str :=
  (strip (lower (name m)), strip (lower (relationship m))).

End Spec.

Import Py Config Model Normalizers Validators Extractor Spec.

(** What the specification says of the arbiter: one base weight per
    strategy kind, and the final confidence computed from it and from the
    number of validation errors alone. *)
Module SpecArbiter.

Import Py Config Model.

Definition base_weight : list (str * Q) :=
  [(CSS_SELECTOR, 1 # 1);
   (XPATH_SIMULATION, 9 # 10);
   (REGEX_PATTERN, 9 # 10);
   (CONTEXT_SEARCH, 8 # 10);
   (FALLBACK_PATTERN, 5 # 10)].

Definition final_confidence (method : str) (validation_error_count : Z)
    : Q :=
  Qmax 0 (Qmin 1 (get base_weight method 0
                  - (1 # 10) * inject_Z validation_error_count))%Q.

End SpecArbiter.

(** The strategy kinds as the code scores them: the method, the base
    confidence its attempt is recorded with, and its method weight. *)
Definition strategy_kinds : list (str * Q * Q) :=
  [(CSS_SELECTOR, 9 # 10, 1 # 1);
   (REGEX_PATTERN, 8 # 10, 9 # 10);
   (CONTEXT_SEARCH, 7 # 10, 8 # 10);
   (XPATH_SIMULATION, 8 # 10, 9 # 10);
   (FALLBACK_PATTERN, 5 # 10, 5 # 10)].

(** A strategy that returns no candidate: [None] or an empty string. *)
Definition nothing (o : outcome (option str)) : Prop :=
  o = Ok None \/ o = Ok (Some []).

(** The components of a result other than its timestamp. *)
Definition same_but_timestamp (a b : ExtractionResult) : Prop :=
  result_field_name a = result_field_name b
  /\ extracted_value a = extracted_value b
  /\ confidence_score a = confidence_score b
  /\ quality_level a = quality_level b
  /\ extraction_method a = extraction_method b
  /\ fallback_used a = fallback_used b
  /\ validation_errors a = validation_errors b
  /\ normalization_applied a = normalization_applied b.

(** The outcomes of the strategies on a document that is one element
    holding the phone number, <span class='phone'>0912345678</span>: the
    selector span[class*=phone] and the second regular expression of the
    phone field each find the number; no text node holds a context
    keyword and there is no table cell for the path strategy.  For the
    other fields the outcomes are taken to be empty. *)
Module Sample.

Import Py Config Model Extractor.

Definition html : str := U "<span class='phone'>0912345678</span>".

Definition finds_phone (html : str) (f : Field) : outcome (option str) :=
  match f with
  | so_dien_thoai => Ok (Some (U "0912345678"))
  | _ => Ok None
  end.

Definition none (html : str) (f : Field) : outcome (option str) := Ok None.

(** A strategy that fails on the income field. *)
Definition failing (html : str) (f : Field) : outcome (option str) :=
  match f with
  | thu_nhap => Raise (U "boom")
  | _ => Ok None
  end.

Definition compare (f : Field) (v : value) (i : unit) : Comparison :=
  {| matches := true; similarity := 1; notes := [] |}.

Definition repr (v : value) : str := U "<repr>".

(** One call on the sample document, at the given clock. *)
Definition extract (clock : Field -> Z) : ExtractionResults :=
  extract_enhanced_fields finds_phone finds_phone none none none
    compare repr clock html None.

Definition phone_result (now : Z) : ExtractionResult :=
  _extract_single_field finds_phone finds_phone none none none
    compare repr so_dien_thoai html None now.

End Sample.

(** The member cascade as the specification words it: six stages, and
    the first one that yields a record supplies all the records. *)
Fixpoint first_yield (stages : list (str -> list MemberInfo)) (text : str)
    : list MemberInfo :=
  match stages with
  | [] => []
  | stage :: rest =>
      match stage text with
      | [] => first_yield rest text
      | records => records
      end
  end.

Module SpecMember.

Definition stages : list (str -> list MemberInfo) :=
  [_extract_from_table_rows;
   _extract_from_json;
   structured_pattern1;
   structured_pattern2;
   structured_pattern3;
   _extract_from_delimited_text].

Definition normalize (text : str) : list MemberInfo :=
  _remove_duplicates (first_yield stages text).

End SpecMember.

(** The stages between which the code stops: the three inline patterns
    form one stage. *)
Definition member_stages : list (str -> list MemberInfo) :=
  [_extract_from_table_rows;
   _extract_from_json;
   _extract_from_structured_text;
   _extract_from_delimited_text].

(** The phone rule as the specification words it. *)
Module SpecPhone.

Import Py.

Definition ascii_digit (c : char) : bool := (48 <=? c) && (c <=? 57).

(** A string that matches 0[1-9][0-9]{8,9} from its first to its last
    character. *)
Definition vietnam_mobile (s : str) : bool :=
  match s with
  | c0 :: c1 :: rest =>
      (c0 =? 48) && ((49 <=? c1) && (c1 <=? 57))
      && (forallb ascii_digit rest
          && (8 <=? List.length rest)%nat && (List.length rest <=? 9)%nat)
  | _ => false
  end.

Definition normalize (phone : str) : str :=
  let digits := filter isdecimal_char phone in
  let digits :=
    if startswith (U "84") digits && (10 <=? len digits)
    then U "0" ++ skipn 2 digits
    else digits in
  if vietnam_mobile digits then digits else phone.

End SpecPhone.

(** The income rule as the specification words it. *)
Module SpecIncome.

Import Py.

Definition digit_value (c : char) : Z :=
  match decimal c with Some d => d | None => 0 end.

(** The integer a string of decimal digits denotes. *)
Definition integer (digits : str) : Z :=
  fold_left (fun acc c => acc * 10 + digit_value c) digits 0.

(** The first unit keyword found in the raw string, and its factor. *)
Definition multiplier (raw : str) : Z :=
  let text := lower raw in
  if contains (U "triệu") text then 1000000
  else if contains (U "million") text then 1000000
  else if contains (U "nghìn") text then 1000
  else if contains (U "thousand") text then 1000
  else if contains (U "k") text then 1000
  else if contains (U "tỷ") text then 1000000000
  else if contains (U "billion") text then 1000000000
  else 1.

Definition amount (raw : str) : Z :=
  integer (filter isdecimal_char raw) * multiplier raw.

End SpecIncome.

(** ** Properties *)

(** *** The model runs: cases of the repository's tests and demos *)

Example household_code_upper_cased :
  HouseholdCodeNormalizer_normalize (U " hgd123456789 ") = U "HGD123456789".
Proof. vm_compute. reflexivity. Qed.

Example bank_code_recognised :
  option_map code (BankNormalizer_normalize (U "VCB")) = Some (Some (U "VCB")).
Proof. vm_compute. reflexivity. Qed.

Example member_inline_triple :
  MemberInfoNormalizer_normalize (U "Trần Thị Bình - Vợ - 1987")
  = [member (U "Trần Thị Bình") (U "Vợ") (Some (U "1987"))].
Proof. vm_compute. reflexivity. Qed.

Example member_table_rows :
  MemberInfoNormalizer_normalize
    (U "<tr><td>An</td><td>con trai</td><td>2001</td></tr>")
  = [member (U "An") (U "Con") (Some (U "2001"))].
Proof. vm_compute. reflexivity. Qed.

Example income_out_of_range_is_an_error :
  errors (validate thu_nhap (Extractor.normalize thu_nhap (U "5 tỷ")))
  = [U "Income seems too high (> 100,000,000 VND)"].
Proof. vm_compute. reflexivity. Qed.

(** *** Quality tiers *)

Lemma Qlt_bool_iff (x y : Q) : Qlt_bool x y = true <-> (x < y)%Q.
Proof.
  unfold Qlt_bool. rewrite negb_true_iff.
  destruct (Qle_bool y x) eqn:E.
  - apply Qle_bool_iff in E. split; [discriminate | intros; lra].
  - split; [intros _ | reflexivity].
    apply Qnot_le_lt. intro H. apply Qle_bool_iff in H. congruence.
Qed.

Lemma Qle_bool_false (x y : Q) : Qle_bool x y = false <-> (y < x)%Q.
Proof.
  split.
  - intro E. apply Qnot_le_lt. intro H. apply Qle_bool_iff in H. congruence.
  - intro H. destruct (Qle_bool x y) eqn:E; [|reflexivity].
    apply Qle_bool_iff in E. lra.
Qed.

Ltac tiers :=
  repeat match goal with
  | H : Qle_bool _ _ = true |- _ => apply Qle_bool_iff in H
  | H : Qle_bool _ _ = false |- _ => apply Qle_bool_false in H
  | H : Qlt_bool _ _ = true |- _ => apply Qlt_bool_iff in H
  | H : Qlt_bool _ _ = false |- _ =>
      unfold Qlt_bool in H; apply negb_false_iff in H
  end.

Lemma quality_level_cases (c : Q) :
  (determine_quality_level c = EXCELLENT /\ (9 # 10 <= c)%Q)
  \/ (determine_quality_level c = GOOD /\ (7 # 10 <= c)%Q /\ (c < 9 # 10)%Q)
  \/ (determine_quality_level c = MODERATE
      /\ (5 # 10 <= c)%Q /\ (c < 7 # 10)%Q)
  \/ (determine_quality_level c = POOR /\ (0 < c)%Q /\ (c < 5 # 10)%Q)
  \/ (determine_quality_level c = FAILED /\ (c <= 0)%Q).
Proof.
  unfold determine_quality_level.
  destruct (Qle_bool (9 # 10) c) eqn:E1; tiers; [tauto|].
  destruct (Qle_bool (7 # 10) c) eqn:E2; tiers; [tauto|].
  destruct (Qle_bool (5 # 10) c) eqn:E3; tiers; [tauto|].
  destruct (Qlt_bool 0 c) eqn:E4; tiers; [tauto|].
  right; right; right; right. split; [reflexivity | assumption].
Qed.

(** C7.  On confidences in [0,1] the tier is excellent iff c >= 0.9, good
    iff 0.7 <= c < 0.9, moderate iff 0.5 <= c < 0.7, poor iff 0 < c < 0.5
    and failed iff c = 0; and the tier is monotone in the confidence. *)
Theorem quality_tier_mapping (c : Q) :
  (0 <= c)%Q -> (c <= 1)%Q ->
  (determine_quality_level c = EXCELLENT <-> (9 # 10 <= c)%Q)
  /\ (determine_quality_level c = GOOD
      <-> (7 # 10 <= c)%Q /\ (c < 9 # 10)%Q)
  /\ (determine_quality_level c = MODERATE
      <-> (5 # 10 <= c)%Q /\ (c < 7 # 10)%Q)
  /\ (determine_quality_level c = POOR <-> (0 < c)%Q /\ (c < 5 # 10)%Q)
  /\ (determine_quality_level c = FAILED <-> c == 0)
  /\ (forall c2 : Q, (c < c2)%Q -> (c2 <= 1)%Q ->
      tier_rank (determine_quality_level c)
      <= tier_rank (determine_quality_level c2)).
Proof.
  intros H0 H1.
  destruct (quality_level_cases c)
    as [[E H]|[[E H]|[[E H]|[[E H]|[E H]]]]]; rewrite E;
    (repeat split; try discriminate; try reflexivity; try tauto;
     try (intros; exfalso; lra); try (intros; lra));
    intros c2 Hlt Hc2;
    destruct (quality_level_cases c2)
      as [[E' H']|[[E' H']|[[E' H']|[[E' H']|[E' H']]]]]; rewrite E';
    simpl; try lia; exfalso; lra.
Qed.

Lemma quality_tier_mapping_witness :
  determine_quality_level (72 # 100) = GOOD
  /\ tier_rank (determine_quality_level (72 # 100))
     <= tier_rank (determine_quality_level (9 # 10)).
Proof.
  assert (H0 : (0 <= 72 # 100)%Q) by (unfold Qle; simpl; lia).
  assert (H1 : (72 # 100 <= 1)%Q) by (unfold Qle; simpl; lia).
  destruct (quality_tier_mapping H0 H1) as (_ & G & _ & _ & _ & M).
  split.
  - apply G. split; [unfold Qle | unfold Qlt]; simpl; lia.
  - apply M; [unfold Qlt | unfold Qle]; simpl; lia.
Defined.

(** *** Strings *)

Lemma str_eqb_eq (a b : str) : eqb a b = true <-> a = b.
Proof.
  revert b. induction a as [|x a IH]; intros [|y b]; simpl;
    try (split; [discriminate | discriminate]); [tauto|].
  rewrite andb_true_iff, Z.eqb_eq, IH.
  split; [intros [-> ->]; reflexivity | intros [= -> ->]; auto].
Qed.

Lemma str_eqb_refl (a : str) : eqb a a = true.
Proof. apply str_eqb_eq. reflexivity. Qed.

Lemma existsb_eqb_false (key : str) (seen : list str) :
  existsb (eqb key) seen = false <-> ~ In key seen.
Proof.
  split.
  - intros E H. assert (existsb (eqb key) seen = true); [|congruence].
    apply existsb_exists. exists key. split; [assumption | apply str_eqb_refl].
  - intro H. destruct (existsb (eqb key) seen) eqn:E; [|reflexivity].
    apply existsb_exists in E. destruct E as (k & Hk & Ek).
    apply str_eqb_eq in Ek. subst k. contradiction.
Qed.

Lemma startswith_refl (s : str) : startswith s s = true.
Proof.
  induction s as [|c s IH]; simpl; [reflexivity|].
  rewrite Z.eqb_refl, IH. reflexivity.
Qed.

Lemma contains_suffix (sub p : str) : contains sub (p ++ sub) = true.
Proof.
  induction p as [|c p IH]; simpl.
  - destruct sub; simpl; [reflexivity|].
    rewrite Z.eqb_refl, startswith_refl. reflexivity.
  - rewrite IH. apply orb_true_r.
Qed.

(** *** Member list: deduplication *)

Lemma remove_duplicates_from_spec (members : list MemberInfo) :
  forall seen : list str,
    let out := remove_duplicates_from seen members in
    NoDup (map member_key out)
    /\ Forall (fun m => ~ In (member_key m) seen
                        /\ name m <> [] /\ relationship m <> []
                        /\ In m members) out.
Proof.
  induction members as [|m rest IH]; intros seen; simpl.
  - split; constructor.
  - destruct (existsb (eqb (member_key m)) seen) eqn:E; simpl.
    + destruct (IH seen) as [N F]. split; [exact N|].
      eapply Forall_impl; [|exact F]. simpl. tauto.
    + apply existsb_eqb_false in E.
      destruct (name m) as [|n0 n] eqn:En; simpl.
      { destruct (IH seen) as [N F]. split; [exact N|].
        eapply Forall_impl; [|exact F]. simpl. tauto. }
      destruct (relationship m) as [|r0 r] eqn:Er; simpl.
      { destruct (IH seen) as [N F]. split; [exact N|].
        eapply Forall_impl; [|exact F]. simpl. tauto. }
      destruct (IH (member_key m :: seen)) as [N F]. split.
      * constructor; [|exact N].
        intro H. apply in_map_iff in H. destruct H as (x & Hx & Hin).
        rewrite Forall_forall in F. destruct (F x Hin) as (Hn & _).
        apply Hn. left. symmetry. exact Hx.
      * constructor.
        { rewrite En, Er. repeat split; try discriminate; auto. }
        eapply Forall_impl; [|exact F]. simpl.
        intros a (Ha & Hn & Hr & Hi). repeat split; auto.
Qed.

Lemma member_key_composite (m : MemberInfo) :
  member_key m = fst (composite_key m) ++ U "_" ++ snd (composite_key m).
Proof. reflexivity. Qed.

Lemma remove_duplicates_unique (members : list MemberInfo) :
  NoDup (map composite_key (_remove_duplicates members))
  /\ Forall (fun m => name m <> [] /\ relationship m <> [])
            (_remove_duplicates members)
  /\ incl (_remove_duplicates members) members.
Proof.
  unfold _remove_duplicates.
  destruct (remove_duplicates_from_spec members []) as [N F].
  split; [|split].
  - apply NoDup_map_inv with (f := fun k => fst k ++ U "_" ++ snd k).
    rewrite map_map.
    erewrite map_ext; [exact N|]. intro m. reflexivity.
  - eapply Forall_impl; [|exact F]. simpl. tauto.
  - intros m Hm. rewrite Forall_forall in F. apply (F m Hm).
Qed.

(** C9.  The list the member normalizer returns holds no two entries with
    the same composite key (name and relationship, lower-cased and
    trimmed), whatever the stages contributed, and no entry with an empty
    name or relationship; deduplication never keeps two records with one
    key, drops the records with an empty name or relationship and adds
    none. *)
Theorem member_list_unique_keys :
  (forall text : str,
      NoDup (map composite_key (MemberInfoNormalizer_normalize text))
      /\ Forall (fun m => name m <> [] /\ relationship m <> [])
                (MemberInfoNormalizer_normalize text))
  /\ (forall members : list MemberInfo,
        NoDup (map composite_key (_remove_duplicates members))
        /\ Forall (fun m => name m <> [] /\ relationship m <> [])
                  (_remove_duplicates members)
        /\ incl (_remove_duplicates members) members).
Proof.
  split; [|exact remove_duplicates_unique].
  intro text. unfold MemberInfoNormalizer_normalize.
  destruct (negb (truthy text)).
  - split; constructor.
  - match goal with
    | |- context [_remove_duplicates ?l] =>
        destruct (remove_duplicates_unique l) as (N & F & _)
    end.
    split; assumption.
Qed.

(** *** Summary *)

Lemma filter_partition_length {A : Type} (p : A -> bool) (l : list A) :
  len (filter p l) + len (filter (fun x => negb (p x)) l) = len l.
Proof.
  unfold len. induction l as [|a l IH]; [reflexivity|].
  cbn [filter]. destruct (p a); cbn [negb List.length];
    rewrite !Nat2Z.inj_succ; lia.
Qed.

(** C10.  The summary counts as successful exactly the fields whose
    extracted value is true in Python's sense (neither None nor empty),
    whatever their validation errors: a phone string that cannot be
    normalized is returned as it is, with validation errors, and counts;
    a member list that normalizes to the empty list does not.  The failed
    fields are the others, and the success rate is successes over total. *)
Theorem summary_counts_truthy_values :
  (forall fields : list (Field * ExtractionResult),
      let s := _generate_extraction_summary fields in
      successful_extractions s
      = len (filter (fun fr => is_true (extracted_value (snd fr))) fields)
      /\ total_fields s = len fields
      /\ successful_extractions s + failed_extractions s = total_fields s
      /\ success_rate s
         == inject_Z (successful_extractions s) / inject_Z (total_fields s))
  /\ (let v := _normalize_field_value so_dien_thoai (U "abc") in
      v = VStr (U "abc")
      /\ errors (validate so_dien_thoai v) <> []
      /\ forall c ql method fb errs applied now,
           successful_extractions
             (_generate_extraction_summary
                [(so_dien_thoai,
                  new_ExtractionResult so_dien_thoai v c ql method fb errs
                                       applied now)]) = 1)
  /\ (let v := _normalize_field_value thong_tin_thanh_vien (U "abc") in
      v = VMembers []
      /\ forall c ql method fb errs applied now,
           let s := _generate_extraction_summary
                      [(thong_tin_thanh_vien,
                        new_ExtractionResult thong_tin_thanh_vien v c ql
                                             method fb errs applied now)] in
           successful_extractions s = 0 /\ failed_extractions s = 1).
Proof.
  split; [|split].
  - intro fields. cbv zeta.
    unfold _generate_extraction_summary, count_if. simpl.
    assert (L : forall p : ExtractionResult -> bool,
               len (filter p (map snd fields))
               = len (filter (fun fr => p (snd fr)) fields)).
    { intro p. unfold len. f_equal.
      induction fields as [|a l IH]; simpl; [reflexivity|].
      destruct (p (snd a)); simpl; rewrite IH; reflexivity. }
    pose proof (filter_partition_length
                  (fun r => is_true (extracted_value r)) (map snd fields))
      as P.
    assert (T : len (map snd fields) = len fields)
      by (unfold len; rewrite length_map; reflexivity).
    repeat split.
    + apply L.
    + rewrite <- T. exact P.
    + destruct (0 <? len fields) eqn:E; [reflexivity|].
      apply Z.ltb_ge in E.
      assert (Z0 : len fields = 0) by (unfold len in *; lia).
      rewrite Z0. unfold Qdiv, Qinv. simpl. ring.
  - vm_compute. split; [reflexivity|]. split; [discriminate|].
    intros. reflexivity.
  - vm_compute. split; [reflexivity|].
    intros. split; reflexivity.
Qed.


(** *** The arbiter *)

Lemma max_from_in (l : list attempt) :
  forall best, max_from best l = best \/ In (max_from best l) l.
Proof.
  induction l as [|a l IH]; intro best; simpl; [left; reflexivity|].
  destruct (Qlt_bool (confidence_of best) (confidence_of a)).
  - destruct (IH a) as [E|H]; [right; left; auto | right; right; exact H].
  - destruct (IH best) as [E|H]; [left; exact E | right; right; exact H].
Qed.

Lemma max_attempt_in (l : list attempt) (a : attempt) :
  max_attempt l = Some a -> In a l.
Proof.
  destruct l as [|b l]; simpl; [discriminate|].
  intros [= <-]. destruct (max_from_in l b) as [E|H]; [left; auto|].
  right. exact H.
Qed.

Lemma max_attempt_some (l : list attempt) :
  l <> [] -> exists a, max_attempt l = Some a.
Proof. destruct l; [congruence | simpl; eauto]. Qed.

(** The choice of the arbiter: an attempt of the list, with the data
    bonus added exactly when the field is the member list and the chosen
    candidate normalizes to a non-empty list. *)
Lemma select_best_spec (f : Field) (attempts : list attempt) :
  attempts <> [] ->
  exists method v w,
    In (method, v, w) attempts
    /\ ((f = thong_tin_thanh_vien
         /\ is_true (_normalize_field_value f v) = true
         /\ _select_best_extraction_result f attempts
            = Some (method, v, (w + data_quality_bonus)%Q))
        \/ ((f <> thong_tin_thanh_vien
             \/ is_true (_normalize_field_value f v) = false)
            /\ _select_best_extraction_result f attempts
               = Some (method, v, w))).
Proof.
  intro Hne. unfold _select_best_extraction_result.
  destruct (Field_eqb f thong_tin_thanh_vien) eqn:Ef.
  - assert (f = thong_tin_thanh_vien) by (destruct f; try discriminate; auto).
    subst f. clear Ef.
    match goal with
    | |- context [max_attempt (flat_map ?g attempts)] =>
        set (valid := flat_map g attempts)
    end.
    destruct (max_attempt valid) as [[[m v] w']|] eqn:Ev.
    + apply max_attempt_in in Ev. unfold valid in Ev.
      apply in_flat_map in Ev. destruct Ev as ([[m0 v0] w0] & Hin & Hx).
      destruct (is_true (_normalize_field_value thong_tin_thanh_vien v0))
        eqn:Et; [|contradiction].
      destruct Hx as [[= <- <- <-]|[]].
      exists m0, v0, w0. split; [exact Hin|]. left. auto.
    + destruct (max_attempt_some Hne) as ([[m v] w] & Ea).
      exists m, v, w. split; [apply max_attempt_in; exact Ea|].
      right. split; [|exact Ea]. right.
      destruct (is_true (_normalize_field_value thong_tin_thanh_vien v))
        eqn:Et; [|reflexivity].
      exfalso. apply max_attempt_in in Ea.
      assert (In (m, v, (w + data_quality_bonus)%Q) valid).
      { unfold valid. apply in_flat_map. exists (m, v, w).
        split; [exact Ea|]. rewrite Et. left. reflexivity. }
      destruct valid; [contradiction | discriminate].
  - simpl. destruct (max_attempt_some Hne) as ([[m v] w] & Ea).
    exists m, v, w. split; [apply max_attempt_in; exact Ea|].
    right. split; [|exact Ea]. left. intros ->. discriminate.
Qed.

Section ArbiterProperties.

Variable css regex context xpath fallback : str -> Field -> outcome (option str).
Variable InputValue : Type.
Variable compare : Field -> value -> InputValue -> Comparison.
Variable repr : value -> str.

Local Abbreviation attempts_of :=
  (collect_attempts css regex context xpath fallback).
Local Abbreviation body :=
  (extract_single_field_body css regex context xpath fallback compare repr).
Local Abbreviation single :=
  (_extract_single_field css regex context xpath fallback compare repr).
Local Abbreviation extract :=
  (extract_enhanced_fields css regex context xpath fallback compare repr).

Lemma collect_nothing (html : str) (f : Field) :
  nothing (css html f) -> nothing (regex html f) ->
  nothing (context html f) -> nothing (xpath html f) ->
  nothing (fallback html f) ->
  attempts_of html f = Ok [].
Proof.
  intros H1 H2 H3 H4 H5. unfold collect_attempts.
  destruct H1 as [-> | ->], H2 as [-> | ->], H3 as [-> | ->],
    H4 as [-> | ->], H5 as [-> | ->]; reflexivity.
Qed.

(** C6.  When none of the five strategies produces a candidate, the field
    result is the failed result: no value, confidence 0, tier failed, and
    the single validation error No extraction pattern matched (the text
    the specification quotes, with a capital first letter).  The function
    returns that result; it does not raise. *)
Theorem no_candidate_gives_failed_result (f : Field) (html : str)
    (input : option (list (str * InputValue))) (now : Z) :
  nothing (css html f) -> nothing (regex html f) ->
  nothing (context html f) -> nothing (xpath html f) ->
  nothing (fallback html f) ->
  let r := single f html input now in
  extracted_value r = VNone
  /\ confidence_score r = 0%Q
  /\ quality_level r = FAILED
  /\ validation_errors r = [U "No extraction pattern matched"]
  /\ map lower (validation_errors r) = [U "no extraction pattern matched"]
  /\ r = _create_failed_extraction_result f
           (U "No extraction pattern matched") now.
Proof.
  intros H1 H2 H3 H4 H5. cbv zeta.
  unfold _extract_single_field, extract_single_field_body.
  rewrite (collect_nothing H1 H2 H3 H4 H5).
  assert (S : forall g, _select_best_extraction_result g [] = None)
    by (intro g; destruct g; reflexivity).
  cbn [bind]. rewrite S. cbn [try_except].
  repeat split; reflexivity.
Qed.

(** C2.  An exception raised while one field is extracted is caught at
    that field: its result is the failed result (no value, confidence 0,
    tier failed) whose only validation error ends with the message of the
    exception, and the returned field map still holds one result for each
    of the five fields, each computed from its own field alone. *)
Theorem field_exception_is_contained (f : Field) (html : str)
    (input : option (list (str * InputValue))) (clock : Field -> Z)
    (e : str) :
  body f html input (clock f) = Raise e ->
  let res := extract clock html input in
  let failed :=
    _create_failed_extraction_result f (U "Extraction error: " ++ e)
                                     (clock f) in
  In (f, failed) (extracted_fields res)
  /\ extracted_value failed = VNone
  /\ confidence_score failed = 0%Q
  /\ quality_level failed = FAILED
  /\ validation_errors failed = [U "Extraction error: " ++ e]
  /\ contains e (U "Extraction error: " ++ e) = true
  /\ map fst (extracted_fields res) = field_names
  /\ extracted_fields res
     = map (fun g => (g, single g html input (clock g))) field_names
  /\ total_fields (extraction_summary res) = 5.
Proof.
  intro H. cbv zeta.
  assert (E : single f html input (clock f)
              = _create_failed_extraction_result f
                  (U "Extraction error: " ++ e) (clock f)).
  { unfold _extract_single_field. rewrite H. reflexivity. }
  repeat split; try reflexivity.
  - unfold extract_enhanced_fields. cbn [extracted_fields].
    apply in_map_iff. exists f. rewrite E.
    split; [reflexivity|]. destruct f; simpl; tauto.
  - apply contains_suffix.
Qed.

Lemma record_attempt_kinds (l : list attempt) (m : str) (r : option str)
    (base weight : Q) :
  In (m, base, weight) strategy_kinds ->
  Forall (fun a : attempt =>
            exists weight', In (fst (fst a), snd a, weight') strategy_kinds)
         l ->
  Forall (fun a : attempt =>
            exists weight', In (fst (fst a), snd a, weight') strategy_kinds)
         (record_attempt l m r base).
Proof.
  intros Hin F. unfold record_attempt.
  destruct r as [v|]; [|exact F].
  destruct (truthy v); [|exact F].
  apply Forall_app. split; [exact F|].
  constructor; [|constructor]. exists weight. exact Hin.
Qed.

(** Every attempt is recorded with the base confidence of its kind. *)
Lemma collect_attempts_kinds (html : str) (f : Field)
    (attempts : list attempt) :
  attempts_of html f = Ok attempts ->
  Forall (fun a : attempt =>
            exists weight, In (fst (fst a), snd a, weight) strategy_kinds)
         attempts.
Proof.
  unfold collect_attempts.
  destruct (css html f) as [r1|]; [|discriminate].
  destruct (regex html f) as [r2|]; [|discriminate].
  destruct (context html f) as [r3|]; [|discriminate].
  destruct (xpath html f) as [r4|]; [|discriminate].
  cbn [bind].
  match goal with
  | |- context [match ?l with [] => _ | _ :: _ => _ end] =>
      assert (F : Forall (fun a : attempt =>
                  exists weight,
                    In (fst (fst a), snd a, weight) strategy_kinds) l)
  end.
  { eapply record_attempt_kinds; [simpl; tauto|].
    eapply record_attempt_kinds; [simpl; tauto|].
    eapply record_attempt_kinds; [simpl; tauto|].
    eapply record_attempt_kinds; [simpl; tauto|].
    constructor. }
  match goal with
  | |- context [match ?l with [] => _ | _ :: _ => _ end] =>
      destruct l eqn:El
  end.
  - destruct (fallback html f) as [r5|]; [|discriminate].
    cbn [bind]. intros [= <-].
    eapply record_attempt_kinds; [simpl; tauto | constructor].
  - intros [= <-]. exact F.
Qed.

Lemma strategy_kinds_weight (m : str) (base weight : Q) :
  In (m, base, weight) strategy_kinds ->
  get METHOD_WEIGHTS m (5 # 10) = weight.
Proof.
  simpl. intros [E|[E|[E|[E|[E|[]]]]]]; inversion E; subst; reflexivity.
Qed.

(** C1, as the code has it.  When at least one strategy produced a
    candidate, the winning attempt carries the base confidence of its
    kind (selector 0.9, regex 0.8, context 0.7, path traversal 0.8,
    fallback 0.5), increased by the data bonus 0.2 exactly when the field
    is the member list and the result holds a non-empty list; the final
    confidence is that number, less 0.1 for each validation error, times
    the method weight of the kind (selector 1.0, regex 0.9, path traversal
    0.9, context 0.8, fallback 0.5), clamped to [0,1]. *)
Theorem confidence_is_weighted_base_less_penalty (f : Field) (html : str)
    (input : option (list (str * InputValue))) (now : Z)
    (attempts : list attempt) :
  attempts_of html f = Ok attempts ->
  attempts <> [] ->
  let r := single f html input now in
  let bonus :=
    if Field_eqb f thong_tin_thanh_vien && is_true (extracted_value r)
    then (2 # 10)%Q else 0%Q in
  exists method base weight,
    In (method, base, weight) strategy_kinds
    /\ extraction_method r = method
    /\ confidence_score r
       == Qmax 0 (Qmin 1 ((base + bonus
                           - (1 # 10) * inject_Z (len (validation_errors r)))
                          * weight))%Q.
Proof.
  intros Ha Hne. cbv zeta.
  unfold _extract_single_field, extract_single_field_body.
  rewrite Ha. cbn [bind].
  pose proof (collect_attempts_kinds _ _ Ha) as K.
  destruct (select_best_spec f Hne) as (m & v & w & Hin & Hsel).
  rewrite Forall_forall in K. destruct (K _ Hin) as (weight & Hk).
  cbn [fst snd] in Hk.
  pose proof (strategy_kinds_weight Hk) as Hw.
  exists m, w, weight. split; [exact Hk|].
  destruct Hsel as [(-> & Ht & ->)|(Hc & ->)];
    cbn [try_except new_ExtractionResult extraction_method
         confidence_score validation_errors extracted_value];
    (split; [reflexivity|]); unfold calculate_confidence_score;
    rewrite Hw.
  - rewrite Ht. cbn [Field_eqb andb].
    unfold data_quality_bonus, validation_error_penalty.
    apply Q.max_compat; [reflexivity|].
    apply Q.min_compat; [reflexivity|]. ring.
  - assert (B : Field_eqb f thong_tin_thanh_vien
                && is_true (_normalize_field_value f v) = false).
    { destruct Hc as [Hf|Ht]; [|rewrite Ht; apply andb_false_r].
      destruct f; try reflexivity. congruence. }
    rewrite B. unfold validation_error_penalty.
    apply Q.max_compat; [reflexivity|].
    apply Q.min_compat; [reflexivity|]. ring.
Qed.

(** C8, as the code has it.  Two calls on the same document and the same
    reference record return, for every field, results that agree in every
    component other than the extraction timestamp, which is the reading of
    the clock at each call. *)
Theorem same_input_same_result_but_timestamp (html : str)
    (input : option (list (str * InputValue)))
    (clock1 clock2 : Field -> Z) :
  Forall2 (fun a b : Field * ExtractionResult =>
             fst a = fst b
             /\ same_but_timestamp (snd a) (snd b)
             /\ extraction_timestamp (snd a) = clock1 (fst a)
             /\ extraction_timestamp (snd b) = clock2 (fst b))
          (extracted_fields (extract clock1 html input))
          (extracted_fields (extract clock2 html input)).
Proof.
  unfold extract_enhanced_fields. cbn [extracted_fields].
  induction field_names as [|f l IH]; cbn [map]; constructor; [|exact IH].
  cbn [fst snd].
  unfold _extract_single_field, extract_single_field_body.
  destruct (attempts_of html f) as [attempts|e]; cbn [bind try_except].
  - destruct (_select_best_extraction_result f attempts)
      as [[[m v] w]|]; cbn [try_except];
      unfold same_but_timestamp; repeat split; reflexivity.
  - unfold same_but_timestamp; repeat split; reflexivity.
Qed.

End ArbiterProperties.

(** *** Instances *)

Lemma confidence_is_weighted_base_less_penalty_witness :
  exists method base weight,
    In (method, base, weight) strategy_kinds
    /\ extraction_method (Sample.phone_result 0) = method
    /\ confidence_score (Sample.phone_result 0)
       == Qmax 0 (Qmin 1 ((base + 0 - (1 # 10) * inject_Z 0) * weight))%Q.
Proof.
  apply (@confidence_is_weighted_base_less_penalty
           Sample.finds_phone Sample.finds_phone Sample.none Sample.none
           Sample.none
           unit Sample.compare Sample.repr so_dien_thoai Sample.html None 0
           [(CSS_SELECTOR, U "0912345678", 9 # 10);
            (REGEX_PATTERN, U "0912345678", 8 # 10)]).
  - reflexivity.
  - discriminate.
Defined.

(** C1, as the specification words it, fails: a phone number found by the
    selector strategy and valid (no validation error) is recorded with
    base confidence 0.9 and scored 0.9, not the 1.0 that a selector base
    weight of 1.0 less no penalty would give. *)
Lemma confidence_is_not_spec_base_less_penalty :
  let r := Sample.phone_result 0 in
  collect_attempts Sample.finds_phone Sample.finds_phone Sample.none
    Sample.none Sample.none Sample.html so_dien_thoai
  = Ok [(CSS_SELECTOR, U "0912345678", 9 # 10);
        (REGEX_PATTERN, U "0912345678", 8 # 10)]
  /\ extraction_method r = CSS_SELECTOR
  /\ extracted_value r = VStr (U "0912345678")
  /\ validation_errors r = []
  /\ confidence_score r == 9 # 10
  /\ SpecArbiter.final_confidence (extraction_method r)
       (len (validation_errors r)) == 1
  /\ ~ confidence_score r
       == SpecArbiter.final_confidence (extraction_method r)
            (len (validation_errors r)).
Proof.
  cbv zeta. repeat split; try reflexivity.
  vm_compute. discriminate.
Qed.

Lemma field_exception_is_contained_witness :
  In (thu_nhap,
      _create_failed_extraction_result thu_nhap
        (U "Extraction error: " ++ U "boom") 7)
     (extracted_fields
        (extract_enhanced_fields Sample.finds_phone Sample.failing
           Sample.none Sample.none Sample.none Sample.compare Sample.repr
           (fun _ => 7) Sample.html None))
  /\ map fst
       (extracted_fields
          (extract_enhanced_fields Sample.finds_phone Sample.failing
             Sample.none Sample.none Sample.none Sample.compare Sample.repr
             (fun _ => 7) Sample.html None))
     = field_names.
Proof.
  assert (H : extract_single_field_body Sample.finds_phone Sample.failing
                Sample.none Sample.none Sample.none Sample.compare
                Sample.repr thu_nhap Sample.html None 7
              = Raise (U "boom")) by reflexivity.
  pose proof (@field_exception_is_contained
                Sample.finds_phone Sample.failing Sample.none Sample.none
                Sample.none unit Sample.compare Sample.repr thu_nhap
                Sample.html None (fun _ => 7) (U "boom") H) as P.
  cbv zeta in P. destruct P as (P1 & _ & _ & _ & _ & _ & P2 & _).
  split; [exact P1 | exact P2].
Defined.

Lemma no_candidate_gives_failed_result_witness :
  validation_errors
    (_extract_single_field Sample.finds_phone Sample.none Sample.none
       Sample.none Sample.none Sample.compare Sample.repr thu_nhap
       Sample.html None 0)
  = [U "No extraction pattern matched"].
Proof.
  pose proof (@no_candidate_gives_failed_result
                Sample.finds_phone Sample.none Sample.none Sample.none
                Sample.none unit Sample.compare Sample.repr thu_nhap
                Sample.html None 0
                (or_introl eq_refl) (or_introl eq_refl)
                (or_introl eq_refl) (or_introl eq_refl)
                (or_introl eq_refl)) as P.
  cbv zeta in P. destruct P as (_ & _ & _ & P & _). exact P.
Defined.

(** C8, as the specification words it, fails: two calls on the same
    document return results that differ in their timestamps when the clock
    has moved between them. *)
Lemma repeated_call_results_differ :
  extracted_fields (Sample.extract (fun _ => 0))
  <> extracted_fields (Sample.extract (fun _ => 1))
  /\ Sample.phone_result 0 <> Sample.phone_result 1.
Proof.
  split; intro H.
  - apply (f_equal (map (fun p : Field * ExtractionResult =>
                           extraction_timestamp (snd p)))) in H.
    vm_compute in H. discriminate.
  - apply (f_equal extraction_timestamp) in H.
    vm_compute in H. discriminate.
Qed.

(** *** Member list: the cascade *)

(** C3, as the code has it.  The normalizer stops at the first of four
    stages that yields a record: table rows, key-value triples, the three
    inline patterns together (all three are run and their records are
    appended in that order), and the generic delimiter split; the records
    of that stage, deduplicated, are the result. *)
Theorem member_cascade_has_four_stages (text : str) :
  MemberInfoNormalizer_normalize text
  = _remove_duplicates (first_yield member_stages text)
  /\ incl (MemberInfoNormalizer_normalize text)
          (first_yield member_stages text)
  /\ _extract_from_structured_text text
     = structured_pattern1 text ++ structured_pattern2 text
       ++ structured_pattern3 text.
Proof.
  assert (E : MemberInfoNormalizer_normalize text
              = _remove_duplicates (first_yield member_stages text));
    [|split; [exact E|split; [|reflexivity]];
      rewrite E; apply remove_duplicates_unique].
  unfold MemberInfoNormalizer_normalize.
  destruct text as [|c text]; [reflexivity|].
  cbn [truthy negb]. unfold member_stages. cbn [first_yield app].
  destruct (_extract_from_table_rows (c :: text)); [|reflexivity].
  cbn [extend_if_empty app].
  destruct (_extract_from_json (c :: text)); [|reflexivity].
  cbn [extend_if_empty app].
  destruct (_extract_from_structured_text (c :: text)); [|reflexivity].
  cbn [extend_if_empty app].
  destruct (_extract_from_delimited_text (c :: text)); reflexivity.
Qed.

(** C3, as the specification words it, fails: in the text below the
    pattern Name - Relationship - Year yields a record, and yet a record
    of the later pattern Relationship: Name (Year) is in the result. *)
Lemma member_cascade_runs_all_inline_patterns :
  let text := U "Binh - Con - 2010, Cha: Hung (1960)" in
  let later := member (U "Hu") (U "Cha") None in
  structured_pattern1 text = [member (U "Binh") (U "Con") (Some (U "2010"))]
  /\ structured_pattern2 text = [later]
  /\ In later (MemberInfoNormalizer_normalize text)
  /\ ~ In later (SpecMember.normalize text)
  /\ MemberInfoNormalizer_normalize text <> SpecMember.normalize text.
Proof.
  cbv zeta. vm_compute.
  repeat split; try reflexivity.
  - right. left. reflexivity.
  - intros [H|[]]. discriminate.
  - discriminate.
Qed.

(** *** Phone *)

Lemma remove_non_digits (s : str) :
  Re.remove (Re.nset [Re.Digit]) s = filter isdecimal_char s.
Proof.
  unfold Re.remove. apply filter_ext. intro c.
  unfold Re.cset_ok, Re.variants. simpl.
  destruct (isdecimal_char c); reflexivity.
Qed.

(** A greedy bounded repetition followed by the end of the subject, on a
    subject without newline. *)
Lemma rep_to_end (ok : char -> bool) (k : Re.cont) :
  (forall p cs, k p [] cs = Some ([], cs)) ->
  (forall p c s cs, c <> 10 -> k p (c :: s) cs = None) ->
  forall (s : str) (lo hi : nat) (prev : option char) (cs : Re.caps),
    Forall (fun c => c <> 10) s ->
    Re.rep ok lo (Some hi) true prev s cs k
    = if forallb ok s && (lo <=? List.length s)%nat
         && (List.length s <=? hi)%nat
      then Some ([], cs) else None.
Proof.
  intros Kend Kmore. induction s as [|c s IH]; intros lo hi prev cs F.
  - simpl. destruct lo; simpl; [apply Kend | reflexivity].
  - inversion F as [|? ? Hc Fs]; subst.
    assert (Stop : match lo with
                   | O => k prev (c :: s) cs
                   | S _ => None
                   end = None).
    { destruct lo; [apply Kmore; exact Hc | reflexivity]. }
    cbn [Re.rep forallb]. rewrite Stop.
    destruct hi as [|h]; cbn [Re.room Re.less andb].
    + rewrite andb_false_r. reflexivity.
    + destruct (ok c); cbn [andb]; [|reflexivity].
      cbn [pred]. rewrite (IH (pred lo) h (Some c) cs Fs).
      replace (pred lo <=? List.length s)%nat
        with (lo <=? List.length (c :: s))%nat
        by (destruct lo; reflexivity).
      cbn [List.length Nat.leb pred].
      destruct (forallb ok s && (lo <=? S (List.length s))%nat
                && (List.length s <=? h)%nat); reflexivity.
Qed.

Lemma forallb_pointwise {A : Type} (p q : A -> bool) (l : list A) :
  (forall a, p a = q a) -> forallb p l = forallb q l.
Proof.
  intro H. induction l as [|a l IH]; simpl; [reflexivity|].
  rewrite H, IH. reflexivity.
Qed.

Lemma decimal_not_newline (s : str) :
  forallb isdecimal_char s = true -> Forall (fun c => c <> 10) s.
Proof.
  rewrite forallb_forall, Forall_forall. intros H c Hc ->.
  specialize (H 10 Hc). vm_compute in H. discriminate.
Qed.

(** The validation pattern accepts exactly the strings the specification
    describes. *)
Lemma vietnam_phone_format_spec (s : str) :
  Forall (fun c => c <> 10) s ->
  match Re.match_ false vietnam_phone_format s with
  | Some _ => true
  | None => false
  end = SpecPhone.vietnam_mobile s.
Proof.
  intro F.
  unfold Re.match_, Re.match_at, vietnam_phone_format, Re.times, Re.chr.
  cbn [Re.cat fold_right Re.run].
  destruct s as [|c0 [|c1 rest]]; [reflexivity | |].
  - cbn [SpecPhone.vietnam_mobile].
    destruct (Re.cset_ok false (Re.set_ [Re.Lit (Re.ch "0")]) c0);
      reflexivity.
  - cbn [SpecPhone.vietnam_mobile].
    replace (Re.cset_ok false (Re.set_ [Re.Lit (Re.ch "0")]) c0)
      with (c0 =? 48)
      by (unfold Re.cset_ok; simpl; rewrite !orb_false_r; reflexivity).
    destruct (c0 =? 48); [|reflexivity].
    replace (Re.cset_ok false
               (Re.set_ [Re.Rng (Re.ch "1") (Re.ch "9")]) c1)
      with ((49 <=? c1) && (c1 <=? 57))
      by (unfold Re.cset_ok; simpl; rewrite !orb_false_r; reflexivity).
    destruct ((49 <=? c1) && (c1 <=? 57)); [|reflexivity].
    inversion F as [|? ? _ F1]; subst. inversion F1 as [|? ? _ F2]; subst.
    rewrite rep_to_end; [| | |exact F2].
    + cbn [andb].
      replace (forallb (Re.cset_ok false Re.digit09) rest)
        with (forallb SpecPhone.ascii_digit rest).
      * destruct (forallb SpecPhone.ascii_digit rest
                  && (8 <=? List.length rest)%nat
                  && (List.length rest <=? 9)%nat); reflexivity.
      * apply forallb_pointwise. intro c. unfold Re.cset_ok. simpl.
        rewrite !orb_false_r. reflexivity.
    + intros p cs. reflexivity.
    + intros p c s cs Hc. cbn [Re.run].
      destruct c as [|q|q]; try (destruct s; reflexivity).
      do 4 (destruct q as [q|q|]; try (destruct s; reflexivity)).
      congruence.
Qed.

Lemma Forall_skipn {A : Type} (P : A -> Prop) (n : nat) (l : list A) :
  Forall P l -> Forall P (skipn n l).
Proof.
  revert l. induction n as [|n IH]; intros l F; [exact F|].
  destruct l as [|a l]; [constructor|].
  inversion F; subst. apply IH. assumption.
Qed.

Lemma phone_normalize_refines (phone : str) :
  PhoneNormalizer_normalize phone = SpecPhone.normalize phone.
Proof.
  unfold PhoneNormalizer_normalize, SpecPhone.normalize.
  destruct phone as [|c phone]; [reflexivity|].
  cbn [truthy negb]. rewrite remove_non_digits.
  set (digits := filter isdecimal_char (c :: phone)).
  assert (D : Forall (fun c => c <> 10) digits).
  { apply decimal_not_newline. apply forallb_forall.
    intros x Hx. apply filter_In in Hx. apply Hx. }
  set (digits' := if startswith (U "84") digits && (10 <=? len digits)
                  then U "0" ++ skipn 2 digits else digits).
  assert (D' : Forall (fun c => c <> 10) digits').
  { unfold digits'.
    destruct (startswith (U "84") digits && (10 <=? len digits));
      [|exact D].
    constructor; [discriminate|]. apply Forall_skipn. exact D. }
  pose proof (vietnam_phone_format_spec D') as E.
  destruct (Re.match_ false vietnam_phone_format digits');
    rewrite <- E; reflexivity.
Qed.

(** C4.  The phone normalizer keeps the digits of its input, replaces a
    leading 84 by 0 when there are at least 10 digits, and returns that
    digit string if it is 0, a digit from 1 to 9, and 8 or 9 more digits;
    otherwise it returns its input unchanged. *)
Theorem phone_normalizer_spec :
  (forall phone : str,
      PhoneNormalizer_normalize phone = SpecPhone.normalize phone)
  /\ PhoneNormalizer_normalize (U "+84 912 345 678") = U "0912345678"
  /\ PhoneNormalizer_normalize (U "0912345678") = U "0912345678"
  /\ PhoneNormalizer_normalize (U "abc") = U "abc".
Proof.
  split; [exact phone_normalize_refines|].
  repeat split; vm_compute; reflexivity.
Qed.

(** *** Income *)

(** Keeping the digits and the two separators and then deleting the
    separators keeps exactly the digits. *)
Lemma numeric_str_digits (income : str) :
  remove_char (Re.ch ".")
    (remove_char (Re.ch ",")
       (Re.remove (Re.nset [Re.Digit; Re.Lit (Re.ch ","); Re.Lit (Re.ch ".")])
          income))
  = filter isdecimal_char income.
Proof.
  unfold remove_char, Re.remove.
  induction income as [|c s IH]; [reflexivity|].
  cbn [filter]. unfold Re.cset_ok at 1. cbn [Re.variants Re.negated
    Re.items Re.nset existsb Re.item_ok xorb].
  change (Re.ch ",") with 44 in *. change (Re.ch ".") with 46 in *.
  rewrite !orb_false_r.
  destruct (isdecimal_char c) eqn:D.
  - cbn [orb negb filter].
    destruct (c =? 44) eqn:E1.
    { apply Z.eqb_eq in E1. subst c. vm_compute in D. discriminate. }
    cbn [negb filter].
    destruct (c =? 46) eqn:E2.
    { apply Z.eqb_eq in E2. subst c. vm_compute in D. discriminate. }
    cbn [negb]. rewrite IH. reflexivity.
  - cbn [orb].
    destruct (c =? 44) eqn:E1; cbn [orb negb filter].
    { rewrite E1. cbn [negb]. exact IH. }
    destruct (c =? 46) eqn:E2; cbn [negb filter].
    { rewrite E1. cbn [negb filter]. rewrite E2. cbn [negb]. exact IH. }
    exact IH.
Qed.

Lemma int_digits_value (s : str) :
  forall acc : Z,
    forallb isdecimal_char s = true ->
    int_digits acc s
    = Some (fold_left (fun a c => a * 10 + SpecIncome.digit_value c) s acc).
Proof.
  induction s as [|c s IH]; intros acc H; [reflexivity|].
  cbn [forallb] in H. apply andb_true_iff in H. destruct H as [Hc Hs].
  cbn [int_digits fold_left]. unfold SpecIncome.digit_value at 2.
  unfold isdecimal_char in Hc.
  destruct (decimal c) as [d|]; [|discriminate].
  apply IH. exact Hs.
Qed.

Lemma filter_all {A : Type} (p : A -> bool) (l : list A) :
  forallb p (filter p l) = true.
Proof.
  apply forallb_forall. intros x Hx. apply filter_In in Hx. apply Hx.
Qed.

Lemma filter_some {A : Type} (p : A -> bool) (l : list A) :
  existsb p l = true -> filter p l <> [].
Proof.
  intros H E. apply existsb_exists in H. destruct H as (x & Hx & Px).
  assert (In x (filter p l)) by (apply filter_In; auto).
  rewrite E in H. contradiction.
Qed.

Lemma first_unit_multiplier (income : str) (n : Z) :
  match first_unit currency_multipliers (lower income) with
  | Some (_, multiplier) => n * multiplier
  | None => n
  end = n * SpecIncome.multiplier income.
Proof.
  unfold SpecIncome.multiplier, currency_multipliers. cbv zeta.
  cbn [first_unit].
  repeat match goal with
         | |- context [if contains ?u ?t then _ else _] =>
             destruct (contains u t); [reflexivity|]
         end.
  lia.
Qed.

Lemma decimal_in_range (zs : list Z) (c d : Z) :
  decimal_in zs c = Some d -> 0 <= d < 10.
Proof.
  induction zs as [|z zs IH]; [discriminate|].
  cbn [decimal_in].
  destruct ((z <=? c) && (c <? z + 10)) eqn:E; [|exact IH].
  apply andb_true_iff in E. destruct E as [E1 E2].
  apply Z.leb_le in E1. apply Z.ltb_lt in E2.
  intro H. inversion H. lia.
Qed.

Lemma digit_value_nonneg (c : char) : 0 <= SpecIncome.digit_value c.
Proof.
  unfold SpecIncome.digit_value, decimal.
  destruct (decimal_in decimal_zeros c) as [d|] eqn:E; [|lia].
  apply decimal_in_range in E. lia.
Qed.

Lemma fold_digits_nonneg (s : str) :
  forall acc,
    0 <= acc ->
    0 <= fold_left (fun a c => a * 10 + SpecIncome.digit_value c) s acc.
Proof.
  induction s as [|c s IH]; intros acc A; [exact A|].
  cbn [fold_left]. apply IH. pose proof (digit_value_nonneg c). lia.
Qed.

Lemma fold_digits_positive (s : str) :
  forall acc,
    0 < acc ->
    0 < fold_left (fun a c => a * 10 + SpecIncome.digit_value c) s acc.
Proof.
  induction s as [|c s IH]; intros acc A; [exact A|].
  cbn [fold_left]. apply IH. pose proof (digit_value_nonneg c). lia.
Qed.

Lemma multiplier_positive (income : str) : 0 < SpecIncome.multiplier income.
Proof.
  unfold SpecIncome.multiplier. cbv zeta.
  repeat match goal with
         | |- context [if contains ?u ?t then _ else _] =>
             destruct (contains u t); [lia|]
         end.
  lia.
Qed.

Lemma amount_nonneg (income : str) : 0 <= SpecIncome.amount income.
Proof.
  unfold SpecIncome.amount, SpecIncome.integer.
  apply Z.mul_nonneg_nonneg.
  - apply fold_digits_nonneg. lia.
  - apply Z.lt_le_incl. apply multiplier_positive.
Qed.

(** The number of digits of [str(n)]: at most [k] below 10^k, more than
    [k] from 10^k on. *)
Lemma Z_digits_length (fuel : nat) :
  forall n acc k,
    0 <= n < 10 ^ Z.of_nat k -> (1 <= k)%nat ->
    (List.length (Z_digits fuel n acc) <= List.length acc + k)%nat.
Proof.
  induction fuel as [|f IH]; intros n acc k B K; [cbn [Z_digits]; lia|].
  cbn [Z_digits]. cbv zeta.
  destruct (Z.ltb_spec n 10) as [L|L]; [cbn [List.length]; lia|].
  destruct k as [|[|k]]; [lia | change (10 ^ Z.of_nat 1) with 10 in B; lia|].
  rewrite Nat2Z.inj_succ, Z.pow_succ_r in B by lia.
  specialize (IH (n / 10) ((48 + n mod 10) :: acc) (S k)).
  cbn [List.length] in IH.
  assert (0 <= n / 10 < 10 ^ Z.of_nat (S k)).
  { split; [apply Z.div_pos; lia|]. apply Z.div_lt_upper_bound; lia. }
  specialize (IH ltac:(assumption) ltac:(lia)). lia.
Qed.

Lemma Z_digits_grows (fuel : nat) :
  forall n acc,
    (List.length acc <= List.length (Z_digits fuel n acc))%nat.
Proof.
  induction fuel as [|f IH]; intros n acc; [cbn [Z_digits]; lia|].
  cbn [Z_digits]. cbv zeta.
  destruct (n <? 10); [cbn [List.length]; lia|].
  specialize (IH (n / 10) ((48 + n mod 10) :: acc)).
  cbn [List.length] in IH. lia.
Qed.

Lemma Z_digits_length_lower (fuel : nat) :
  forall n acc k,
    0 <= n < 2 ^ Z.of_nat fuel -> 10 ^ Z.of_nat k <= n ->
    (List.length acc + k < List.length (Z_digits fuel n acc))%nat.
Proof.
  induction fuel as [|f IH]; intros n acc k B K.
  - change (2 ^ Z.of_nat 0) with 1 in B.
    pose proof (Z.pow_pos_nonneg 10 (Z.of_nat k)). lia.
  - cbn [Z_digits]. cbv zeta.
    destruct (Z.ltb_spec n 10) as [L|L].
    + destruct k as [|k]; [cbn [List.length]; lia|].
      rewrite Nat2Z.inj_succ, Z.pow_succ_r in K by lia.
      pose proof (Z.pow_pos_nonneg 10 (Z.of_nat k)). lia.
    + destruct k as [|k].
      * pose proof (Z_digits_grows f (n / 10) ((48 + n mod 10) :: acc)) as G.
        cbn [List.length] in G. lia.
      * rewrite Nat2Z.inj_succ, Z.pow_succ_r in K by lia.
        rewrite Nat2Z.inj_succ, Z.pow_succ_r in B by lia.
        specialize (IH (n / 10) ((48 + n mod 10) :: acc) k).
        cbn [List.length] in IH.
        assert (0 <= n / 10 < 2 ^ Z.of_nat f).
        { split; [apply Z.div_pos; lia|]. apply Z.div_lt_upper_bound; lia. }
        assert (10 ^ Z.of_nat k <= n / 10)
          by (apply Z.div_le_lower_bound; lia).
        specialize (IH ltac:(assumption) ltac:(assumption)). lia.
Qed.

Lemma str_of_Z_fuel (n : Z) :
  0 <= n -> 0 <= n < 2 ^ Z.of_nat (S (Z.to_nat (Z.log2 n))).
Proof.
  intro N. split; [exact N|].
  rewrite Nat2Z.inj_succ, Z2Nat.id by apply Z.log2_nonneg.
  destruct (Z.eq_dec n 0) as [->|Z0]; [reflexivity|].
  apply Z.log2_spec. lia.
Qed.

Lemma str_of_Z_length (n : Z) (k : nat) :
  0 <= n -> (1 <= k)%nat ->
  (n < 10 ^ Z.of_nat k -> (List.length (str_of_Z n) <= k)%nat)
  /\ (10 ^ Z.of_nat k <= n -> (k < List.length (str_of_Z n))%nat).
Proof.
  intros N K. unfold str_of_Z. split; intro H.
  - apply (@Z_digits_length _ n [] k); [split; assumption | exact K].
  - apply (@Z_digits_length_lower _ n [] k); [|exact H].
    apply str_of_Z_fuel. exact N.
Qed.

Lemma int_within_bound (s : str) :
  s <> [] -> (List.length s <= 4300)%nat -> int s = int_digits 0 s.
Proof.
  intros Hne L. unfold int. destruct s as [|c t]; [congruence|].
  destruct (Nat.ltb_spec int_max_str_digits (List.length (c :: t))) as [B|B];
    [unfold int_max_str_digits in B; lia | reflexivity].
Qed.

Lemma int_beyond_bound (s : str) :
  (4300 < List.length s)%nat -> int s = None.
Proof.
  intro L. unfold int. destruct s as [|c t]; [reflexivity|].
  destruct (Nat.ltb_spec int_max_str_digits (List.length (c :: t))) as [B|B];
    [reflexivity | unfold int_max_str_digits in B; lia].
Qed.

Lemma one_le_max_digits : (1 <= int_max_str_digits)%nat.
Proof. apply Nat.leb_le. reflexivity. Qed.

Lemma format_within_bound (n : Z) :
  0 <= n -> n < 10 ^ 4300 ->
  format_thousands_checked n = Some (format_thousands n).
Proof.
  intros N H. unfold format_thousands_checked.
  pose proof (proj1 (str_of_Z_length N one_le_max_digits) H) as L.
  destruct (Nat.ltb_spec int_max_str_digits (List.length (str_of_Z n)))
    as [B|B]; [|reflexivity].
  exfalso. exact (Nat.lt_irrefl _ (Nat.le_lt_trans _ _ _ L B)).
Qed.

Lemma format_beyond_bound (n : Z) :
  0 <= n -> 10 ^ 4300 <= n -> format_thousands_checked n = None.
Proof.
  intros N H. unfold format_thousands_checked.
  pose proof (proj2 (str_of_Z_length N one_le_max_digits) H) as L.
  destruct (Nat.ltb_spec int_max_str_digits (List.length (str_of_Z n)))
    as [B|B]; [reflexivity|].
  exfalso. exact (Nat.lt_irrefl _ (Nat.lt_le_trans _ _ _ L B)).
Qed.

(** The normalizer up to the two conversions that can raise. *)
Lemma income_normalize_cases (income : str) :
  existsb isdecimal_char income = true ->
  IncomeNormalizer_normalize income
  = match int (filter isdecimal_char income) with
    | Some n =>
        match format_thousands_checked (n * SpecIncome.multiplier income) with
        | Some text =>
            Some {| amount := n * SpecIncome.multiplier income;
                    currency := U "VND";
                    formatted := text ++ U " " ++ U "VND";
                    original := income;
                    parsing_successful := true;
                    multiplier_applied :=
                      option_map fst
                        (first_unit currency_multipliers (lower income)) |}
        | None => Some (unparsed_income income)
        end
    | None => Some (unparsed_income income)
    end.
Proof.
  intro H. unfold IncomeNormalizer_normalize.
  destruct income as [|c income]; [discriminate|].
  cbn [truthy negb]. rewrite numeric_str_digits.
  pose proof (filter_some _ _ H) as Hne.
  set (digits := filter isdecimal_char (c :: income)) in *.
  destruct digits as [|d ds] eqn:E; [congruence|].
  cbn [truthy]. rewrite <- E.
  destruct (int digits) as [n|]; [|reflexivity].
  cbv zeta. rewrite !first_unit_multiplier. reflexivity.
Qed.

Lemma income_normalize_digits (income : str) :
  existsb isdecimal_char income = true ->
  (List.length (filter isdecimal_char income) <= 4300)%nat ->
  SpecIncome.amount income < 10 ^ 4300 ->
  exists r : NormalizedIncome,
    IncomeNormalizer_normalize income = Some r
    /\ amount r = SpecIncome.amount income
    /\ currency r = U "VND"
    /\ parsing_successful r = true
    /\ original r = income.
Proof.
  intros H L A. rewrite (income_normalize_cases income H).
  pose proof (filter_some _ _ H) as Hne.
  rewrite (int_within_bound Hne L).
  rewrite int_digits_value by apply filter_all.
  fold (SpecIncome.integer (filter isdecimal_char income)).
  fold (SpecIncome.amount income).
  rewrite (format_within_bound (amount_nonneg income) A).
  eexists. split; [reflexivity|]. repeat split.
Qed.

Lemma income_normalize_beyond_bound (income : str) :
  existsb isdecimal_char income = true ->
  (4300 < List.length (filter isdecimal_char income))%nat
  \/ 10 ^ 4300 <= SpecIncome.amount income ->
  IncomeNormalizer_normalize income = Some (unparsed_income income).
Proof.
  intros H B. rewrite (income_normalize_cases income H).
  pose proof (filter_some _ _ H) as Hne.
  destruct (Nat.le_gt_cases
              (List.length (filter isdecimal_char income)) 4300) as [L|L].
  - destruct B as [B|B];
      [exfalso; exact (Nat.lt_irrefl _ (Nat.lt_le_trans _ _ _ B L))|].
    rewrite (int_within_bound Hne L).
    rewrite int_digits_value by apply filter_all.
    fold (SpecIncome.integer (filter isdecimal_char income)).
    fold (SpecIncome.amount income).
    rewrite (format_beyond_bound (amount_nonneg income) B). reflexivity.
  - rewrite (int_beyond_bound _ L). reflexivity.
Qed.

(** C5, as the code has it.  For a raw income string with at least one
    digit, of at most 4300 digits and with an amount below 10^4300 (the
    bound of the interpreter on the conversion between integers and
    text), the amount is the integer its digits denote (every other
    character, the separators comma and dot included, is dropped),
    multiplied by the factor of the first unit keyword of the table found
    anywhere in the lower-cased raw string, or by nothing when there is
    none; the currency is VND.  Beyond the bound the conversion raises and
    the handler returns the unparsed record. *)
Theorem income_normalizer_spec :
  (forall income : str,
      existsb isdecimal_char income = true ->
      (List.length (filter isdecimal_char income) <= 4300)%nat ->
      SpecIncome.amount income < 10 ^ 4300 ->
      exists r : NormalizedIncome,
        IncomeNormalizer_normalize income = Some r
        /\ amount r = SpecIncome.amount income
        /\ currency r = U "VND"
        /\ parsing_successful r = true
        /\ original r = income)
  /\ (forall income : str,
         existsb isdecimal_char income = true ->
         (4300 < List.length (filter isdecimal_char income))%nat
         \/ 10 ^ 4300 <= SpecIncome.amount income ->
         IncomeNormalizer_normalize income = Some (unparsed_income income))
  /\ option_map amount (IncomeNormalizer_normalize (U "18 triệu đồng"))
     = Some 18000000
  /\ option_map amount (IncomeNormalizer_normalize (U "25,500,000 VND"))
     = Some 25500000.
Proof.
  split; [exact income_normalize_digits|].
  split; [exact income_normalize_beyond_bound|].
  split; vm_compute; reflexivity.
Qed.

Lemma income_normalizer_spec_witness :
  exists r : NormalizedIncome,
    IncomeNormalizer_normalize (U "18 triệu đồng") = Some r
    /\ amount r = SpecIncome.amount (U "18 triệu đồng")
    /\ currency r = U "VND"
    /\ parsing_successful r = true
    /\ original r = U "18 triệu đồng".
Proof.
  apply (proj1 income_normalizer_spec (U "18 triệu đồng")).
  - reflexivity.
  - apply Nat.leb_le. vm_compute. reflexivity.
  - apply Z.lt_le_trans with (10 ^ 8); [vm_compute; reflexivity|].
    apply Z.pow_le_mono_r; [reflexivity | discriminate].
Defined.

Lemma filter_repeat {A : Type} (p : A -> bool) (x : A) (n : nat) :
  p x = true -> filter p (List.repeat x n) = List.repeat x n.
Proof.
  intro H. induction n as [|n IH]; [reflexivity|].
  cbn [List.repeat filter]. rewrite H, IH. reflexivity.
Qed.

(** C5, as the specification words it, fails: on the string of 4301
    times the digit 1 the conversion to an integer raises, the handler
    returns the unparsed record, and the amount is 0 and not the integer
    the digits denote. *)
Lemma income_beyond_digit_bound_is_unparsed :
  let income := List.repeat 49 4301 in
  existsb isdecimal_char income = true
  /\ IncomeNormalizer_normalize income = Some (unparsed_income income)
  /\ option_map amount (IncomeNormalizer_normalize income) = Some 0
  /\ option_map parsing_successful (IncomeNormalizer_normalize income)
     = Some false
  /\ 0 < SpecIncome.amount income
  /\ ~ (exists r : NormalizedIncome,
           IncomeNormalizer_normalize income = Some r
           /\ amount r = SpecIncome.amount income
           /\ parsing_successful r = true).
Proof.
  cbv zeta.
  assert (D : isdecimal_char 49 = true) by reflexivity.
  assert (Ex : existsb isdecimal_char (List.repeat 49 4301) = true).
  { change (List.repeat 49 4301) with (49 :: List.repeat 49 4300).
    cbn [existsb]. rewrite D. reflexivity. }
  assert (F : filter isdecimal_char (List.repeat 49 4301)
              = List.repeat 49 4301) by (apply filter_repeat; exact D).
  assert (E : IncomeNormalizer_normalize (List.repeat 49 4301)
              = Some (unparsed_income (List.repeat 49 4301))).
  { apply income_normalize_beyond_bound; [exact Ex|]. left.
    rewrite F, repeat_length. apply Nat.lt_succ_diag_r. }
  split; [exact Ex|]. split; [exact E|].
  rewrite E. split; [reflexivity|]. split; [reflexivity|].
  split.
  - unfold SpecIncome.amount. rewrite F.
    apply Z.mul_pos_pos; [|apply multiplier_positive].
    unfold SpecIncome.integer.
    change (List.repeat 49 4301) with (49 :: List.repeat 49 4300).
    cbn [fold_left]. apply fold_digits_positive. reflexivity.
  - intros (r & Hr & _ & P). inversion Hr. subst r. discriminate.
Qed.

(** ** Further properties of the code *)

Import Aux.

(** *** Trimming *)

Lemma lstrip_starts_clean (p : char -> bool) (s : str) :
  starts_clean p (lstrip_by p s) = true.
Proof.
  induction s as [|c s IH]; [reflexivity|].
  simpl. destruct (p c) eqn:E; [exact IH|]. simpl. rewrite E. reflexivity.
Qed.

Lemma lstrip_clean (p : char -> bool) (s : str) :
  starts_clean p s = true -> lstrip_by p s = s.
Proof.
  destruct s as [|c s]; [reflexivity|]. simpl.
  destruct (p c); [discriminate | reflexivity].
Qed.

Lemma lstrip_app (p : char -> bool) (a b : str) :
  lstrip_by p (a ++ b)
  = match lstrip_by p a with
    | [] => lstrip_by p b
    | x => x ++ b
    end.
Proof.
  induction a as [|c a IH]; [reflexivity|].
  simpl. destruct (p c); [exact IH | reflexivity].
Qed.

Lemma rstrip_cons (p : char -> bool) (c : char) (s : str) :
  rstrip_by p (c :: s)
  = match rstrip_by p s with
    | [] => if p c then [] else [c]
    | x => c :: x
    end.
Proof.
  unfold rstrip_by. simpl rev. rewrite lstrip_app.
  destruct (lstrip_by p (rev s)) as [|d r] eqn:E.
  - simpl. destruct (p c); reflexivity.
  - assert (N : rev (d :: r) <> []).
    { intro H. apply (f_equal (@rev char)) in H.
      rewrite rev_involutive in H. discriminate. }
    rewrite rev_app_distr. simpl.
    destruct (rev r ++ [d]) eqn:E2; [|reflexivity].
    simpl in N. congruence.
Qed.

Lemma rstrip_starts_clean (p : char -> bool) (s : str) :
  starts_clean p s = true -> starts_clean p (rstrip_by p s) = true.
Proof.
  destruct s as [|c s]; [reflexivity|].
  simpl. intro H. rewrite rstrip_cons.
  destruct (rstrip_by p s); simpl.
  - destruct (p c) eqn:E; [discriminate | simpl; rewrite E; reflexivity].
  - exact H.
Qed.

Lemma rstrip_ends_clean (p : char -> bool) (s : str) :
  starts_clean p (rev (rstrip_by p s)) = true.
Proof.
  unfold rstrip_by. rewrite rev_involutive. apply lstrip_starts_clean.
Qed.

Lemma rstrip_clean (p : char -> bool) (s : str) :
  starts_clean p (rev s) = true -> rstrip_by p s = s.
Proof.
  intro H. unfold rstrip_by. rewrite (lstrip_clean _ _ H).
  apply rev_involutive.
Qed.

Lemma strip_idempotent (s : str) : strip (strip s) = strip s.
Proof.
  unfold strip at 1.
  rewrite lstrip_clean.
  - apply rstrip_clean. unfold strip. apply rstrip_ends_clean.
  - unfold strip. apply rstrip_starts_clean. apply lstrip_starts_clean.
Qed.

Lemma strip_nil_or_clean (s : str) :
  starts_clean isspace_char (strip s) = true
  /\ starts_clean isspace_char (rev (strip s)) = true.
Proof.
  split.
  - unfold strip. apply rstrip_starts_clean. apply lstrip_starts_clean.
  - unfold strip. apply rstrip_ends_clean.
Qed.

Lemma strip_clean (s : str) :
  starts_clean isspace_char s = true ->
  starts_clean isspace_char (rev s) = true ->
  strip s = s.
Proof.
  intros H1 H2. unfold strip. rewrite (lstrip_clean _ _ H1).
  apply rstrip_clean. exact H2.
Qed.

(** *** Bounded repetition up to the end of the subject *)

Lemma take_drop_while (p : char -> bool) (s : str) :
  take_while p s ++ lstrip_by p s = s.
Proof.
  induction s as [|c s IH]; [reflexivity|].
  simpl. destruct (p c); [simpl; rewrite IH|]; reflexivity.
Qed.

Lemma drop_while_nil (p : char -> bool) (s : str) :
  lstrip_by p s = [] <-> forallb p s = true.
Proof.
  induction s as [|c s IH]; simpl; [tauto|].
  destruct (p c); simpl; [exact IH|]. split; discriminate.
Qed.

Lemma take_while_all (p : char -> bool) (s : str) :
  forallb p s = true -> take_while p s = s.
Proof.
  induction s as [|c s IH]; [reflexivity|].
  simpl. destruct (p c); simpl; [|discriminate].
  intro H. rewrite IH; auto.
Qed.

Lemma take_while_app (p : char -> bool) (d r : str) :
  forallb p d = true -> starts_clean p r = true ->
  take_while p (d ++ r) = d /\ lstrip_by p (d ++ r) = r.
Proof.
  intros Hd Hr. induction d as [|c d IH]; simpl.
  - destruct r as [|x r]; [split; reflexivity|].
    simpl in Hr. apply negb_true_iff in Hr. simpl. rewrite Hr.
    split; reflexivity.
  - simpl in Hd. apply andb_true_iff in Hd. destruct Hd as [Hc Hd].
    rewrite Hc. destruct (IH Hd) as [E1 E2]. rewrite E1, E2.
    split; reflexivity.
Qed.

Lemma ends_here_cases (s : str) :
  ends_here s = true <-> s = [] \/ s = [10].
Proof.
  destruct s as [|c r]; simpl; [tauto|].
  split.
  - intro H. apply andb_true_iff in H. destruct H as [Hc Hr].
    apply Z.eqb_eq in Hc. subst c.
    destruct r; [right; reflexivity | discriminate].
  - intros [H|H]; [discriminate|]. inversion H. reflexivity.
Qed.

(** A greedy repetition of a set that excludes the newline, followed by
    [$]: it succeeds exactly when the run of set characters has a length
    within the bounds and is followed by the end of the subject or by a
    final newline. *)
Lemma rep_then_eol (ok : char -> bool) (k : Re.cont) :
  ok 10 = false ->
  (forall p s cs, k p s cs = if ends_here s then Some (s, cs) else None) ->
  forall (s : str) (lo hi : nat) (prev : option char) (cs : Re.caps),
    Re.rep ok lo (Some hi) true prev s cs k
    = if ends_here (lstrip_by ok s)
         && ((lo <=? List.length (take_while ok s))%nat
             && (List.length (take_while ok s) <=? hi)%nat)
      then Some (lstrip_by ok s, cs) else None.
Proof.
  intros Hnl Hk. induction s as [|c s IH]; intros lo hi prev cs.
  - cbn [Re.rep lstrip_by take_while List.length]. rewrite Hk.
    destruct lo; reflexivity.
  - cbn [Re.rep lstrip_by take_while]. rewrite Hk.
    destruct (ok c) eqn:Ec.
    + assert (Hc : ends_here (c :: s) = false).
      { simpl. destruct (c =? 10) eqn:E; [|reflexivity].
        apply Z.eqb_eq in E. subst c. congruence. }
      rewrite Hc.
      assert (Stop : match lo with
                     | O => @None Re.result
                     | S _ => None
                     end = None) by (destruct lo; reflexivity).
      rewrite Stop.
      destruct hi as [|h]; cbn [Re.room Re.less andb pred List.length].
      * rewrite !andb_false_r. reflexivity.
      * rewrite IH.
        replace (pred lo <=? List.length (take_while ok s))%nat
          with (lo <=? S (List.length (take_while ok s)))%nat
          by (destruct lo; reflexivity).
        cbn [Nat.leb].
        destruct (ends_here (lstrip_by ok s)
                  && ((lo <=? S (List.length (take_while ok s)))%nat
                      && (List.length (take_while ok s) <=? h)%nat));
          reflexivity.
    + rewrite andb_false_r. cbn [List.length].
      destruct lo; cbn [Nat.leb]; [|rewrite andb_false_r; reflexivity].
      rewrite andb_true_r. reflexivity.
Qed.

Lemma run_accepts (ok : char -> bool) (lo hi : nat) (s : str) :
  ok 10 = false ->
  ends_here (lstrip_by ok s)
  && ((lo <=? List.length (take_while ok s))%nat
      && (List.length (take_while ok s) <=? hi)%nat) = true
  <-> (forallb ok s = true
       /\ (lo <= List.length s <= hi)%nat)
      \/ (exists d, s = d ++ [10] /\ forallb ok d = true
                    /\ (lo <= List.length d <= hi)%nat).
Proof.
  intro Hnl. rewrite !andb_true_iff, ends_here_cases, !Nat.leb_le.
  split.
  - intros [[E|E] [H1 H2]].
    + left. apply drop_while_nil in E.
      rewrite (take_while_all _ _ E) in H1, H2. auto.
    + right. exists (take_while ok s).
      pose proof (take_drop_while ok s) as T. rewrite E in T.
      split; [symmetry; exact T|]. split; [|auto].
      clear. induction s as [|c s IH]; [reflexivity|].
      simpl. destruct (ok c) eqn:Ec; [simpl; rewrite Ec; exact IH|].
      reflexivity.
  - intros [[A [H1 H2]]|(d & -> & A & H1 & H2)].
    + rewrite (take_while_all _ _ A).
      apply drop_while_nil in A. rewrite A. auto.
    + assert (C : starts_clean ok [10] = true)
        by (simpl; rewrite Hnl; reflexivity).
      destruct (@take_while_app ok d [10] A C) as [E1 E2].
      unfold char in *. rewrite E1, E2. auto.
Qed.

Lemma eol_then_accept (p : option char) (s : str) (cs : Re.caps) :
  Re.run false (Re.Seq Re.Eol Re.Eps) p s cs (fun _ s' cs' => Some (s', cs'))
  = if ends_here s then Some (s, cs) else None.
Proof.
  cbn [Re.run]. destruct s as [|c r]; [reflexivity|].
  unfold ends_here.
  destruct c as [|q|q]; try (destruct r; reflexivity).
  do 4 (destruct q as [q|q|]; try (destruct r; reflexivity)).
Qed.

Lemma take_while_pointwise (p q : char -> bool) (s : str) :
  (forall c, p c = q c) ->
  take_while p s = take_while q s /\ lstrip_by p s = lstrip_by q s.
Proof.
  intro H. induction s as [|c s [IH1 IH2]]; [split; reflexivity|].
  simpl. rewrite <- H. destruct (p c); [rewrite IH1, IH2|];
    split; reflexivity.
Qed.

Lemma digit09_ok (c : char) :
  Re.cset_ok false Re.digit09 c = SpecPhone.ascii_digit c.
Proof.
  unfold Re.cset_ok. simpl. rewrite !orb_false_r. reflexivity.
Qed.

(** What the phone pattern accepts, on any subject. *)
Lemma vietnam_phone_format_accepts (s : str) :
  is_some (Re.match_ false vietnam_phone_format s) = true
  <-> SpecPhone.vietnam_mobile s = true
      \/ (exists d, s = d ++ [10] /\ SpecPhone.vietnam_mobile d = true).
Proof.
  unfold Re.match_, Re.match_at, vietnam_phone_format, Re.times, Re.chr.
  cbn [Re.cat fold_right].
  cbn [Re.run].
  destruct s as [|c0 [|c1 rest]].
  - simpl. split; [discriminate|].
    intros [H|(d & E & _)]; [discriminate|]. destruct d; discriminate.
  - replace (is_some _) with false
      by (destruct (Re.cset_ok false (Re.set_ [Re.Lit (Re.ch "0")]) c0);
          reflexivity).
    split; [discriminate|].
    intros [H|(d & E & H)]; [discriminate|].
    destruct d as [|x [|y d]]; discriminate.
  - replace (Re.cset_ok false (Re.set_ [Re.Lit (Re.ch "0")]) c0)
      with (c0 =? 48)
      by (unfold Re.cset_ok; simpl; rewrite !orb_false_r; reflexivity).
    replace (Re.cset_ok false
               (Re.set_ [Re.Rng (Re.ch "1") (Re.ch "9")]) c1)
      with ((49 <=? c1) && (c1 <=? 57))
      by (unfold Re.cset_ok; simpl; rewrite !orb_false_r; reflexivity).
    rewrite (@rep_then_eol (Re.cset_ok false Re.digit09)
               (fun p s' cs' =>
                  Re.run false (Re.Seq Re.Eol Re.Eps) p s' cs'
                    (fun _ s'' cs'' => Some (s'', cs''))));
      [|reflexivity|intros; apply eol_then_accept].
    destruct (@take_while_pointwise _ _ rest digit09_ok) as [-> ->].
    match goal with
    | |- is_some ?x = true <-> _ =>
        assert (A : is_some x
                    = (c0 =? 48) && ((49 <=? c1) && (c1 <=? 57))
                      && (ends_here (lstrip_by SpecPhone.ascii_digit rest)
                          && ((8 <=? List.length
                                       (take_while SpecPhone.ascii_digit
                                                   rest))%nat
                              && (List.length
                                    (take_while SpecPhone.ascii_digit rest)
                                  <=? 9)%nat)))
    end.
    { destruct (c0 =? 48); [|reflexivity].
      destruct ((49 <=? c1) && (c1 <=? 57)); [|reflexivity].
      destruct (ends_here (lstrip_by SpecPhone.ascii_digit rest)
                && ((8 <=? List.length
                             (take_while SpecPhone.ascii_digit rest))%nat
                    && (List.length
                          (take_while SpecPhone.ascii_digit rest)
                        <=? 9)%nat)); reflexivity. }
    rewrite A. clear A.
    rewrite andb_true_iff.
    rewrite (run_accepts SpecPhone.ascii_digit 8 9 rest eq_refl).
    rewrite andb_true_iff.
    cbn [SpecPhone.vietnam_mobile].
    split.
    + intros [[H0 H1] [[F [L1 L2]]|(d & -> & F & L1 & L2)]].
      * left. rewrite H0, F. apply andb_true_iff in H1.
        destruct H1 as [-> ->]. cbn [andb].
        apply andb_true_iff. split; apply Nat.leb_le; assumption.
      * right. exists (c0 :: c1 :: d). split; [reflexivity|].
        cbn [SpecPhone.vietnam_mobile]. rewrite H0, F.
        apply andb_true_iff in H1. destruct H1 as [-> ->]. cbn [andb].
        apply andb_true_iff. split; apply Nat.leb_le; assumption.
    + intros [H|(d & E & H)].
      * rewrite !andb_true_iff in H. rewrite !Nat.leb_le in H.
        destruct H as [[H0 [H1 H2]] [[F L1] L2]].
        split; [split; [exact H0 | rewrite H1, H2; reflexivity]|].
        left. auto.
      * destruct d as [|x [|y d]]; try discriminate.
        inversion E; subst. cbn [SpecPhone.vietnam_mobile] in H.
        rewrite !andb_true_iff in H. rewrite !Nat.leb_le in H.
        destruct H as [[H0 [H1 H2]] [[F L1] L2]].
        split; [split; [exact H0 | rewrite H1, H2; reflexivity]|].
        right. exists d. auto.
Qed.

(** *** Phone: validator and normalizer together *)

Lemma vietnam_mobile_shape (s : str) :
  SpecPhone.vietnam_mobile s = true ->
  (10 <= List.length s <= 11)%nat
  /\ forallb SpecPhone.ascii_digit s = true
  /\ startswith (U "84") s = false.
Proof.
  destruct s as [|c0 [|c1 rest]]; try discriminate.
  cbn [SpecPhone.vietnam_mobile]. rewrite !andb_true_iff, !Nat.leb_le.
  intros [[H0 [H1 H2]] [[F L1] L2]].
  apply Z.eqb_eq in H0. subst c0.
  split; [simpl; lia|]. split; [|reflexivity].
  cbn [forallb]. rewrite F. unfold SpecPhone.ascii_digit.
  rewrite H2. replace (48 <=? c1) with true
    by (symmetry; apply Z.leb_le; apply Z.leb_le in H1; lia).
  reflexivity.
Qed.

Lemma ascii_digit_decimal (c : char) :
  SpecPhone.ascii_digit c = true -> isdecimal_char c = true.
Proof.
  unfold SpecPhone.ascii_digit, isdecimal_char, decimal, decimal_zeros.
  cbn [decimal_in]. rewrite andb_true_iff, !Z.leb_le. intros [H1 H2].
  replace ((48 <=? c) && (c <? 48 + 10)) with true; [reflexivity|].
  symmetry. apply andb_true_iff. split; [apply Z.leb_le | apply Z.ltb_lt]; lia.
Qed.

Lemma filter_keeps_all {A : Type} (p : A -> bool) (l : list A) :
  forallb p l = true -> filter p l = l.
Proof.
  induction l as [|a l IH]; [reflexivity|].
  simpl. destruct (p a); [|discriminate]. intro H. rewrite IH; auto.
Qed.

(** A canonical number, with or without a final newline, is normalized to
    the number itself. *)
Lemma canonical_phone_fixed (d : str) :
  SpecPhone.vietnam_mobile d = true ->
  SpecPhone.normalize d = d /\ SpecPhone.normalize (d ++ [10]) = d.
Proof.
  intro H. destruct (vietnam_mobile_shape d H) as (_ & F & S84).
  assert (D : forallb isdecimal_char d = true).
  { apply forallb_forall. intros c Hc. apply ascii_digit_decimal.
    rewrite forallb_forall in F. auto. }
  unfold SpecPhone.normalize. split.
  - rewrite (filter_keeps_all _ _ D). rewrite S84. cbn [andb].
    rewrite H. reflexivity.
  - rewrite filter_app. rewrite (filter_keeps_all _ _ D).
    cbn [filter]. replace (isdecimal_char 10) with false by reflexivity.
    rewrite app_nil_r. rewrite S84. cbn [andb]. rewrite H. reflexivity.
Qed.

Lemma phone_output_cases (p : str) :
  (SpecPhone.vietnam_mobile (PhoneNormalizer_normalize p) = true
   /\ Forall (fun c => c <> 10) (PhoneNormalizer_normalize p))
  \/ (PhoneNormalizer_normalize p = p
      /\ SpecPhone.vietnam_mobile p = false
      /\ forall d, p = d ++ [10] -> SpecPhone.vietnam_mobile d = false).
Proof.
  rewrite phone_normalize_refines.
  destruct (SpecPhone.vietnam_mobile (SpecPhone.normalize p)) eqn:V.
  - left. split; [reflexivity|].
    destruct (vietnam_mobile_shape _ V) as (_ & F & _).
    rewrite Forall_forall. rewrite forallb_forall in F.
    intros c Hc ->. specialize (F 10 Hc). discriminate.
  - right.
    assert (E : SpecPhone.normalize p = p).
    { unfold SpecPhone.normalize in *.
      match goal with
      | |- (if SpecPhone.vietnam_mobile ?d then _ else _) = _ =>
          destruct (SpecPhone.vietnam_mobile d) eqn:Vd; [|reflexivity]
      end.
      congruence. }
    split; [exact E|]. rewrite E in V. split; [exact V|].
    intros d -> . destruct (SpecPhone.vietnam_mobile d) eqn:Vd; [|reflexivity].
    destruct (canonical_phone_fixed d Vd) as [_ E2].
    unfold str, char in *. rewrite E2 in E.
    apply (f_equal (@List.length Z)) in E. rewrite length_app in E.
    simpl in E. lia.
Qed.

(** The phone validator reports no error on a canonical number (0, a digit
    from 1 to 9, 8 or 9 more digits) and on a ten-digit canonical number
    followed by one newline, and on nothing else. *)
Lemma phone_errors_nil (s : str) :
  errors (PhoneValidator_validate (VStr s)) = []
  <-> SpecPhone.vietnam_mobile s = true
      \/ (exists d, s = d ++ [10] /\ SpecPhone.vietnam_mobile d = true
                    /\ List.length d = 10%nat).
Proof.
  pose proof (vietnam_phone_format_accepts s) as A.
  unfold PhoneValidator_validate.
  destruct s as [|c s']; [simpl|].
  { split; [discriminate|].
    intros [H|(d & E & _)]; [discriminate | destruct d; discriminate]. }
  set (s := c :: s') in *. cbn [truthy negb].
  unfold validated. cbn [errors app].
  destruct (Re.match_ false vietnam_phone_format s) eqn:M;
    cbn [is_some] in A; cbn [app].
  - destruct ((len s <? phone_min_length) || (phone_max_length <? len s))
      eqn:L.
    + split; [intro H; destruct (U "Phone number length should be between ");
              discriminate|].
      intro H. exfalso. apply orb_true_iff in L.
      unfold phone_min_length, phone_max_length, len in L.
      rewrite !Z.ltb_lt in L.
      destruct (proj1 A eq_refl) as [V|(d & E & V)].
      * destruct (vietnam_mobile_shape _ V) as (B & _). lia.
      * destruct H as [V'|(d' & E' & V' & L')].
        { destruct (vietnam_mobile_shape _ V') as (B & _). lia. }
        rewrite E' in L. rewrite length_app in L.
        cbn [List.length] in L. unfold str, char in *. lia.
    + split; [intros _|reflexivity].
      apply orb_false_iff in L.
      unfold phone_min_length, phone_max_length, len in L.
      rewrite !Z.ltb_ge in L.
      destruct (proj1 A eq_refl) as [V|(d & E & V)]; [left; exact V|].
      right. exists d. split; [exact E|]. split; [exact V|].
      destruct (vietnam_mobile_shape _ V) as (B & _).
      rewrite E in L. rewrite length_app in L.
      cbn [List.length] in L. unfold str, char in *. lia.
  - split.
    + intro H. exfalso.
      destruct ((len s <? phone_min_length) || (phone_max_length <? len s));
        discriminate.
    + intro H. exfalso.
      assert (T : false = true); [|discriminate].
      apply A. destruct H as [V|(d & E & V & _)]; [left | right; exists d];
        auto.
Qed.

(** Every validator sets [is_valid] exactly when it reports no error. *)
Lemma is_valid_iff_no_errors (f : Field) (v : value) :
  is_valid (validate f v) = true <-> errors (validate f v) = [].
Proof.
  assert (I : forall e, is_valid (invalid e) = true <-> errors (invalid e) = [])
    by (intro e; simpl; split; discriminate).
  assert (V : forall es,
             is_valid (validated es) = true <-> errors (validated es) = [])
    by (intros [|e es]; simpl; split; (reflexivity || discriminate)).
  destruct f; unfold validate;
    [unfold PhoneValidator_validate | unfold IncomeValidator_validate
    | unfold BankValidator_validate | unfold HouseholdCodeValidator_validate
    | unfold MemberInfoValidator_validate];
    destruct v; try apply I;
    repeat match goal with
           | |- context [if ?b then _ else _] =>
               lazymatch b with
               | context [if _ then _ else _] => fail
               | _ => destruct b
               end
           end; try apply I; try apply V.
  destruct l; [apply I | apply V].
Qed.

(** X1.  The phone validator declares a string valid exactly when it is a
    canonical number (0, a digit from 1 to 9, then 8 or 9 more digits), or
    a ten-digit canonical number followed by one newline. *)
Theorem phone_validator_accepts_exactly (s : str) :
  is_valid (PhoneValidator_validate (VStr s)) = true
  <-> SpecPhone.vietnam_mobile s = true
      \/ (exists d, s = d ++ [10] /\ SpecPhone.vietnam_mobile d = true
                    /\ List.length d = 10%nat).
Proof.
  rewrite (is_valid_iff_no_errors so_dien_thoai (VStr s)).
  apply phone_errors_nil.
Qed.

(** X2.  The phone normalizer is idempotent, and the validator reports no
    error on its result exactly when that result is a canonical number,
    that is, exactly when normalization succeeded. *)
Theorem phone_normalizer_idempotent_and_validated (p : str) :
  PhoneNormalizer_normalize (PhoneNormalizer_normalize p)
  = PhoneNormalizer_normalize p
  /\ (errors (PhoneValidator_validate (VStr (PhoneNormalizer_normalize p)))
      = []
      <-> SpecPhone.vietnam_mobile (PhoneNormalizer_normalize p) = true).
Proof.
  destruct (phone_output_cases p) as [[V N]|(E & V & Vd)].
  - split.
    + rewrite (phone_normalize_refines (PhoneNormalizer_normalize p)).
      apply canonical_phone_fixed. exact V.
    + rewrite phone_errors_nil. split; [intros _; exact V|].
      intros _. left. exact V.
  - rewrite E. split; [exact E|].
    pose proof (phone_errors_nil p) as A.
    split.
    + intro H. apply A in H. destruct H as [H|(d & Ed & H & _)];
        [exact H|]. rewrite (Vd d Ed) in H. discriminate.
    + rewrite V. discriminate.
Qed.

(** *** Household code: validator and normalizer together *)

Lemma range_out (lo hi c : Z) :
  c < lo \/ hi < c -> (lo <=? c) && (c <=? hi) = false.
Proof.
  intro H. apply andb_false_iff.
  destruct H; [left; apply Z.leb_gt | right; apply Z.leb_gt]; lia.
Qed.

Lemma case_lookup_below (t : list (Z * Z * Z * Z)) (m c : Z) :
  forallb (fun e => m <? fst (fst (fst e))) t = true ->
  c <= m -> case_lookup t c = c.
Proof.
  intros F L. induction t as [|[[[a b] st] d] t IH]; [reflexivity|].
  simpl in F. apply andb_true_iff in F. destruct F as [F1 F2].
  apply Z.ltb_lt in F1. cbn [case_lookup].
  rewrite range_out by lia. cbn [andb]. auto.
Qed.

Lemma alnum_bounds (c : char) :
  ascii_upper_alnum c = true -> 48 <= c <= 90.
Proof.
  unfold ascii_upper_alnum.
  rewrite orb_true_iff, !andb_true_iff, !Z.leb_le. lia.
Qed.

Lemma alnum_not_space (c : char) :
  ascii_upper_alnum c = true -> isspace_char c = false.
Proof.
  intro H. apply alnum_bounds in H.
  unfold isspace_char, in_ranges, space_ranges. cbn [existsb fst snd].
  repeat rewrite range_out by lia. reflexivity.
Qed.

Lemma alnum_upper_char (c : char) :
  ascii_upper_alnum c = true -> upper_char c = [c].
Proof.
  intro H. apply alnum_bounds in H.
  unfold upper_char. cbn [assoc_default].
  repeat match goal with
         | |- context [?k =? c] =>
             replace (k =? c) with false by (symmetry; apply Z.eqb_neq; lia)
         end.
  unfold toupper. rewrite (@case_lookup_below upper_table 90 c);
    [reflexivity | reflexivity | lia].
Qed.

Lemma alnum_upper (s : str) :
  forallb ascii_upper_alnum s = true -> upper s = s.
Proof.
  induction s as [|c s IH]; [reflexivity|].
  cbn [forallb]. rewrite andb_true_iff. intros [H1 H2].
  unfold upper in *. cbn [flat_map]. rewrite (alnum_upper_char c H1).
  rewrite IH by exact H2. reflexivity.
Qed.

Lemma upper_app (a b : str) : upper (a ++ b) = upper a ++ upper b.
Proof. unfold upper. apply flat_map_app. Qed.

Lemma remove_space_spec (s : str) :
  Re.remove (Re.set_ [Re.Space]) s
  = filter (fun c => negb (isspace_char c)) s.
Proof.
  unfold Re.remove. apply filter_ext. intro c.
  unfold Re.cset_ok. simpl. rewrite !orb_false_r. reflexivity.
Qed.

Lemma alnum_ok (c : char) :
  Re.cset_ok false
    (Re.set_ [Re.Rng (Re.ch "A") (Re.ch "Z"); Re.Rng (Re.ch "0") (Re.ch "9")])
    c
  = ascii_upper_alnum c.
Proof.
  unfold Re.cset_ok, ascii_upper_alnum. simpl. rewrite !orb_false_r.
  reflexivity.
Qed.

(** What the household pattern accepts, on any subject. *)
Lemma household_code_format_accepts (s : str) :
  is_some (Re.match_ false household_code_format s) = true
  <-> household_format s = true
      \/ (exists d, s = d ++ [10] /\ household_format d = true).
Proof.
  unfold Re.match_, Re.match_at, household_code_format, Re.times.
  cbn [Re.cat fold_right].
  cbn [Re.run].
  rewrite (@rep_then_eol _
             (fun p s' cs' =>
                Re.run false (Re.Seq Re.Eol Re.Eps) p s' cs'
                  (fun _ s'' cs'' => Some (s'', cs''))));
    [|reflexivity|intros; apply eol_then_accept].
  destruct (@take_while_pointwise _ _ s alnum_ok) as [-> ->].
  match goal with
  | |- is_some ?x = true <-> _ =>
      match x with
      | context [if ?b then _ else _] =>
          assert (A : is_some x = b) by (destruct b; reflexivity);
          rewrite A; clear A
      end
  end.
  rewrite (run_accepts ascii_upper_alnum 8 15 s eq_refl).
  unfold household_format.
  split.
  - intros [[F [L1 L2]]|(d & -> & F & L1 & L2)].
    + left. rewrite F. cbn [andb]. apply andb_true_iff.
      split; apply Nat.leb_le; assumption.
    + right. exists d. split; [reflexivity|]. rewrite F. cbn [andb].
      apply andb_true_iff. split; apply Nat.leb_le; assumption.
  - intros [H|(d & -> & H)]; rewrite !andb_true_iff, !Nat.leb_le in H;
      [left | right; exists d; split; [reflexivity|]]; tauto.
Qed.

Lemma household_format_shape (s : str) :
  household_format s = true ->
  forallb ascii_upper_alnum s = true /\ (8 <= List.length s <= 15)%nat.
Proof.
  unfold household_format. rewrite !andb_true_iff, !Nat.leb_le. tauto.
Qed.

(** The household normalizer, without the pattern matcher. *)
Lemma household_normalize_spec (code : str) :
  HouseholdCodeNormalizer_normalize code
  = match code with
    | [] => []
    | _ =>
        let normalized :=
          filter (fun c => negb (isspace_char c)) (upper code) in
        if household_format normalized then normalized else code
    end.
Proof.
  unfold HouseholdCodeNormalizer_normalize.
  destruct code as [|c code']; [reflexivity|].
  cbn [truthy negb]. cbv zeta. rewrite remove_space_spec.
  set (n := filter _ (upper (c :: code'))).
  pose proof (household_code_format_accepts n) as A.
  destruct (Re.match_ false household_code_format n) as [m|];
    cbn [is_some] in A.
  - destruct (proj1 A eq_refl) as [H|(d & E & H)]; [rewrite H; reflexivity|].
    exfalso.
    assert (I : In 10 n) by (rewrite E; apply in_or_app; right; left;
                             reflexivity).
    apply filter_In in I. destruct I as [_ I]. discriminate.
  - destruct (household_format n); [|reflexivity].
    assert (T : false = true) by (apply A; left; reflexivity).
    discriminate.
Qed.

(** A code in the expected format, with or without a final newline, is
    normalized to the code itself. *)
Lemma canonical_household_fixed (d : str) :
  household_format d = true ->
  HouseholdCodeNormalizer_normalize d = d
  /\ HouseholdCodeNormalizer_normalize (d ++ [10]) = d.
Proof.
  intro H. destruct (household_format_shape d H) as [F L].
  assert (N : filter (fun c => negb (isspace_char c)) d = d).
  { apply filter_keeps_all. apply forallb_forall. intros c Hc.
    rewrite forallb_forall in F. rewrite alnum_not_space by auto.
    reflexivity. }
  rewrite !household_normalize_spec. split.
  - destruct d as [|c d']; [reflexivity|]. cbv zeta.
    rewrite (alnum_upper _ F), N, H. reflexivity.
  - destruct (d ++ [10]) as [|c r] eqn:E; [destruct d; discriminate|].
    rewrite <- E. cbv zeta. rewrite upper_app, (alnum_upper _ F).
    rewrite filter_app, N.
    replace (filter (fun c => negb (isspace_char c)) (upper [10]))
      with (@nil char) by reflexivity.
    rewrite app_nil_r, H. reflexivity.
Qed.

(** The household validator reports no error on a code of 8 to 15
    characters of A-Z and 0-9, on such a code of at most 14 characters
    followed by one newline, and on nothing else. *)
Lemma household_errors_nil (s : str) :
  errors (HouseholdCodeValidator_validate (VStr s)) = []
  <-> household_format s = true
      \/ (exists d, s = d ++ [10] /\ household_format d = true
                    /\ (List.length d <= 14)%nat).
Proof.
  pose proof (household_code_format_accepts s) as A.
  unfold HouseholdCodeValidator_validate.
  destruct s as [|c s']; [simpl|].
  { split; [discriminate|].
    intros [H|(d & E & _)]; [discriminate | destruct d; discriminate]. }
  set (s := c :: s') in *. cbn [truthy negb].
  unfold validated. cbn [errors app].
  unfold household_code_min_length, household_code_max_length, len.
  destruct (Re.match_ false household_code_format s) eqn:M;
    cbn [is_some] in A; cbn [app].
  - destruct (Z.ltb_spec (Z.of_nat (List.length s)) 8) as [L1|L1];
      [|destruct (Z.ltb_spec 15 (Z.of_nat (List.length s))) as [L2|L2]].
    + split; [intro H; destruct (U "Household code too short (minimum ");
              discriminate|].
      intro H. exfalso.
      destruct H as [V|(d & E & V & L)];
        destruct (household_format_shape _ V) as (_ & B);
        [|rewrite E, length_app in L1; cbn [List.length] in L1];
        unfold str, char in *; lia.
    + split; [intro H; destruct (U "Household code too long (maximum ");
              discriminate|].
      intro H. exfalso.
      destruct H as [V|(d & E & V & L)];
        destruct (household_format_shape _ V) as (_ & B);
        [|rewrite E, length_app in L2; cbn [List.length] in L2];
        unfold str, char in *; lia.
    + split; [intros _|reflexivity].
      destruct (proj1 A eq_refl) as [V|(d & E & V)]; [left; exact V|].
      right. exists d. split; [exact E|]. split; [exact V|].
      rewrite E, length_app in L2. cbn [List.length] in L2.
      unfold str, char in *. lia.
  - split.
    + intro H. exfalso.
      destruct (Z.of_nat (List.length s) <? 8);
        [|destruct (15 <? Z.of_nat (List.length s))]; discriminate.
    + intro H. exfalso.
      assert (T : false = true); [|discriminate].
      apply A. destruct H as [V|(d & E & V & _)]; [left | right; exists d];
        auto.
Qed.

(** X3.  The household-code validator declares a string valid exactly when
    it consists of 8 to 15 characters of A-Z and 0-9, or of 8 to 14 such
    characters followed by one newline. *)
Theorem household_validator_accepts_exactly (s : str) :
  is_valid (HouseholdCodeValidator_validate (VStr s)) = true
  <-> household_format s = true
      \/ (exists d, s = d ++ [10] /\ household_format d = true
                    /\ (List.length d <= 14)%nat).
Proof.
  rewrite (is_valid_iff_no_errors ma_ho_gia_dinh (VStr s)).
  apply household_errors_nil.
Qed.

(** X4.  The household-code normalizer is idempotent, and the validator
    reports no error on its result exactly when that result is in the
    expected format, that is, exactly when normalization succeeded. *)
Theorem household_normalizer_idempotent_and_validated (code : str) :
  HouseholdCodeNormalizer_normalize (HouseholdCodeNormalizer_normalize code)
  = HouseholdCodeNormalizer_normalize code
  /\ (errors (HouseholdCodeValidator_validate
                (VStr (HouseholdCodeNormalizer_normalize code))) = []
      <-> household_format (HouseholdCodeNormalizer_normalize code) = true).
Proof.
  destruct (household_format (HouseholdCodeNormalizer_normalize code)) eqn:V.
  - split; [apply canonical_household_fixed; exact V|].
    rewrite household_errors_nil. rewrite V. tauto.
  - assert (E : HouseholdCodeNormalizer_normalize code = code).
    { rewrite household_normalize_spec in *.
      destruct code as [|c code']; [reflexivity|]. cbv zeta in *.
      destruct (household_format
                  (filter (fun c0 => negb (isspace_char c0))
                          (upper (c :: code')))) eqn:Vn;
        [congruence | reflexivity]. }
    rewrite E in *. split; [exact E|].
    rewrite household_errors_nil. rewrite V.
    split; [|discriminate].
    intros [H|(d & Ed & H & _)]; [discriminate|].
    destruct (canonical_household_fixed d H) as [_ E2].
    subst code. unfold str, char in *. rewrite E2 in E.
    apply (f_equal (@List.length Z)) in E. rewrite length_app in E.
    simpl in E. lia.
Qed.

(** *** Income: validation, and parsing the formatted amount again *)

Lemma truthy_nonempty (s : str) : truthy s = true -> s <> [].
Proof. destruct s; [discriminate | discriminate]. Qed.

Lemma ascii_digit_value (n : Z) : 0 <= n < 10 -> decimal (48 + n) = Some n.
Proof.
  intro H. unfold decimal, decimal_zeros. cbn [decimal_in].
  replace ((48 <=? 48 + n) && (48 + n <? 48 + 10)) with true.
  - f_equal. lia.
  - symmetry. apply andb_true_iff.
    split; [apply Z.leb_le | apply Z.ltb_lt]; lia.
Qed.

Lemma int_digits_nonneg (s : str) :
  forall acc n, 0 <= acc -> int_digits acc s = Some n -> 0 <= n.
Proof.
  induction s as [|c s IH]; intros acc n A H.
  - inversion H. lia.
  - cbn [int_digits] in H. destruct (decimal c) as [d|] eqn:D;
      [|discriminate].
    apply decimal_in_range in D. apply (IH (acc * 10 + d)); [lia | exact H].
Qed.

Lemma Z_digits_value (fuel : nat) :
  forall n acc,
    0 <= n < 2 ^ Z.of_nat fuel ->
    fold_left (fun a c => a * 10 + SpecIncome.digit_value c)
              (Z_digits fuel n acc) 0
    = fold_left (fun a c => a * 10 + SpecIncome.digit_value c) acc n.
Proof.
  induction fuel as [|f IH]; intros n acc B.
  - change (2 ^ Z.of_nat 0) with 1 in B.
    assert (n = 0) by lia. subst n. reflexivity.
  - cbn [Z_digits]. cbv zeta.
    assert (M : 0 <= n mod 10 < 10) by (apply Z.mod_pos_bound; lia).
    assert (D : SpecIncome.digit_value (48 + n mod 10) = n mod 10)
      by (unfold SpecIncome.digit_value;
          rewrite (ascii_digit_value M); reflexivity).
    destruct (Z.ltb_spec n 10) as [L|L].
    + cbn [fold_left]. rewrite D. rewrite Z.mod_small by lia. reflexivity.
    + rewrite Nat2Z.inj_succ, Z.pow_succ_r in B by lia.
      rewrite IH.
      * cbn [fold_left]. rewrite D. f_equal.
        pose proof (Z.div_mod n 10). lia.
      * split; [apply Z.div_pos; lia|].
        apply Z.div_lt_upper_bound; lia.
Qed.

Lemma Z_digits_ascii (fuel : nat) :
  forall n acc,
    0 <= n ->
    forallb SpecPhone.ascii_digit acc = true ->
    forallb SpecPhone.ascii_digit (Z_digits fuel n acc) = true.
Proof.
  induction fuel as [|f IH]; intros n acc N A; [exact A|].
  cbn [Z_digits]. cbv zeta.
  assert (M : 0 <= n mod 10 < 10) by (apply Z.mod_pos_bound; lia).
  assert (A' : forallb SpecPhone.ascii_digit ((48 + n mod 10) :: acc) = true).
  { cbn [forallb]. rewrite A. unfold SpecPhone.ascii_digit.
    rewrite andb_true_r. apply andb_true_iff.
    split; apply Z.leb_le; lia. }
  destruct (n <? 10); [exact A'|].
  apply IH; [apply Z.div_pos; lia | exact A'].
Qed.

Lemma Z_digits_truthy (fuel : nat) :
  forall n acc, truthy acc = true -> truthy (Z_digits fuel n acc) = true.
Proof.
  induction fuel as [|f IH]; intros n acc A; [exact A|].
  cbn [Z_digits]. cbv zeta. destruct (n <? 10); [reflexivity|].
  apply IH. reflexivity.
Qed.

(** [str(n)] is a non-empty string of ASCII digits that denotes [n]. *)
Lemma str_of_Z_spec (n : Z) :
  0 <= n ->
  forallb SpecPhone.ascii_digit (str_of_Z n) = true
  /\ truthy (str_of_Z n) = true
  /\ int_digits 0 (str_of_Z n) = Some n.
Proof.
  intro N. unfold str_of_Z.
  set (fuel := S (Z.to_nat (Z.log2 n))).
  assert (A : forallb SpecPhone.ascii_digit (Z_digits fuel n []) = true)
    by (apply Z_digits_ascii; [exact N | reflexivity]).
  assert (T : truthy (Z_digits fuel n []) = true).
  { unfold fuel. cbn [Z_digits]. cbv zeta. destruct (n <? 10); [reflexivity|].
    apply Z_digits_truthy. reflexivity. }
  split; [exact A|]. split; [exact T|].
  rewrite int_digits_value.
  - rewrite Z_digits_value; [reflexivity|].
    split; [exact N|]. unfold fuel.
    rewrite Nat2Z.inj_succ, Z2Nat.id by apply Z.log2_nonneg.
    destruct (Z.eq_dec n 0) as [->|Z0]; [reflexivity|].
    apply Z.log2_spec. lia.
  - apply forallb_forall. intros x Hx. apply ascii_digit_decimal.
    rewrite forallb_forall in A. auto.
Qed.

Lemma group3_filter (p : char -> bool) (l : str) :
  p 44 = false ->
  forall k, forallb p l = true -> filter p (group3 k l) = l.
Proof.
  intro C. induction l as [|d r IH]; intros k F; [reflexivity|].
  cbn [forallb] in F. apply andb_true_iff in F. destruct F as [Fd Fr].
  destruct k as [|k]; cbn [group3 filter]; rewrite ?C, Fd, IH by exact Fr;
    reflexivity.
Qed.

Lemma group3_chars (l : str) :
  forall k c, In c (group3 k l) -> c = 44 \/ In c l.
Proof.
  induction l as [|d r IH]; intros k c H; [contradiction|].
  destruct k as [|k]; cbn [group3] in H.
  - destruct H as [H|[H|H]]; [left; auto | right; left; exact H|].
    destruct (IH _ _ H); [left | right; right]; assumption.
  - destruct H as [H|H]; [right; left; exact H|].
    destruct (IH _ _ H); [left | right; right]; assumption.
Qed.

(** [f"{n:,}"] consists of the digits of [n] and commas, and deleting the
    commas gives the digits back. *)
Lemma format_thousands_spec (n : Z) :
  0 <= n ->
  filter isdecimal_char (format_thousands n) = str_of_Z n
  /\ Forall (fun c => c < 65) (format_thousands n).
Proof.
  intro N. destruct (str_of_Z_spec N) as (A & _ & _).
  unfold format_thousands. split.
  - rewrite filter_rev. rewrite group3_filter.
    + apply rev_involutive.
    + reflexivity.
    + apply forallb_forall. intros x Hx. apply in_rev in Hx.
      apply ascii_digit_decimal. rewrite forallb_forall in A. auto.
  - apply Forall_forall. intros c Hc. apply in_rev in Hc.
    destruct (@group3_chars _ _ _ Hc) as [->|H]; [lia|].
    apply in_rev in H. rewrite forallb_forall in A. specialize (A c H).
    unfold SpecPhone.ascii_digit in A. apply andb_true_iff in A.
    destruct A as [_ A]. apply Z.leb_le in A. lia.
Qed.

Lemma lower_char_below (c : char) : c < 65 -> lower_char c = [c].
Proof.
  intro H. unfold lower_char. cbn [assoc_default].
  replace (304 =? c) with false by (symmetry; apply Z.eqb_neq; lia).
  unfold tolower. rewrite (@case_lookup_below lower_table 64 c);
    [reflexivity | reflexivity | lia].
Qed.

Lemma lower_below (g t : str) :
  Forall (fun c => c < 65) g -> lower (g ++ t) = g ++ lower t.
Proof.
  intro F. unfold lower. rewrite flat_map_app. f_equal.
  induction F as [|c g Hc F IH]; [reflexivity|].
  cbn [flat_map]. rewrite (lower_char_below Hc), IH. reflexivity.
Qed.

Lemma contains_skip (u g t : str) :
  head_from 65 u = true ->
  Forall (fun c => c < 65) g ->
  contains u (g ++ t) = contains u t.
Proof.
  intros H F. destruct u as [|h u]; [discriminate|].
  cbn [head_from] in H. apply Z.leb_le in H.
  induction F as [|c g Hc F IH]; [reflexivity|].
  cbn [app contains startswith].
  replace (h =? c) with false by (symmetry; apply Z.eqb_neq; lia).
  cbn [andb orb]. exact IH.
Qed.

Lemma first_unit_skip (units : list (str * Z)) (g t : str) :
  forallb (fun um => head_from 65 (fst um)) units = true ->
  Forall (fun c => c < 65) g ->
  first_unit units (g ++ t) = first_unit units t.
Proof.
  intros H F. induction units as [|[u m] units IH]; [reflexivity|].
  cbn [forallb fst] in H. apply andb_true_iff in H. destruct H as [H1 H2].
  cbn [first_unit]. rewrite (@contains_skip u g t H1 F), IH by exact H2.
  reflexivity.
Qed.

(** The text [f"{n:,} VND"] is read as the amount [n], with no unit. *)
Lemma income_of_formatted (n : Z) :
  0 <= n -> n < 10 ^ 4300 ->
  IncomeNormalizer_normalize (format_thousands n ++ U " " ++ U "VND")
  = Some {| amount := n;
            currency := U "VND";
            formatted := format_thousands n ++ U " " ++ U "VND";
            original := format_thousands n ++ U " " ++ U "VND";
            parsing_successful := true;
            multiplier_applied := None |}.
Proof.
  intros N Bn. destruct (str_of_Z_spec N) as (_ & T & I0).
  assert (I : int (str_of_Z n) = Some n).
  { rewrite int_within_bound; [exact I0 | apply truthy_nonempty; exact T|].
    exact (proj1 (str_of_Z_length N one_le_max_digits) Bn). }
  destruct (format_thousands_spec N) as (D & B).
  unfold IncomeNormalizer_normalize.
  set (s := format_thousands n ++ U " " ++ U "VND").
  assert (Ts : truthy s = true) by (unfold s; destruct (format_thousands n);
                                    reflexivity).
  rewrite Ts. cbn [negb]. cbv zeta. rewrite numeric_str_digits.
  assert (E : filter isdecimal_char s = str_of_Z n).
  { unfold s. rewrite filter_app, D.
    replace (filter isdecimal_char (U " " ++ U "VND")) with (@nil char)
      by reflexivity.
    apply app_nil_r. }
  rewrite E, T, I.
  assert (F : first_unit currency_multipliers (lower s) = None).
  { unfold s. rewrite (lower_below _ B).
    rewrite (@first_unit_skip currency_multipliers _ _ eq_refl B).
    reflexivity. }
  rewrite F. rewrite (format_within_bound N Bn). reflexivity.
Qed.

(** A successfully parsed income has a non-negative amount, and its
    formatted text is that amount with thousands separators and the
    currency. *)
Lemma parsed_income_shape (income : str) (r : NormalizedIncome) :
  IncomeNormalizer_normalize income = Some r ->
  parsing_successful r = true ->
  0 <= amount r
  /\ currency r = U "VND"
  /\ formatted r = format_thousands (amount r) ++ U " " ++ U "VND".
Proof.
  unfold IncomeNormalizer_normalize.
  destruct (negb (truthy income)); [discriminate|]. cbv zeta.
  destruct (truthy _); [|intro H; inversion H; subst r; discriminate].
  destruct (int _) as [a|] eqn:I;
    [|intro H; inversion H; subst r; discriminate].
  rewrite !first_unit_multiplier.
  unfold format_thousands_checked.
  destruct (int_max_str_digits
             <? List.length (str_of_Z (a * SpecIncome.multiplier income)))%nat;
    [intro H; inversion H; subst r; discriminate|].
  intro H. inversion H. subst r. clear H. intros _.
  cbn [amount currency formatted].
  split; [|split; reflexivity].
  assert (0 <= a).
  { unfold int in I. destruct (remove_char _ _) as [|c s]; [discriminate|].
    destruct (int_max_str_digits <? List.length (c :: s))%nat;
      [discriminate|].
    apply (@int_digits_nonneg (c :: s) 0 a); [lia | exact I]. }
  pose proof (multiplier_positive income). nia.
Qed.

(** X5.  The income validator declares an income valid exactly when it was
    parsed and its amount is in the range that the income record itself
    calls reasonable; so a valid income never carries the warning about an
    unreasonable amount. *)
Theorem income_valid_iff_parsed_and_reasonable (i : NormalizedIncome) :
  is_valid (IncomeValidator_validate (VIncome i))
  = parsing_successful i && is_reasonable i.
Proof.
  unfold IncomeValidator_validate, is_reasonable, income_min, income_max.
  destruct (parsing_successful i); [|reflexivity].
  cbn [negb andb].
  destruct (Z.ltb_spec (amount i) 100000) as [L|L].
  - cbn [app validated is_valid].
    replace (100000 <=? amount i) with false
      by (symmetry; apply Z.leb_gt; lia).
    reflexivity.
  - replace (100000 <=? amount i) with true
      by (symmetry; apply Z.leb_le; lia).
    cbn [andb].
    destruct (Z.ltb_spec 100000000 (amount i)) as [M|M].
    + cbn [app validated is_valid]. symmetry. apply Z.leb_gt. lia.
    + cbn [validated is_valid]. symmetry. apply Z.leb_le. lia.
Qed.

(** X6.  The formatted text of a successfully parsed income (below the
    bound that recent interpreters put on integer strings) is itself
    parsed successfully, to the same amount, the same formatted text and
    no unit: the multiplier is not applied a second time. *)
Theorem income_formatted_parses_back (income : str) (r : NormalizedIncome) :
  IncomeNormalizer_normalize income = Some r ->
  parsing_successful r = true ->
  amount r < 10 ^ 4300 ->
  IncomeNormalizer_normalize (formatted r)
  = Some {| amount := amount r;
            currency := currency r;
            formatted := formatted r;
            original := formatted r;
            parsing_successful := true;
            multiplier_applied := None |}.
Proof.
  intros H P B. destruct (parsed_income_shape income H P) as (N & C & F).
  rewrite F, C. apply income_of_formatted; assumption.
Qed.

Lemma income_formatted_parses_back_witness :
  option_map amount
    (IncomeNormalizer_normalize
       (match IncomeNormalizer_normalize (U "18 triệu đồng") with
        | Some r => formatted r
        | None => []
        end))
  = Some 18000000.
Proof.
  destruct (IncomeNormalizer_normalize (U "18 triệu đồng")) as [r|] eqn:E;
    [|vm_compute in E; discriminate].
  assert (P : parsing_successful r = true)
    by (vm_compute in E; inversion E; reflexivity).
  assert (A : amount r = 18000000)
    by (vm_compute in E; inversion E; reflexivity).
  assert (B : amount r < 10 ^ 4300).
  { rewrite A. apply Z.lt_le_trans with (10 ^ 8); [reflexivity|].
    apply Z.pow_le_mono_r; [reflexivity | discriminate]. }
  rewrite (income_formatted_parses_back (U "18 triệu đồng") E P B).
  cbn [option_map amount]. rewrite A. reflexivity.
Defined.

(** X7.  A non-empty income text without any decimal digit is not parsed:
    the normalizer returns the unparsed record (amount 0, the text kept as
    it is), and the validator rejects it with the one error
    [Income parsing failed]. *)
Theorem income_without_digit_fails (income : str) :
  income <> [] ->
  existsb isdecimal_char income = false ->
  IncomeNormalizer_normalize income = Some (unparsed_income income)
  /\ errors (IncomeValidator_validate (VIncome (unparsed_income income)))
     = [U "Income parsing failed"]
  /\ is_valid (IncomeValidator_validate (VIncome (unparsed_income income)))
     = false.
Proof.
  intros Ne D. split; [|split; reflexivity].
  unfold IncomeNormalizer_normalize.
  destruct income as [|c s]; [congruence|]. cbn [truthy negb]. cbv zeta.
  rewrite numeric_str_digits.
  assert (E : filter isdecimal_char (c :: s) = []).
  { destruct (filter isdecimal_char (c :: s)) as [|x l] eqn:E; [reflexivity|].
    assert (I : In x (filter isdecimal_char (c :: s)))
      by (rewrite E; left; reflexivity).
    apply filter_In in I. destruct I as [I1 I2].
    assert (T : existsb isdecimal_char (c :: s) = true)
      by (apply existsb_exists; exists x; auto).
    congruence. }
  rewrite E. reflexivity.
Qed.

Lemma income_without_digit_fails_witness :
  IncomeNormalizer_normalize (U "không rõ")
  = Some (unparsed_income (U "không rõ")).
Proof.
  refine (proj1 (@income_without_digit_fails (U "không rõ") _ _)).
  - vm_compute. discriminate.
  - vm_compute. reflexivity.
Defined.

(** *** Bank: the partial tier *)

(** When every code of the table is one word, the second loop of the bank
    normalizer finds nothing that the first loop has not found. *)
Lemma partial_bank_after_exact (table : list (str * str))
    (bank bank_upper : str) :
  Forall (fun cf => split_whitespace (fst cf) = [fst cf]) table ->
  exact_bank table bank bank_upper = None ->
  partial_bank table bank_upper = None.
Proof.
  intro F. induction F as [|[code full] table W F IH]; [reflexivity|].
  cbn [exact_bank partial_bank fst] in *. rewrite W. cbn [existsb].
  destruct (contains code bank_upper); [discriminate|].
  cbn [orb]. destruct (contains (lower code) (lower bank)); [discriminate|].
  exact IH.
Qed.

Lemma bank_codes_one_word :
  Forall (fun cf : str * str => split_whitespace (fst cf) = [fst cf]) banks.
Proof. unfold banks. repeat constructor. Qed.

Lemma exact_bank_in (table : list (str * str)) (bank bank_upper : str)
    (code full : str) :
  exact_bank table bank bank_upper = Some (code, full) ->
  In (code, full) table.
Proof.
  induction table as [|[c f] table IH]; [discriminate|].
  cbn [exact_bank].
  destruct (contains c bank_upper || contains (lower c) (lower bank)).
  - intro H. inversion H. left. reflexivity.
  - intro H. right. auto.
Qed.

(** X8.  The bank normalizer never answers with the partial tier: on a
    non-empty name the result is an exact match (a code of the table with
    its full name, confidence 1) or unknown (no code, confidence 0.5), and
    the bank validator reports no error on it. *)
Theorem bank_match_is_exact_or_unknown (bank : str) (r : NormalizedBank) :
  BankNormalizer_normalize bank = Some r ->
  ((exists c, code r = Some c /\ In (c, full_name r) banks
              /\ match_type r = U "exact" /\ bank_confidence r == 1)
   \/ (code r = None /\ full_name r = title bank
       /\ match_type r = U "unknown" /\ bank_confidence r == 5 # 10))
  /\ bank_original r = bank
  /\ errors (BankValidator_validate (VBank r)) = [].
Proof.
  unfold BankNormalizer_normalize.
  destruct (negb (truthy bank)); [discriminate|]. cbv zeta.
  destruct (exact_bank banks bank (strip (upper bank))) as [[c f]|] eqn:E.
  - intro H. inversion H. subst r. clear H.
    cbn [code full_name match_type bank_confidence bank_original].
    split; [|split; reflexivity].
    left. exists c. split; [reflexivity|].
    split; [exact (@exact_bank_in _ _ _ _ _ E)|]. split; reflexivity.
  - rewrite (@partial_bank_after_exact banks bank _ bank_codes_one_word E).
    intro H. inversion H. subst r. clear H.
    cbn [code full_name match_type bank_confidence bank_original].
    split; [|split; reflexivity].
    right. repeat split; reflexivity.
Qed.

Lemma bank_match_is_exact_or_unknown_witness :
  exists r, BankNormalizer_normalize (U "Vietcombank - VCB") = Some r
            /\ errors (BankValidator_validate (VBank r)) = [].
Proof.
  eexists. split; [vm_compute; reflexivity|].
  refine (proj2 (proj2 (@bank_match_is_exact_or_unknown
                          (U "Vietcombank - VCB") _ _))).
  vm_compute. reflexivity.
Defined.

(** *** The arbiter: scoring and choice *)

Lemma method_weight_range (m : str) :
  (0 < get METHOD_WEIGHTS m (5 # 10) /\ get METHOD_WEIGHTS m (5 # 10) <= 1)%Q.
Proof.
  unfold METHOD_WEIGHTS. cbn [get].
  repeat match goal with
         | |- context [if eqb ?k m then _ else _] =>
             destruct (eqb k m); [split; [reflexivity | discriminate]|]
         end.
  split; [reflexivity | discriminate].
Qed.

Lemma clamp_range (x : Q) : (0 <= Qmax 0 (Qmin 1 x) /\ Qmax 0 (Qmin 1 x) <= 1)%Q.
Proof.
  split; [apply Q.le_max_l|].
  apply Q.max_lub; [discriminate | apply Q.le_min_l].
Qed.

Lemma clamp_monotone (x y : Q) :
  (x <= y)%Q -> (Qmax 0 (Qmin 1 x) <= Qmax 0 (Qmin 1 y))%Q.
Proof.
  intro H. apply Q.max_le_compat_l. apply Q.min_le_compat_l. exact H.
Qed.

Lemma len_nonneg {A : Type} (l : list A) : (0 <= inject_Z (len l))%Q.
Proof. unfold len. rewrite <- (Zle_Qle 0). lia. Qed.

(** X9.  The confidence score lies between 0 and 1 for every base
    confidence, error list and method name; it does not increase when
    validation errors are added, and does not decrease when the base
    confidence grows. *)
Theorem confidence_score_bounded_and_monotone (base1 base2 : Q)
    (errs1 errs2 : list str) (method : str) :
  (base1 <= base2)%Q ->
  (List.length errs2 <= List.length errs1)%nat ->
  (0 <= calculate_confidence_score base1 errs1 method
   /\ calculate_confidence_score base1 errs1 method
      <= calculate_confidence_score base2 errs2 method
   /\ calculate_confidence_score base2 errs2 method <= 1)%Q.
Proof.
  intros B L. unfold calculate_confidence_score. cbv zeta.
  destruct (method_weight_range method) as [W _].
  split; [apply clamp_range|]. split; [|apply clamp_range].
  apply clamp_monotone.
  apply Qmult_le_compat_r; [|apply Qlt_le_weak; exact W].
  assert (N : (inject_Z (len errs2) <= inject_Z (len errs1))%Q)
    by (unfold len; rewrite <- Zle_Qle; lia).
  unfold validation_error_penalty. lra.
Qed.

Lemma confidence_score_bounded_and_monotone_witness :
  (calculate_confidence_score (8 # 10) [U "e1"; U "e2"] REGEX_PATTERN
   <= calculate_confidence_score (9 # 10) [U "e1"] REGEX_PATTERN)%Q.
Proof.
  refine (proj1 (proj2 (@confidence_score_bounded_and_monotone
                          (8 # 10) (9 # 10) [U "e1"; U "e2"] [U "e1"]
                          REGEX_PATTERN _ _))).
  - discriminate.
  - simpl. lia.
Defined.

Lemma max_from_greatest (l : list attempt) :
  forall best a,
    In a (best :: l) ->
    (confidence_of a <= confidence_of (max_from best l))%Q.
Proof.
  induction l as [|b l IH]; intros best a H.
  - destruct H as [<-|[]]. cbn [max_from]. apply Qle_refl.
  - cbn [max_from].
    destruct (Qlt_bool (confidence_of best) (confidence_of b)) eqn:E.
    + apply Qlt_bool_iff in E.
      destruct H as [<-|H].
      * apply Qle_trans with (confidence_of b); [lra|].
        apply IH. left. reflexivity.
      * apply IH. exact H.
    + assert (confidence_of b <= confidence_of best)%Q.
      { unfold Qlt_bool in E. apply negb_false_iff in E.
        apply Qle_bool_iff in E. exact E. }
      destruct H as [<-|[<-|H]].
      * apply IH. left. reflexivity.
      * apply Qle_trans with (confidence_of best); [assumption|].
        apply IH. left. reflexivity.
      * apply IH. right. exact H.
Qed.

(** X10.  For the member list the arbiter prefers a candidate that carries
    data: when the text of some attempt normalizes to a non-empty member
    list, the chosen attempt is one of those, its base confidence is the
    greatest among them, and the data bonus is added to it, whatever the
    confidence of the attempts without data. *)
Theorem member_choice_prefers_data (attempts : list attempt)
    (m0 v0 : str) (w0 : Q) :
  In (m0, v0, w0) attempts ->
  is_true (_normalize_field_value thong_tin_thanh_vien v0) = true ->
  exists m v w,
    In (m, v, w) attempts
    /\ is_true (_normalize_field_value thong_tin_thanh_vien v) = true
    /\ _select_best_extraction_result thong_tin_thanh_vien attempts
       = Some (m, v, (w + data_quality_bonus)%Q)
    /\ (w0 <= w)%Q.
Proof.
  intros Hin Ht. unfold _select_best_extraction_result.
  cbn [Field_eqb].
  match goal with
  | |- context [max_attempt (flat_map ?g attempts)] =>
      set (valid := flat_map g attempts)
  end.
  assert (Hv : In (m0, v0, (w0 + data_quality_bonus)%Q) valid).
  { unfold valid. apply in_flat_map. exists (m0, v0, w0).
    split; [exact Hin|]. rewrite Ht. left. reflexivity. }
  destruct valid as [|b valid'] eqn:Ev; [contradiction|].
  cbn [max_attempt].
  pose proof (@max_from_greatest valid' b _ Hv) as G.
  assert (Hb : In (max_from b valid') (b :: valid'))
    by (destruct (max_from_in valid' b) as [->|H];
        [left; reflexivity | right; exact H]).
  rewrite <- Ev in Hb. unfold valid in Hb.
  apply in_flat_map in Hb. destruct Hb as ([[m v] w] & Hin' & Hx).
  destruct (is_true (_normalize_field_value thong_tin_thanh_vien v)) eqn:Et;
    [|contradiction].
  destruct Hx as [Hx|[]].
  exists m, v, w. split; [exact Hin'|]. split; [exact Et|].
  split; [rewrite <- Hx; reflexivity|].
  rewrite <- Hx in G. unfold confidence_of in G. cbn [snd] in G.
  unfold data_quality_bonus in G. lra.
Qed.

Lemma member_choice_prefers_data_witness :
  _select_best_extraction_result thong_tin_thanh_vien
    [(CSS_SELECTOR, U "Thông tin thành viên", 9 # 10);
     (CONTEXT_SEARCH, U "Nguyễn Văn An - Con - 1995", 7 # 10)]
  = Some (CONTEXT_SEARCH, U "Nguyễn Văn An - Con - 1995",
          (7 # 10) + data_quality_bonus)%Q.
Proof.
  destruct (@member_choice_prefers_data
              [(CSS_SELECTOR, U "Thông tin thành viên", 9 # 10);
               (CONTEXT_SEARCH, U "Nguyễn Văn An - Con - 1995", 7 # 10)]
              CONTEXT_SEARCH (U "Nguyễn Văn An - Con - 1995") (7 # 10))
    as (m & v & w & Hin & Ht & Hs & _).
  - right. left. reflexivity.
  - vm_compute. reflexivity.
  - rewrite Hs. destruct Hin as [E|[E|[]]]; inversion E; subst.
    + vm_compute in Ht. discriminate.
    + reflexivity.
Defined.

Section FieldResults.

Variable css regex context xpath fallback : str -> Field -> outcome (option str).
Variable InputValue : Type.
Variable compare : Field -> value -> InputValue -> Comparison.
Variable repr : value -> str.

Local Abbreviation attempts_of :=
  (collect_attempts css regex context xpath fallback).
Local Abbreviation single :=
  (_extract_single_field css regex context xpath fallback compare repr).

(** The two shapes of a field result: the failed result, or the result
    built from the chosen attempt. *)
Lemma field_result_cases (f : Field) (html : str)
    (input : option (list (str * InputValue))) (now : Z) :
  (exists msg,
      single f html input now = _create_failed_extraction_result f msg now)
  \/ (exists m v w base weight errs applied,
         In (m, base, weight) strategy_kinds
         /\ (w = base
             \/ (w = (base + data_quality_bonus)%Q
                 /\ f = thong_tin_thanh_vien))
         /\ single f html input now
            = new_ExtractionResult f (_normalize_field_value f v)
                (calculate_confidence_score w errs m)
                (determine_quality_level
                   (calculate_confidence_score w errs m))
                m (contains (U "fallback") m) errs applied now).
Proof.
  unfold _extract_single_field, extract_single_field_body.
  destruct (attempts_of html f) as [attempts|e] eqn:Ha; cbn [bind].
  - destruct attempts as [|a0 attempts'] eqn:En.
    + left. eexists.
      replace (_select_best_extraction_result f []) with (@None attempt)
        by (destruct f; reflexivity).
      reflexivity.
    + rewrite <- En in *.
      assert (Hne : attempts <> []) by (rewrite En; discriminate).
      pose proof (@collect_attempts_kinds css regex context xpath fallback
                    _ compare html f attempts Ha) as K.
      destruct (select_best_spec f Hne) as (m & v & w & Hin & Hsel).
      rewrite Forall_forall in K. destruct (K _ Hin) as (weight & Hk).
      cbn [fst snd] in Hk.
      right.
      destruct Hsel as [(Hf & _ & ->)|(_ & ->)]; cbn [try_except].
      * exists m, v, (w + data_quality_bonus)%Q, w, weight.
        do 2 eexists. split; [exact Hk|]. split; [right; auto|]. reflexivity.
      * exists m, v, w, w, weight.
        do 2 eexists. split; [exact Hk|]. split; [left; auto|]. reflexivity.
  - left. eexists. reflexivity.
Qed.

(** X11.  Every field result, whatever the strategies return or raise,
    has a confidence between 0 and 1 and carries the quality tier of that
    confidence; its method is one of the five strategy names or none, and
    the fallback flag is set exactly for the fallback method. *)
Theorem field_result_is_coherent (f : Field) (html : str)
    (input : option (list (str * InputValue))) (now : Z) :
  let r := single f html input now in
  (0 <= confidence_score r)%Q /\ (confidence_score r <= 1)%Q
  /\ quality_level r = determine_quality_level (confidence_score r)
  /\ In (extraction_method r)
        [CSS_SELECTOR; REGEX_PATTERN; CONTEXT_SEARCH; XPATH_SIMULATION;
         FALLBACK_PATTERN; U "none"]
  /\ fallback_used r = eqb (extraction_method r) FALLBACK_PATTERN
  /\ result_field_name r = field_name f
  /\ extraction_timestamp r = now.
Proof.
  cbv zeta.
  destruct (field_result_cases f html input now)
    as [(msg & ->)|(m & v & w & base & weight & errs & applied
                      & Hk & _ & ->)].
  - cbn. repeat split; try discriminate; tauto.
  - cbn [new_ExtractionResult confidence_score quality_level
         extraction_method fallback_used result_field_name
         extraction_timestamp].
    unfold calculate_confidence_score. cbv zeta.
    split; [apply clamp_range|]. split; [apply clamp_range|].
    split; [reflexivity|].
    cbn [strategy_kinds In] in Hk.
    destruct Hk as [E|[E|[E|[E|[E|[]]]]]]; inversion E; subst;
      (split; [cbn [In]; tauto|]); repeat split; reflexivity.
Qed.

(** X12.  A value that only the fallback patterns found is never rated
    better than poor: its confidence is at most 0.35. *)
Theorem fallback_result_is_poor (f : Field) (html : str)
    (input : option (list (str * InputValue))) (now : Z) :
  let r := single f html input now in
  fallback_used r = true ->
  (confidence_score r <= 35 # 100)%Q
  /\ (quality_level r = POOR \/ quality_level r = FAILED)
  /\ extraction_method r = FALLBACK_PATTERN.
Proof.
  cbv zeta.
  destruct (field_result_cases f html input now)
    as [(msg & ->)|(m & v & w & base & weight & errs & applied
                      & Hk & Hw & ->)].
  - cbn. discriminate.
  - cbn [new_ExtractionResult confidence_score quality_level
         extraction_method fallback_used].
    intro Fb.
    assert (E : m = FALLBACK_PATTERN /\ base = (5 # 10)%Q).
    { cbn [strategy_kinds In] in Hk.
      destruct Hk as [E|[E|[E|[E|[E|[]]]]]]; inversion E; subst;
        try (vm_compute in Fb; discriminate).
      split; reflexivity. }
    destruct E as [-> ->].
    assert (C : (calculate_confidence_score w errs FALLBACK_PATTERN
                 <= 35 # 100)%Q).
    { unfold calculate_confidence_score. cbv zeta.
      replace (get METHOD_WEIGHTS FALLBACK_PATTERN (5 # 10)) with (5 # 10)%Q
        by reflexivity.
      apply Q.max_lub; [discriminate|].
      eapply Qle_trans; [apply Q.le_min_r|].
      pose proof (len_nonneg errs) as N.
      unfold validation_error_penalty.
      assert (w <= 7 # 10)%Q
        by (destruct Hw as [->|[-> _]]; unfold data_quality_bonus;
            discriminate).
      lra. }
    split; [exact C|]. split; [|reflexivity].
    destruct (quality_level_cases
                (calculate_confidence_score w errs FALLBACK_PATTERN))
      as [[_ H]|[[_ [H _]]|[[_ [H _]]|[[-> _]|[-> _]]]]]; try lra; tauto.
Qed.

(** X13.  For a field other than the member list, when no strategy
    raises, the chosen candidate is the first non-empty one in the order
    selector, regular expression, path traversal, context search,
    fallback: the path traversal beats the context search although it
    runs after it, and the regular expression beats the path traversal
    at equal confidence because it runs first. *)
Theorem strategy_priority (f : Field) (html : str)
    (input : option (list (str * InputValue))) (now : Z)
    (r1 r2 r3 r4 r5 : option str) :
  f <> thong_tin_thanh_vien ->
  css html f = Ok r1 -> regex html f = Ok r2 -> context html f = Ok r3 ->
  xpath html f = Ok r4 -> fallback html f = Ok r5 ->
  let r := single f html input now in
  match first_candidate
          [(CSS_SELECTOR, r1, 9 # 10); (REGEX_PATTERN, r2, 8 # 10);
           (XPATH_SIMULATION, r4, 8 # 10); (CONTEXT_SEARCH, r3, 7 # 10);
           (FALLBACK_PATTERN, r5, 5 # 10)] with
  | Some (m, v, w) =>
      extraction_method r = m
      /\ extracted_value r = _normalize_field_value f v
      /\ confidence_score r
         = calculate_confidence_score w (validation_errors r) m
  | None => extraction_method r = U "none" /\ extracted_value r = VNone
  end.
Proof.
  intros Hf H1 H2 H3 H4 H5. cbv zeta.
  unfold _extract_single_field, extract_single_field_body, collect_attempts.
  rewrite H1, H2, H3, H4, H5. cbn [bind].
  assert (Ef : Field_eqb f thong_tin_thanh_vien = false)
    by (destruct f; try reflexivity; congruence).
  unfold _select_best_extraction_result. rewrite Ef.
  destruct r1 as [[|c1 s1]|], r2 as [[|c2 s2]|], r3 as [[|c3 s3]|],
    r4 as [[|c4 s4]|];
    cbn [record_attempt truthy app first_candidate bind max_attempt
         max_from confidence_of snd Qlt_bool Qle_bool negb try_except];
    try (cbn; repeat split; reflexivity);
    destruct r5 as [[|c5 s5]|];
    cbn [record_attempt truthy app first_candidate bind max_attempt
         max_from confidence_of snd Qlt_bool Qle_bool negb try_except];
    cbn; repeat split; reflexivity.
Qed.

End FieldResults.

Lemma fallback_result_is_poor_witness :
  quality_level
    (_extract_single_field Sample.none Sample.none Sample.none Sample.none
       Sample.finds_phone Sample.compare Sample.repr so_dien_thoai
       Sample.html None 7)
  = POOR.
Proof.
  destruct (@fallback_result_is_poor
              Sample.none Sample.none Sample.none Sample.none
              Sample.finds_phone unit Sample.compare Sample.repr
              so_dien_thoai Sample.html None 7 eq_refl)
    as (_ & [H|H] & _); [exact H|].
  vm_compute in H. discriminate.
Defined.

Lemma strategy_priority_witness :
  extraction_method
    (_extract_single_field Sample.none Sample.none Sample.finds_phone
       Sample.finds_phone Sample.none Sample.compare Sample.repr
       so_dien_thoai Sample.html None 7)
  = XPATH_SIMULATION.
Proof.
  pose proof (@strategy_priority
                Sample.none Sample.none Sample.finds_phone
                Sample.finds_phone Sample.none unit Sample.compare
                Sample.repr so_dien_thoai Sample.html None 7
                None None (Some (U "0912345678")) (Some (U "0912345678"))
                None) as P.
  cbv zeta in P. cbn [first_candidate truthy] in P.
  assert (T : truthy (U "0912345678") = true) by reflexivity.
  rewrite T in P. apply P; try reflexivity. discriminate.
Defined.

(** *** Members: names, duplicates *)

Lemma stage_names_trimmed (text : str) :
  Forall (fun m => strip (name m) = name m)
    (_extract_from_table_rows text)
  /\ Forall (fun m => strip (name m) = name m) (_extract_from_json text)
  /\ Forall (fun m => strip (name m) = name m)
       (_extract_from_structured_text text)
  /\ Forall (fun m => strip (name m) = name m)
       (_extract_from_delimited_text text).
Proof.
  repeat split; apply Forall_forall; intros m Hm.
  - unfold _extract_from_table_rows in Hm.
    destruct (contains (U "<tr>") (lower text)); [|contradiction].
    apply in_flat_map in Hm. destruct Hm as (x & _ & Hm). cbv zeta in Hm.
    destruct (truthy (strip (Re.group x 1))
              && truthy (strip (Re.group x 2))); [|contradiction].
    destruct Hm as [<-|[]]. apply strip_idempotent.
  - unfold _extract_from_json in Hm.
    destruct (contains _ text && contains _ text); [|contradiction].
    apply in_map_iff in Hm. destruct Hm as (x & <- & _).
    apply strip_idempotent.
  - unfold _extract_from_structured_text in Hm.
    apply in_app_or in Hm. destruct Hm as [Hm|Hm];
      [|apply in_app_or in Hm; destruct Hm as [Hm|Hm]];
      apply in_map_iff in Hm; destruct Hm as (x & <- & _);
      apply strip_idempotent.
  - unfold _extract_from_delimited_text in Hm.
    apply in_flat_map in Hm. destruct Hm as (seg & _ & Hm).
    unfold delimited_segment in Hm. cbv zeta in Hm.
    destruct (negb (truthy (strip seg)) || (len (strip seg) <? 5));
      [contradiction|].
    destruct (existsb _ relationship_keywords); [|contradiction].
    destruct (Re.search true rel_pattern (strip seg)) as [x|];
      [|contradiction].
    destruct (truthy _); [|contradiction].
    destruct Hm as [<-|[]]. apply strip_idempotent.
Qed.

Lemma truthy_iff (s : str) : truthy s = true <-> s <> [].
Proof. destruct s; simpl; split; congruence. Qed.

(** X14.  Every member the member normalizer returns has a non-empty name
    without blanks around it and a non-empty relationship, so it is
    complete, and the member validator never reports a missing name for
    it: the only error a returned member can get is a missing
    relationship (a relationship made of blanks). *)
Theorem normalized_members_have_names (text : str) :
  Forall (fun m =>
            name m <> [] /\ strip (name m) = name m
            /\ relationship m <> []
            /\ Derived.is_complete m = true
            /\ forall i,
                 member_errors i m = []
                 \/ member_errors i m
                    = [(U "Member " ++ str_of_Z (i + 1))
                       ++ U ": Missing relationship"])
         (MemberInfoNormalizer_normalize text).
Proof.
  apply Forall_forall. intros m Hm.
  unfold MemberInfoNormalizer_normalize in Hm.
  destruct (negb (truthy text)); [contradiction|]. cbv zeta in Hm.
  destruct (remove_duplicates_unique
              (extend_if_empty
                 (extend_if_empty
                    (extend_if_empty ([] ++ _extract_from_table_rows text)
                       (_extract_from_json text))
                    (_extract_from_structured_text text))
                 (_extract_from_delimited_text text)))
    as (_ & Hne & Hincl).
  rewrite Forall_forall in Hne. destruct (Hne m Hm) as [Hn Hr].
  assert (Hs : strip (name m) = name m).
  { apply Hincl in Hm.
    destruct (stage_names_trimmed text) as (S1 & S2 & S3 & S4).
    rewrite Forall_forall in S1, S2, S3, S4.
    unfold extend_if_empty in Hm. cbn [app] in Hm.
    destruct (_extract_from_table_rows text) as [|a l] eqn:E1;
      [|apply S1; exact Hm].
    cbn [app] in Hm.
    destruct (_extract_from_json text) as [|a l] eqn:E2;
      [|apply S2; exact Hm].
    cbn [app] in Hm.
    destruct (_extract_from_structured_text text) as [|a l] eqn:E3;
      [|apply S3; exact Hm].
    cbn [app] in Hm. apply S4. exact Hm. }
  split; [exact Hn|]. split; [exact Hs|]. split; [exact Hr|].
  apply truthy_iff in Hn. apply truthy_iff in Hr.
  split; [unfold Derived.is_complete; rewrite Hn, Hr; reflexivity|].
  intro i. unfold member_errors. cbv zeta. rewrite Hs, Hn, Hr.
  cbn [negb orb app].
  destruct (truthy (strip (relationship m))); cbn [negb]; auto.
Qed.

Lemma remove_duplicates_fixed (out : list MemberInfo) :
  forall seen,
    NoDup (map member_key out) ->
    Forall (fun m => ~ In (member_key m) seen
                     /\ name m <> [] /\ relationship m <> []) out ->
    remove_duplicates_from seen out = out.
Proof.
  induction out as [|m out IH]; intros seen N F; [reflexivity|].
  inversion N as [|? ? Nm Nout]; subst.
  inversion F as [|? ? (Hs & Hn & Hr) Fout]; subst.
  cbn [remove_duplicates_from]. cbv zeta.
  rewrite (proj2 (existsb_eqb_false _ _) Hs).
  apply truthy_iff in Hn. apply truthy_iff in Hr. rewrite Hn, Hr.
  cbn [negb andb]. f_equal. apply IH; [exact Nout|].
  apply Forall_forall. intros x Hx.
  rewrite Forall_forall in Fout. destruct (Fout x Hx) as (Hs' & Hn' & Hr').
  split; [|split; assumption].
  intros [E|H]; [|contradiction].
  apply Nm. rewrite E. apply in_map. exact Hx.
Qed.

Lemma remove_duplicates_covers (members : list MemberInfo) :
  forall seen m,
    In m members -> name m <> [] -> relationship m <> [] ->
    In (member_key m) seen
    \/ In (member_key m)
          (map member_key (remove_duplicates_from seen members)).
Proof.
  induction members as [|a members IH]; intros seen m Hin Hn Hr;
    [contradiction|].
  cbn [remove_duplicates_from]. cbv zeta.
  destruct (existsb (eqb (member_key a)) seen) eqn:Ea; cbn [negb andb].
  - destruct Hin as [->|Hin]; [|apply IH; assumption].
    left. apply existsb_exists in Ea. destruct Ea as (k & Hk & Ek).
    apply str_eqb_eq in Ek. rewrite Ek. exact Hk.
  - destruct (truthy (name a)) eqn:Ta; cbn [andb];
      [destruct (truthy (relationship a)) eqn:Tr|].
    + destruct Hin as [->|Hin]; [right; left; reflexivity|].
      destruct (IH (member_key a :: seen) m Hin Hn Hr) as [[E|H]|H].
      * right. left. exact E.
      * left. exact H.
      * right. right. exact H.
    + destruct Hin as [->|Hin]; [|apply IH; assumption].
      apply truthy_iff in Hr. congruence.
    + destruct Hin as [->|Hin]; [|apply IH; assumption].
      apply truthy_iff in Hn. congruence.
Qed.

(** X15.  Removing duplicates is idempotent, and it loses no key: every
    member of the input that has a name and a relationship has its key
    (lower-cased, trimmed name and relationship) on the output. *)
Theorem remove_duplicates_idempotent_and_complete
    (members : list MemberInfo) :
  _remove_duplicates (_remove_duplicates members) = _remove_duplicates members
  /\ forall m,
       In m members -> name m <> [] -> relationship m <> [] ->
       exists m', In m' (_remove_duplicates members)
                  /\ member_key m' = member_key m.
Proof.
  split.
  - unfold _remove_duplicates.
    destruct (remove_duplicates_from_spec members []) as [N F].
    apply remove_duplicates_fixed; [exact N|].
    apply Forall_forall. intros x Hx. rewrite Forall_forall in F.
    destruct (F x Hx) as (H1 & H2 & H3 & _). auto.
  - intros m Hin Hn Hr. unfold _remove_duplicates.
    destruct (remove_duplicates_covers members [] m Hin Hn Hr) as [[]|H].
    apply in_map_iff in H. destruct H as (m' & E & Hm'). eauto.
Qed.

(** *** Member elements of the document *)

Import Shape.

Lemma lstrip_all (p : char -> bool) (s : str) :
  forallb p s = true -> lstrip_by p s = [].
Proof.
  induction s as [|c s IH]; [reflexivity|].
  cbn [forallb lstrip_by]. destruct (p c); [exact IH | discriminate].
Qed.

Lemma forallb_rev {A : Type} (p : A -> bool) (l : list A) :
  forallb p l = true -> forallb p (rev l) = true.
Proof.
  rewrite !forallb_forall. intros H x Hx. apply H. apply in_rev. exact Hx.
Qed.

(** Blanks around a text do not change what [strip] returns. *)
Lemma strip_pad (pre a post : str) :
  forallb isspace_char pre = true ->
  forallb isspace_char post = true ->
  strip (pre ++ a ++ post) = strip a.
Proof.
  intros Hpre Hpost. unfold strip.
  rewrite lstrip_app, (lstrip_all _ _ Hpre).
  rewrite lstrip_app.
  destruct (lstrip_by isspace_char a) as [|x l] eqn:E.
  - rewrite (lstrip_all _ _ Hpost). reflexivity.
  - unfold rstrip_by. rewrite rev_app_distr, lstrip_app.
    rewrite (lstrip_all _ _ (forallb_rev _ _ Hpost)). reflexivity.
Qed.

Lemma split_by_none (p : char -> bool) (s : str) :
  forallb (fun c => negb (p c)) s = true -> split_by p s = [s].
Proof.
  induction s as [|c s IH]; [reflexivity|].
  cbn [forallb split_by]. destruct (p c); [discriminate|].
  cbn [negb andb]. intro H. rewrite (IH H). reflexivity.
Qed.

Lemma split_by_sep (p : char -> bool) (a b : str) (c : char) :
  forallb (fun x => negb (p x)) a = true -> p c = true ->
  split_by p (a ++ c :: b) = a :: split_by p b.
Proof.
  intros Ha Hc. induction a as [|x a IH].
  - cbn [app split_by]. rewrite Hc. reflexivity.
  - cbn [forallb] in Ha. apply andb_true_iff in Ha. destruct Ha as [Hx Ha].
    cbn [app split_by]. destruct (p x); [discriminate|].
    rewrite (IH Ha). reflexivity.
Qed.

Lemma delimited_segment_strip (s s' : str) :
  strip s = strip s' -> delimited_segment s = delimited_segment s'.
Proof. intro H. unfold delimited_segment. cbv zeta. rewrite H. reflexivity. Qed.

Lemma space_not_bar (s : str) :
  forallb isspace_char s = true ->
  forallb (fun c => negb (124 =? c)) s = true.
Proof.
  rewrite !forallb_forall. intros H c Hc.
  destruct (Z.eqb_spec 124 c) as [<-|]; [|reflexivity].
  specialize (H 124 Hc). discriminate.
Qed.

Lemma forallb_app_intro {A : Type} (p : A -> bool) (a b : list A) :
  forallb p a = true -> forallb p b = true -> forallb p (a ++ b) = true.
Proof. intros Ha Hb. rewrite forallb_app, Ha, Hb. reflexivity. Qed.

(** Each text joined with the separator becomes one segment of the
    delimited stage. *)
Lemma joined_texts_are_segments (texts : list str) :
  forall pre,
    texts <> [] ->
    forallb isspace_char pre = true ->
    Forall (fun t => forallb (fun c => negb (124 =? c)) t = true) texts ->
    flat_map delimited_segment
             (split_by (Z.eqb 124) (pre ++ join (U " | ") texts))
    = flat_map delimited_segment texts.
Proof.
  induction texts as [|a texts IH]; intros pre Hne Hpre F; [congruence|].
  inversion F as [|? ? Ha Ft]; subst.
  destruct texts as [|b rest].
  - cbn [join]. rewrite split_by_none
      by (apply forallb_app_intro; [apply space_not_bar; exact Hpre | exact Ha]).
    cbn [flat_map]. f_equal. apply delimited_segment_strip.
    rewrite <- (app_nil_r (pre ++ a)), <- app_assoc.
    apply strip_pad; [exact Hpre | reflexivity].
  - change (join (U " | ") (a :: b :: rest))
      with (a ++ U " | " ++ join (U " | ") (b :: rest)).
    match goal with
    | |- context [split_by _ ?x] =>
        assert (Ex : x = (pre ++ a ++ [32])
                           ++ 124 :: ([32] ++ join (U " | ") (b :: rest)))
          by (change (U " | ") with ([32] ++ 124 :: [32]) at 1;
              rewrite <- !app_assoc; reflexivity);
        rewrite Ex; clear Ex
    end.
    rewrite split_by_sep;
      [|apply forallb_app_intro;
        [apply space_not_bar; exact Hpre
        |apply forallb_app_intro; [exact Ha | reflexivity]]
      |reflexivity].
    cbn [flat_map]. f_equal.
    + apply delimited_segment_strip. apply strip_pad;
        [exact Hpre | reflexivity].
    + apply (IH [32]); [discriminate | reflexivity | exact Ft].
Qed.

Lemma combined_text_spec (elements : list str) (t : str) :
  In t (combined_text elements) ->
  exists e, In e elements /\ t = strip e /\ t <> [].
Proof.
  unfold combined_text. intro H. apply in_flat_map in H.
  destruct H as (e & He & H). cbv zeta in H.
  destruct (truthy (strip e)) eqn:T; cbn [andb] in H; [|contradiction].
  destruct (0 <? len (strip e)); [|contradiction].
  destruct (negb _); [|contradiction].
  destruct H as [<-|[]]. exists e. split; [exact He|].
  split; [reflexivity | apply truthy_iff; exact T].
Qed.

Lemma combined_text_length (elements : list str) :
  (List.length (combined_text elements) <= List.length elements)%nat.
Proof.
  unfold combined_text.
  match goal with
  | |- context [flat_map ?g elements] => set (f := g)
  end.
  induction elements as [|e l IH]; [simpl; lia|].
  cbn [flat_map List.length]. rewrite length_app.
  assert (List.length (f e) <= 1)%nat.
  { unfold f. cbv zeta.
    destruct (truthy (strip e) && (0 <? len (strip e)));
      [destruct (negb _)|]; simpl; lia. }
  lia.
Qed.

Lemma lstrip_sub (p : char -> bool) (s : str) (c : char) :
  In c (lstrip_by p s) -> In c s.
Proof.
  induction s as [|x s IH]; [auto|].
  cbn [lstrip_by]. destruct (p x); [right; auto | auto].
Qed.

Lemma strip_sub (s : str) (c : char) : In c (strip s) -> In c s.
Proof.
  unfold strip, rstrip_by. intro H. apply in_rev in H.
  apply lstrip_sub in H. apply in_rev in H. apply lstrip_sub in H. exact H.
Qed.

Lemma contains_app_r (sub x y : str) :
  contains sub y = true -> contains sub (x ++ y) = true.
Proof.
  intro H. induction x as [|c x IH]; [exact H|].
  cbn [app contains]. rewrite IH. apply orb_true_r.
Qed.

(** X16.  When the member elements of a document give two or more texts
    that are kept, and none of them holds a vertical bar, the text handed
    to the normalizer is cut by the delimited stage into exactly those
    texts: each kept element is one segment. *)
Theorem member_elements_are_segments (elements : list str) :
  (2 <= List.length (combined_text elements))%nat ->
  Forall (fun e => forallb (fun c => negb (124 =? c)) e = true) elements ->
  _handle_multiple_member_elements elements
  = Some (join (U " | ") (combined_text elements))
  /\ _extract_from_delimited_text (join (U " | ") (combined_text elements))
     = flat_map delimited_segment (combined_text elements).
Proof.
  intros L F.
  pose proof (combined_text_length elements) as Le.
  assert (N : Forall (fun t => forallb (fun c => negb (124 =? c)) t = true)
                     (combined_text elements)).
  { apply Forall_forall. intros t Ht.
    destruct (combined_text_spec _ _ Ht) as (e & He & -> & _).
    rewrite Forall_forall in F. specialize (F e He).
    rewrite forallb_forall in *. intros c Hc. apply F.
    apply strip_sub. exact Hc. }
  split.
  - unfold _handle_multiple_member_elements.
    replace (1 <? len elements) with true
      by (symmetry; apply Z.ltb_lt; unfold len; lia).
    destruct (combined_text elements) as [|a l]; [simpl in L; lia|].
    reflexivity.
  - unfold _extract_from_delimited_text. cbv zeta.
    destruct (combined_text elements) as [|a [|b l]] eqn:E;
      try (simpl in L; lia).
    assert (C : contains (U "|") (join (U " | ") (a :: b :: l)) = true).
    { change (join (U " | ") (a :: b :: l))
        with (a ++ [32] ++ U "|" ++ [32] ++ join (U " | ") (b :: l)).
      apply contains_app_r. apply (contains_app_r (U "|") [32]).
      change (U "|") with [124]. reflexivity. }
    rewrite C.
    change (Re.ch "|") with 124.
    apply (@joined_texts_are_segments (a :: b :: l) []);
      [discriminate | reflexivity | exact N].
Qed.

Lemma member_elements_are_segments_witness :
  _handle_multiple_member_elements
    [U " Nguyễn Văn An - Con "; U "Trần Thị Bình - Vợ"; U "Họ tên"]
  = Some (U "Nguyễn Văn An - Con | Trần Thị Bình - Vợ").
Proof.
  refine (proj1 (@member_elements_are_segments
                   [U " Nguyễn Văn An - Con "; U "Trần Thị Bình - Vợ";
                    U "Họ tên"] _ _)).
  - vm_compute. lia.
  - repeat constructor.
Defined.

Lemma starts_clean_app (p : char -> bool) (a b : str) :
  a <> [] -> starts_clean p (a ++ b) = starts_clean p a.
Proof. destruct a; [congruence | reflexivity]. Qed.

Lemma trimmed_clean (t : str) :
  strip t = t ->
  starts_clean isspace_char t = true
  /\ starts_clean isspace_char (rev t) = true.
Proof. intro H. rewrite <- H. apply strip_nil_or_clean. Qed.

Lemma rev_not_nil {A : Type} (l : list A) : l <> [] -> rev l <> [].
Proof.
  intros H E. apply H. rewrite <- (rev_involutive l), E. reflexivity.
Qed.

(** Joining trimmed, non-empty texts gives a trimmed, non-empty text. *)
Lemma join_trimmed (sep : str) (texts : list str) :
  texts <> [] ->
  Forall (fun t => t <> [] /\ strip t = t) texts ->
  join sep texts <> [] /\ strip (join sep texts) = join sep texts.
Proof.
  intros Hne F.
  assert (C : join sep texts <> []
              /\ starts_clean isspace_char (join sep texts) = true
              /\ starts_clean isspace_char (rev (join sep texts)) = true).
  { induction texts as [|a texts IH]; [congruence|].
    inversion F as [|? ? [Ha Hs] Ft]; subst.
    destruct (trimmed_clean Hs) as [C1 C2].
    destruct texts as [|b rest]; [cbn [join]; auto|].
    destruct (IH ltac:(discriminate) Ft) as (J & _ & J2).
    change (join sep (a :: b :: rest))
      with (a ++ sep ++ join sep (b :: rest)).
    split; [destruct a; [congruence | discriminate]|].
    split; [rewrite starts_clean_app by exact Ha; exact C1|].
    rewrite !rev_app_distr, <- app_assoc.
    rewrite starts_clean_app by (apply rev_not_nil; exact J). exact J2. }
  destruct C as (C0 & C1 & C2). split; [exact C0|].
  apply strip_clean; assumption.
Qed.

Lemma first_text_spec (texts : list str) :
  match first_text texts with
  | Some t => t <> [] /\ strip t = t /\ exists e, In e texts /\ t = strip e
  | None => Forall (fun e => strip e = []) texts
  end.
Proof.
  induction texts as [|e texts IH]; [constructor|].
  cbn [first_text]. cbv zeta.
  destruct (strip e) as [|c s] eqn:E.
  - cbn [truthy andb]. destruct (first_text texts) as [t|].
    + destruct IH as (H1 & H2 & x & Hx & H3).
      split; [exact H1|]. split; [exact H2|]. exists x.
      split; [right; exact Hx | exact H3].
    + constructor; [exact E | exact IH].
  - cbn [truthy andb].
    replace (0 <? len (c :: s)) with true
      by (symmetry; apply Z.ltb_lt; unfold len; cbn [List.length]; lia).
    split; [discriminate|]. split; [rewrite <- E; apply strip_idempotent|].
    exists e. split; [left; reflexivity | symmetry; exact E].
Qed.

(** X17.  The text taken from the member elements is never empty and has
    no blanks around it, whether it is the joined texts or the first
    text; and there is no text exactly when every element is blank. *)
Theorem member_elements_text (elements : list str) :
  (forall t,
      _handle_multiple_member_elements elements = Some t ->
      t <> [] /\ strip t = t)
  /\ (_handle_multiple_member_elements elements = None
      <-> Forall (fun e => strip e = []) elements).
Proof.
  unfold _handle_multiple_member_elements.
  pose proof (first_text_spec elements) as FT.
  assert (CT : forall a l,
             combined_text elements = a :: l ->
             (join (U " | ") (a :: l) <> []
              /\ strip (join (U " | ") (a :: l)) = join (U " | ") (a :: l))
             /\ ~ Forall (fun e => strip e = []) elements).
  { intros a l E. split.
    - apply join_trimmed; [discriminate|]. rewrite <- E.
      apply Forall_forall. intros t Ht.
      destruct (combined_text_spec _ _ Ht) as (e & _ & -> & Hn).
      split; [exact Hn | apply strip_idempotent].
    - intro B. rewrite Forall_forall in B.
      assert (Ha : In a (combined_text elements)) by (rewrite E; left; auto).
      destruct (combined_text_spec _ _ Ha) as (e & He & -> & Hn).
      apply Hn. apply B. exact He. }
  destruct (1 <? len elements).
  - destruct (combined_text elements) as [|a l] eqn:E.
    + destruct (first_text elements) as [t|].
      * split; [intros t' [= <-]; tauto|].
        split; [discriminate|]. intro B. exfalso.
        destruct FT as (H1 & _ & e & He & ->).
        rewrite Forall_forall in B. apply H1. apply B. exact He.
      * split; [discriminate | tauto].
    + destruct (CT a l eq_refl) as [J NB].
      split; [intros t' [= <-]; exact J|].
      split; [discriminate | intro B; contradiction].
  - destruct (first_text elements) as [t|].
    + split; [intros t' [= <-]; tauto|].
      split; [discriminate|]. intro B. exfalso.
      destruct FT as (H1 & _ & e & He & ->).
      rewrite Forall_forall in B. apply H1. apply B. exact He.
    + split; [discriminate | tauto].
Qed.

Lemma member_elements_text_witness :
  _handle_multiple_member_elements [U "  "; [10; 9]] = None.
Proof.
  apply (proj2 (member_elements_text _)).
  repeat constructor.
Defined.

(** *** Document shape *)

(** X18.  The structure type that the analysis stores agrees with the
    three tests of the analysis record: table based exactly when the
    record is table heavy, else form based exactly when it is form based,
    else div based exactly when it is div heavy, else mixed; a document
    that cannot be analysed is mixed. *)
Theorem structure_type_agrees_with_tests (soup : option SoupCounts) :
  let a := analyze_html_structure soup in
  structure_type a
  = (if is_table_heavy a then TABLE_BASED
     else if is_form_based a then FORM_BASED
     else if is_div_heavy a then DIV_BASED
     else MIXED_STRUCTURE)
  /\ (structure_type a = TABLE_BASED <-> is_table_heavy a = true)
  /\ (structure_type a = MIXED_STRUCTURE
      <-> is_table_heavy a = false /\ is_form_based a = false
          /\ is_div_heavy a = false)
  /\ (soup = None -> structure_type a = MIXED_STRUCTURE).
Proof.
  cbv zeta. destruct soup as [c|].
  - unfold analyze_html_structure, _determine_structure_type, is_table_heavy,
      is_form_based, is_div_heavy, table_count_for_table_based,
      div_count_for_div_based.
    cbn [structure_type table_count form_count div_count].
    destruct (3 <? tables c), (0 <? forms c), (10 <? divs c);
      repeat split; try reflexivity; try discriminate;
      try (intro H; vm_compute in H; discriminate);
      try (intros (H1 & H2 & H3); discriminate).
  - cbn. repeat split; try reflexivity; try discriminate.
Qed.

(** *** The summary of a run *)

Lemma count_disjoint {A : Type} (p q r : A -> bool) (l : list A) :
  (forall x, q x = true -> p x = true) ->
  (forall x, r x = true -> p x = true) ->
  (forall x, q x = true -> r x = false) ->
  0 <= count_if q l /\ 0 <= count_if r l
  /\ count_if q l + count_if r l <= count_if p l
  /\ count_if p l <= len l.
Proof.
  intros Hq Hr Hd. unfold count_if, len.
  induction l as [|x l IH]; [simpl; lia|].
  cbn [filter].
  specialize (Hq x). specialize (Hr x). specialize (Hd x).
  destruct (q x), (r x), (p x); cbn [List.length];
    rewrite ?Nat2Z.inj_succ;
    try (specialize (Hq eq_refl)); try (specialize (Hr eq_refl));
    try (specialize (Hd eq_refl)); try discriminate; lia.
Qed.

Lemma Qdiv_le_compat (x y n : Q) :
  (0 < n)%Q -> (x <= y)%Q -> (x / n <= y / n)%Q.
Proof.
  intros Hn H. unfold Qdiv. apply Qmult_le_compat_r; [exact H|].
  apply Qinv_le_0_compat. apply Qlt_le_weak. exact Hn.
Qed.

Lemma Qdiv_nonneg (x n : Q) : (0 < n)%Q -> (0 <= x)%Q -> (0 <= x / n)%Q.
Proof.
  intros Hn H. unfold Qdiv. apply Qmult_le_0_compat; [exact H|].
  apply Qinv_le_0_compat. apply Qlt_le_weak. exact Hn.
Qed.

Lemma summary_counts_ordered (fields : list (Field * ExtractionResult)) :
  let s := _generate_extraction_summary fields in
  0 <= high_quality_count s /\ 0 <= moderate_quality_count s
  /\ high_quality_count s + moderate_quality_count s
     <= successful_extractions s
  /\ successful_extractions s <= total_fields s.
Proof.
  cbv zeta. unfold _generate_extraction_summary. cbv zeta.
  cbn [high_quality_count moderate_quality_count successful_extractions
       total_fields].
  replace (len fields) with (len (map snd fields))
    by (unfold len; rewrite length_map; reflexivity).
  apply count_disjoint.
  - intros x H. apply andb_true_iff in H. tauto.
  - intros x H. rewrite !andb_true_iff in H. tauto.
  - intros x H. apply andb_true_iff in H. destruct H as [_ H].
    rewrite H. cbn [negb]. rewrite andb_false_r. reflexivity.
Qed.

(** X19.  In every summary the quality score is at most the success rate,
    and both lie between 0 and 1; the fields of high and of moderate
    quality are counted among the successful ones. *)
Theorem summary_scores_ordered (fields : list (Field * ExtractionResult)) :
  let s := _generate_extraction_summary fields in
  (0 <= overall_quality_score s)%Q
  /\ (overall_quality_score s <= success_rate s)%Q
  /\ (success_rate s <= 1)%Q
  /\ high_quality_count s + moderate_quality_count s
     <= successful_extractions s.
Proof.
  cbv zeta.
  destruct (summary_counts_ordered fields) as (H0 & M0 & HM & ST).
  split; [|split; [|split; [|exact HM]]];
    revert H0 M0 HM ST; unfold _generate_extraction_summary; cbv zeta;
    cbn [high_quality_count moderate_quality_count successful_extractions
         total_fields overall_quality_score success_rate];
    set (h := count_if _ (map snd fields));
    set (m := count_if _ (map snd fields));
    set (s := count_if _ (map snd fields));
    intros H0 M0 HM ST;
    destruct (Z.ltb_spec 0 (len fields)) as [N|N]; try discriminate;
    assert (Nq : (0 < inject_Z (len fields))%Q)
      by (rewrite <- (Zlt_Qlt 0); exact N);
    assert (Hq : (0 <= inject_Z h)%Q) by (rewrite <- (Zle_Qle 0); exact H0);
    assert (Mq : (0 <= inject_Z m)%Q) by (rewrite <- (Zle_Qle 0); exact M0);
    assert (Sq : (inject_Z h + inject_Z m <= inject_Z s)%Q)
      by (rewrite <- inject_Z_plus, <- Zle_Qle; exact HM);
    assert (Tq : (inject_Z s <= inject_Z (len fields))%Q)
      by (rewrite <- Zle_Qle; exact ST).
  - apply Qdiv_nonneg; [exact Nq | lra].
  - apply Qdiv_le_compat; [exact Nq | lra].
  - apply Qle_shift_div_r; [exact Nq | lra].
Qed.

Lemma four_fifths (a n : Z) :
  0 < n -> ((8 # 10 <= inject_Z a / inject_Z n)%Q <-> 4 * n <= 5 * a).
Proof.
  intro N.
  assert (Nq : (0 < inject_Z n)%Q) by (rewrite <- (Zlt_Qlt 0); exact N).
  assert (Z8 : ((8 # 10) * inject_Z n <= inject_Z a)%Q <-> 4 * n <= 5 * a).
  { unfold Qle. cbn [Qmult Qnum Qden inject_Z].
    rewrite ?Pos2Z.inj_mul. lia. }
  rewrite <- Z8. split.
  - intro H.
    apply (Qmult_le_compat_r _ _ (inject_Z n)) in H;
      [|apply Qlt_le_weak; exact Nq].
    assert (E : (inject_Z a / inject_Z n * inject_Z n == inject_Z a)%Q)
      by (field; lra).
    rewrite E in H. exact H.
  - intro H. apply Qle_shift_div_l; assumption.
Qed.

(** X20.  The status of a summary and its performance grade read the same
    score with different thresholds: excellent is grade A and good is
    grade B, grade C is always moderate, and poor is always grade D, while
    a moderate status can have grade D.  A run is successful exactly when
    it has fields and at least four fifths of them have a value. *)
Theorem summary_status_and_grade (fields : list (Field * ExtractionResult)) :
  let s := _generate_extraction_summary fields in
  (status s = U "excellent" <-> Derived.performance_grade s = U "A")
  /\ (status s = U "good" <-> Derived.performance_grade s = U "B")
  /\ (Derived.performance_grade s = U "C" -> status s = U "moderate")
  /\ (status s = U "poor" -> Derived.performance_grade s = U "D")
  /\ (Derived.is_successful_run s = true
      <-> 0 < total_fields s
          /\ 4 * total_fields s <= 5 * successful_extractions s).
Proof.
  cbv zeta.
  assert (G : forall q : Q,
             let st :=
               if Qlt_bool (8 # 10) q then U "excellent"
               else if Qlt_bool (6 # 10) q then U "good"
               else if Qlt_bool (3 # 10) q then U "moderate"
               else U "poor" in
             let gr :=
               if Qlt_bool (8 # 10) q then U "A"
               else if Qlt_bool (6 # 10) q then U "B"
               else if Qlt_bool (4 # 10) q then U "C"
               else U "D" in
             (st = U "excellent" <-> gr = U "A")
             /\ (st = U "good" <-> gr = U "B")
             /\ (gr = U "C" -> st = U "moderate")
             /\ (st = U "poor" -> gr = U "D")).
  { intro q. cbv zeta.
    destruct (Qlt_bool (8 # 10) q) eqn:E1;
      [|destruct (Qlt_bool (6 # 10) q) eqn:E2;
        [|destruct (Qlt_bool (3 # 10) q) eqn:E3;
          destruct (Qlt_bool (4 # 10) q) eqn:E4]];
      repeat split; try reflexivity;
      try (intro H; vm_compute in H; discriminate).
    all: exfalso; apply Qlt_bool_iff in E4;
      unfold Qlt_bool in E3; apply negb_false_iff in E3;
      apply Qle_bool_iff in E3; lra. }
  destruct (summary_counts_ordered fields) as (_ & _ & _ & ST).
  revert ST.
  unfold Derived.performance_grade, Derived.is_successful_run,
    _generate_extraction_summary. cbv zeta.
  cbn [status overall_quality_score success_rate total_fields
       successful_extractions].
  match goal with
  | |- context [(inject_Z ?a / inject_Z (len fields))%Q] =>
      match a with
      | count_if _ _ => set (s := a)
      end
  end.
  intro ST.
  match goal with
  | |- context [Qlt_bool (8 # 10) ?q] => destruct (G q) as (G1 & G2 & G3 & G4)
  end.
  split; [exact G1|]. split; [exact G2|]. split; [exact G3|].
  split; [exact G4|].
  destruct (Z.ltb_spec 0 (len fields)) as [N|N].
  - rewrite Qle_bool_iff, (four_fifths s N). tauto.
  - split; [discriminate | lia].
Qed.

(** *** Cross-validation against the reference record *)

Import Reports.

Section CrossChecks.

Variable InputValue : Type.
Variable compare : Field -> value -> InputValue -> Comparison.

Lemma first_present_absent (f : Field) (v : value) (keys : list str)
    (d : list (str * InputValue)) :
  (forall k, In k keys -> dict_lookup d k = None) ->
  first_present compare f v keys d
  = {| is_consistent := true; input_key := None; comparison_notes := None |}.
Proof.
  induction keys as [|k keys IH]; intro H; [reflexivity|].
  cbn [first_present]. rewrite (H k (or_introl eq_refl)).
  apply IH. intros k' Hk'. apply H. right. exact Hk'.
Qed.

Lemma first_present_found (f : Field) (v : value) (pre post : list str)
    (k : str) (x : InputValue) (d : list (str * InputValue)) :
  (forall k', In k' pre -> dict_lookup d k' = None) ->
  dict_lookup d k = Some x ->
  first_present compare f v (pre ++ k :: post) d
  = {| is_consistent := matches (compare f v x);
       input_key := Some k;
       comparison_notes := Some (notes (compare f v x)) |}.
Proof.
  induction pre as [|k0 pre IH]; intros H Hk.
  - cbn [app first_present]. rewrite Hk. reflexivity.
  - cbn [app first_present]. rewrite (H k0 (or_introl eq_refl)).
    apply IH; [|exact Hk]. intros k' Hk'. apply H. right. exact Hk'.
Qed.

(** X21.  The comparison with the reference record uses the first key of
    the field's list that the record holds, whatever the later keys hold;
    when the record holds none of them the field counts as consistent. *)
Theorem consistency_uses_first_present_key (f : Field) (v : value)
    (d : list (str * InputValue)) :
  (forall pre post k x,
      field_mappings f = pre ++ k :: post ->
      (forall k', In k' pre -> dict_lookup d k' = None) ->
      dict_lookup d k = Some x ->
      validate_field_consistency compare f v d
      = {| is_consistent := matches (compare f v x);
           input_key := Some k;
           comparison_notes := Some (notes (compare f v x)) |})
  /\ ((forall k, In k (field_mappings f) -> dict_lookup d k = None) ->
      validate_field_consistency compare f v d
      = {| is_consistent := true; input_key := None;
           comparison_notes := None |}).
Proof.
  unfold validate_field_consistency. split.
  - intros pre post k x E H Hk. rewrite E.
    apply first_present_found; assumption.
  - apply first_present_absent.
Qed.

(** X22.  Cross-validation never removes an error of the field validator
    and adds at most one, and it leaves the validity flag as the validator
    set it; with no reference record, an empty one, or one that holds none
    of the field's keys, the validator's result is returned as it is. *)
Theorem cross_check_adds_at_most_one_error (f : Field) (v : value)
    (input : option (list (str * InputValue))) :
  let r := _validate_field_value compare f v input in
  is_valid r = is_valid (validate f v)
  /\ (errors r = errors (validate f v)
      \/ exists note,
           errors r
           = errors (validate f v) ++ [U "Cross-validation failed: " ++ note])
  /\ (match input with
      | Some d => forall k, In k (field_mappings f) -> dict_lookup d k = None
      | None => True
      end -> r = validate f v).
Proof.
  cbv zeta. unfold _validate_field_value. cbv zeta.
  destruct input as [[|kv d]|]; cbn [provided].
  - repeat split; auto.
  - destruct (is_consistent
                (validate_field_consistency compare f v (kv :: d))) eqn:E;
      cbn [negb is_valid errors].
    + repeat split; auto.
    + split; [reflexivity|]. split; [right; eexists; reflexivity|].
      intro H. exfalso.
      unfold validate_field_consistency in E.
      rewrite (first_present_absent f v _ _ H) in E. discriminate.
  - repeat split; auto.
Qed.

Lemma tally_invariant (d : list (str * InputValue))
    (fields : list (Field * ExtractionResult)) :
  forall t,
    let t' := fold_left (tally_field compare d) fields t in
    total_score t' + len (found t') + valid_fields t
    = total_score t + len (found t) + valid_fields t'
    /\ valid_fields t'
       = valid_fields t
         + count_if (fun r => is_true (extracted_value r)) (map snd fields)
    /\ len (found t) <= len (found t')
    /\ total_score t <= total_score t'
    /\ len (validations t')
       = len (validations t)
         + count_if (fun r => is_true (extracted_value r)) (map snd fields).
Proof.
  induction fields as [|[f r] fields IH]; intro t; cbv zeta.
  - cbn [fold_left map]. unfold count_if, len. simpl. lia.
  - cbn [fold_left map snd].
    specialize (IH (tally_field compare d t (f, r))). cbv zeta in IH.
    destruct IH as (I1 & I2 & I3 & I4 & I5).
    unfold count_if in *. cbn [filter].
    assert (S : tally_field compare d t (f, r)
                = tally_field compare d t (f, r)) by reflexivity.
    unfold tally_field at 2 in S. 
    destruct (is_true (extracted_value r)) eqn:T.
    + destruct (is_consistent
                  (validate_field_consistency compare f (extracted_value r) d))
        eqn:C; rewrite S in *;
        cbn [total_score found valid_fields validations] in *;
        unfold len in *; rewrite ?length_app in *;
        cbn [List.length] in *; lia.
    + rewrite S in *. lia.
Qed.

(** X23.  In the cross-validation report the consistency is the share of
    the fields with a value that were found consistent: with [n] such
    fields and [k] reported inconsistencies it is (n - k) / n, between 0
    and 1, and 0 when no field has a value. *)
Theorem cross_validation_report_counts
    (fields : list (Field * ExtractionResult))
    (d : list (str * InputValue)) :
  let report := _perform_cross_validation compare fields d in
  let n := count_if (fun r => is_true (extracted_value r)) (map snd fields) in
  let k := len (inconsistencies report) in
  0 <= k <= n
  /\ overall_consistency report
     = (if 0 <? n then (inject_Z (n - k) / inject_Z n)%Q else 0%Q)
  /\ (0 <= overall_consistency report)%Q
  /\ (overall_consistency report <= 1)%Q.
Proof.
  cbv zeta. unfold _perform_cross_validation. cbv zeta.
  cbn [inconsistencies overall_consistency].
  pose proof (tally_invariant d fields
                {| validations := []; found := []; total_score := 0;
                   valid_fields := 0 |}) as I.
  cbv zeta in I. cbn [total_score found valid_fields validations] in I.
  set (t := fold_left _ fields _) in *.
  set (n := count_if _ (map snd fields)) in *.
  destruct I as (I1 & I2 & I3 & I4 & I5).
  change (len (@nil str)) with 0 in *.
  change (len (@nil (Field * Consistency))) with 0 in *.
  assert (K : total_score t = n - len (found t)) by lia.
  rewrite I2. cbn [Z.add]. rewrite K.
  split; [lia|]. split; [reflexivity|].
  split;
    destruct (Z.ltb_spec 0 n) as [N|N]; try discriminate;
    assert (Nq : (0 < inject_Z n)%Q) by (rewrite <- (Zlt_Qlt 0); exact N).
  - apply Qdiv_nonneg; [exact Nq|]. rewrite <- (Zle_Qle 0). lia.
  - apply Qle_shift_div_r; [exact Nq|]. rewrite Qmult_1_l.
    rewrite <- Zle_Qle. lia.
Qed.

End CrossChecks.

Lemma consistency_uses_first_present_key_witness :
  input_key
    (validate_field_consistency Sample.compare so_dien_thoai
       (VStr (U "0912345678")) [(U "sdt", tt); (U "phone", tt)])
  = Some (U "phone").
Proof.
  rewrite (proj1 (@consistency_uses_first_present_key
                    unit Sample.compare so_dien_thoai
                    (VStr (U "0912345678"))
                    [(U "sdt", tt); (U "phone", tt)])
                 [] [U "dien_thoai"; U "sdt"] (U "phone") tt).
  - reflexivity.
  - reflexivity.
  - intros k' [].
  - reflexivity.
Defined.

Lemma cross_check_adds_at_most_one_error_witness :
  _validate_field_value Sample.compare so_dien_thoai (VStr (U "0912345678"))
    (Some [(U "income", tt)])
  = validate so_dien_thoai (VStr (U "0912345678")).
Proof.
  apply (proj2 (proj2 (@cross_check_adds_at_most_one_error
                         unit Sample.compare so_dien_thoai
                         (VStr (U "0912345678"))
                         (Some [(U "income", tt)])))).
  intros k [<-|[<-|[<-|[]]]]; reflexivity.
Defined.

(** *** Quality metrics of a field result *)

Lemma overall_score_parts (r : ExtractionResult) :
  exists validation : Q,
    (0 <= validation)%Q /\ (validation <= 2 # 10)%Q
    /\ (_calculate_overall_score r
        == Model.confidence_score r * (4 # 10)
           + (if is_true (extracted_value r) then 3 # 10 else 0)
           + validation
           + (if Model.fallback_used r then 4 # 100 else 8 # 100))%Q.
Proof.
  unfold _calculate_overall_score. cbv zeta.
  set (x := (1 - inject_Z (len (validation_errors r)) * (2 # 10))%Q).
  pose proof (len_nonneg (validation_errors r)) as N.
  exists (Qmax 0 x * (2 # 10))%Q.
  assert (M : (0 <= Qmax 0 x)%Q /\ (Qmax 0 x <= 1)%Q).
  { split; [apply Q.le_max_l|]. apply Q.max_lub; [discriminate|].
    unfold x. lra. }
  split; [lra|]. split; [lra|].
  destruct (is_true (extracted_value r)), (Model.fallback_used r);
    cbn [negb]; ring.
Qed.

Section MetricsOfResults.

Variable css regex context xpath fallback : str -> Field -> outcome (option str).
Variable InputValue : Type.
Variable compare : Field -> value -> InputValue -> Comparison.
Variable repr : value -> str.

Local Abbreviation single :=
  (_extract_single_field css regex context xpath fallback compare repr).

(** X24.  The overall score of the quality metrics of a field result is
    excellent (0.9 or more) only for a result that has a value, was not
    found by the fallback patterns and has a confidence of at least 0.8;
    the failed result scores 0.24 and is not acceptable. *)
Theorem excellent_metrics_need_confident_value (f : Field) (html : str)
    (input : option (list (str * InputValue))) (now : Z) :
  let r := single f html input now in
  let m := _calculate_quality_metrics r in
  (is_excellent m = true ->
   is_true (extracted_value r) = true
   /\ Model.fallback_used r = false
   /\ (8 # 10 <= Model.confidence_score r)%Q)
  /\ (Model.extraction_method r = U "none" ->
      (overall_score m == 24 # 100)%Q /\ is_acceptable m = false).
Proof.
  cbv zeta. unfold is_excellent, is_acceptable, _calculate_quality_metrics.
  cbn [overall_score].
  destruct (field_result_cases css regex context xpath fallback compare repr
              f html input now)
    as [(msg & ->)|(m & v & w & base & weight & errs & applied
                      & Hk & Hw & ->)].
  - split; [intro H; vm_compute in H; discriminate|].
    intros _. split; reflexivity.
  - set (c := calculate_confidence_score w errs m).
    set (r := new_ExtractionResult f (_normalize_field_value f v) c
                (determine_quality_level c) m (contains (U "fallback") m)
                errs applied now).
    assert (Cb : (0 <= c)%Q /\ (c <= 1)%Q)
      by (unfold c, calculate_confidence_score; cbv zeta; apply clamp_range).
    assert (Fb : Model.fallback_used r = true -> (c <= 35 # 100)%Q).
    { unfold r. cbn [new_ExtractionResult Model.fallback_used]. intro Fb.
      assert (E : m = FALLBACK_PATTERN /\ base = (5 # 10)%Q).
      { cbn [strategy_kinds In] in Hk.
        destruct Hk as [E|[E|[E|[E|[E|[]]]]]]; inversion E; subst;
          try (vm_compute in Fb; discriminate).
        split; reflexivity. }
      destruct E as [-> ->].
      unfold c, calculate_confidence_score. cbv zeta.
      replace (get METHOD_WEIGHTS FALLBACK_PATTERN (5 # 10)) with (5 # 10)%Q
        by reflexivity.
      apply Q.max_lub; [discriminate|].
      eapply Qle_trans; [apply Q.le_min_r|].
      pose proof (len_nonneg errs) as N.
      unfold validation_error_penalty.
      assert (w <= 7 # 10)%Q
        by (destruct Hw as [->|[-> _]]; unfold data_quality_bonus;
            discriminate).
      lra. }
    split.
    + intro H. apply Qle_bool_iff in H.
      destruct (overall_score_parts r) as (val & V0 & V1 & E).
      rewrite E in H. clear E.
      change (Model.confidence_score r) with c in *.
      destruct (is_true (extracted_value r)) eqn:T;
        destruct (Model.fallback_used r) eqn:Fu;
        try (specialize (Fb eq_refl)); repeat split; lra.
    + unfold r. cbn [new_ExtractionResult Model.extraction_method].
      intro Hm. exfalso. rewrite Hm in Hk. cbn [strategy_kinds In] in Hk.
      destruct Hk as [E|[E|[E|[E|[E|[]]]]]]; vm_compute in E;
        discriminate E.
Qed.

End MetricsOfResults.

Lemma excellent_metrics_need_confident_value_witness :
  is_acceptable
    (_calculate_quality_metrics
       (_extract_single_field Sample.none Sample.none Sample.none Sample.none
          Sample.none Sample.compare Sample.repr so_dien_thoai Sample.html
          None 7))
  = false.
Proof.
  apply (proj2 (@excellent_metrics_need_confident_value
                  Sample.none Sample.none Sample.none Sample.none
                  Sample.none unit Sample.compare Sample.repr
                  so_dien_thoai Sample.html None 7)).
  reflexivity.
Defined.

(** *** The record of normalization steps *)

(** X25.  No normalization step is recorded exactly when the raw text is
    empty or equal to the text of the normalized value; otherwise the
    record begins with the step value_changed, so no other step is ever
    recorded without it. *)
Theorem normalization_steps_start_with_change (repr : value -> str)
    (f : Field) (original : str) (normalized : value) :
  (get_normalization_applied repr f original normalized = []
   <-> original = [] \/ original = py_str repr normalized)
  /\ (get_normalization_applied repr f original normalized <> [] ->
      hd [] (get_normalization_applied repr f original normalized)
      = U "value_changed").
Proof.
  unfold get_normalization_applied. cbv zeta.
  destruct original as [|c s];
    [split; [tauto | intro H; exfalso; apply H; reflexivity]|].
  cbn [truthy negb].
  destruct (eqb (c :: s) (py_str repr normalized)) eqn:E; cbn [negb].
  - apply str_eqb_eq in E.
    split; [tauto | intro H; exfalso; apply H; reflexivity].
  - assert (N : c :: s <> py_str repr normalized).
    { intro H. apply str_eqb_eq in H. congruence. }
    cbn [app].
    split.
    + split.
      * intro H. exfalso. destruct f;
          repeat match goal with
                 | H : context [if ?b then _ else _] |- _ => destruct b
                 end; discriminate.
      * intros [H|H]; [discriminate | contradiction].
    + intros _. destruct f;
        repeat match goal with
               | |- context [if ?b then _ else _] => destruct b
               end; reflexivity.
Qed.

Lemma normalization_steps_start_with_change_witness :
  hd [] (get_normalization_applied Sample.repr so_dien_thoai
           (U "+84 912 345 678") (VStr (U "0912345678")))
  = U "value_changed".
Proof.
  apply (proj2 (@normalization_steps_start_with_change
                  Sample.repr so_dien_thoai (U "+84 912 345 678")
                  (VStr (U "0912345678")))).
  vm_compute. discriminate.
Defined.

Lemma remove_duplicates_idempotent_and_complete_witness :
  exists m',
    In m' (_remove_duplicates
             [member (U "An") (U "Con") None;
              member (U " an ") (U "con") (Some (U "1995"))])
    /\ member_key m' = member_key (member (U " an ") (U "con")
                                          (Some (U "1995"))).
Proof.
  apply (proj2 (@remove_duplicates_idempotent_and_complete
                  [member (U "An") (U "Con") None;
                   member (U " an ") (U "con") (Some (U "1995"))])).
  - right. left. reflexivity.
  - vm_compute. discriminate.
  - vm_compute. discriminate.
Defined.

Lemma structure_type_agrees_with_tests_witness :
  structure_type (analyze_html_structure None) = MIXED_STRUCTURE.
Proof.
  apply (proj2 (proj2 (proj2 (@structure_type_agrees_with_tests None)))).
  reflexivity.
Defined.

Lemma summary_status_and_grade_witness :
  Derived.performance_grade (_generate_extraction_summary []) = U "D".
Proof.
  apply (proj1 (proj2 (proj2 (proj2 (@summary_status_and_grade []))))).
  reflexivity.
Defined.

(** *** Values and success of a field result *)

Lemma record_attempt_truthy (l : list attempt) (m : str) (r : option str)
    (w : Q) :
  Forall (fun a : attempt => truthy (snd (fst a)) = true) l ->
  Forall (fun a : attempt => truthy (snd (fst a)) = true)
         (record_attempt l m r w).
Proof.
  intro F. unfold record_attempt. destruct r as [v|]; [|exact F].
  destruct (truthy v) eqn:T; [|exact F].
  apply Forall_app. split; [exact F|]. constructor; [exact T | constructor].
Qed.

Lemma normalized_candidate_is_a_value (f : Field) (v : str) :
  truthy v = true -> _normalize_field_value f v <> VNone.
Proof.
  intro T. unfold _normalize_field_value. rewrite T. cbn [negb].
  destruct f; cbn [normalize]; try discriminate.
  - unfold IncomeNormalizer_normalize. rewrite T. cbn [negb]. cbv zeta.
    clear T.
    destruct (truthy _);
      [destruct (Py.int _); [destruct (format_thousands_checked _)|]|];
      cbv beta iota; discriminate.
  - unfold BankNormalizer_normalize. rewrite T. cbn [negb]. cbv zeta.
    destruct (exact_bank _ _ _) as [[c fn]|]; [cbv beta iota; discriminate|].
    destruct (partial_bank _ _) as [[c fn]|]; cbv beta iota; discriminate.
Qed.

Section ValuesOfResults.

Variable css regex context xpath fallback : str -> Field -> outcome (option str).
Variable InputValue : Type.
Variable compare : Field -> value -> InputValue -> Comparison.
Variable repr : value -> str.

Local Abbreviation attempts_of :=
  (collect_attempts css regex context xpath fallback).
Local Abbreviation single :=
  (_extract_single_field css regex context xpath fallback compare repr).

Lemma collect_attempts_truthy (html : str) (f : Field)
    (attempts : list attempt) :
  attempts_of html f = Ok attempts ->
  Forall (fun a : attempt => truthy (snd (fst a)) = true) attempts.
Proof.
  unfold collect_attempts.
  destruct (css html f) as [r1|]; [|discriminate].
  destruct (regex html f) as [r2|]; [|discriminate].
  destruct (context html f) as [r3|]; [|discriminate].
  destruct (xpath html f) as [r4|]; [|discriminate].
  cbn [bind].
  match goal with
  | |- context [match ?l with [] => _ | _ :: _ => _ end] =>
      assert (F : Forall (fun a : attempt => truthy (snd (fst a)) = true) l)
        by (repeat apply record_attempt_truthy; constructor);
      destruct l eqn:El
  end.
  - destruct (fallback html f) as [r5|]; [|discriminate].
    cbn [bind]. intros [= <-]. apply record_attempt_truthy. constructor.
  - intros [= <-]. exact F.
Qed.

(** X26.  A field result has no value exactly when no candidate was
    chosen (its method is none): a chosen candidate always normalizes to
    some value, if only the raw text or an empty member list.  The result
    counts as successful exactly when its confidence is positive. *)
Theorem field_result_value_and_success (f : Field) (html : str)
    (input : option (list (str * InputValue))) (now : Z) :
  let r := single f html input now in
  (extracted_value r = VNone <-> Model.extraction_method r = U "none")
  /\ (Derived.is_successful r = true <-> (0 < Model.confidence_score r)%Q).
Proof.
  cbv zeta. unfold _extract_single_field, extract_single_field_body.
  assert (Failed : forall msg,
             let r := _create_failed_extraction_result f msg now in
             (extracted_value r = VNone
              <-> Model.extraction_method r = U "none")
             /\ (Derived.is_successful r = true
                 <-> (0 < Model.confidence_score r)%Q)).
  { intro msg. cbv zeta. split; [split; reflexivity|].
    split; intro H; [discriminate | vm_compute in H; discriminate]. }
  destruct (attempts_of html f) as [attempts|e] eqn:Ha; cbn [bind];
    [|apply Failed].
  destruct attempts as [|a0 attempts'] eqn:En.
  - replace (_select_best_extraction_result f []) with (@None attempt)
      by (destruct f; reflexivity).
    apply Failed.
  - rewrite <- En in *.
    assert (Hne : attempts <> []) by (rewrite En; discriminate).
    pose proof (@collect_attempts_kinds css regex context xpath fallback
                  _ compare html f attempts Ha) as K.
    pose proof (collect_attempts_truthy _ _ Ha) as T.
    destruct (select_best_spec f Hne) as (m & v & w & Hin & Hsel).
    rewrite Forall_forall in K, T.
    destruct (K _ Hin) as (weight & Hk). specialize (T _ Hin).
    cbn [fst snd] in Hk, T.
    pose proof (@normalized_candidate_is_a_value f v T) as NV.
    assert (Hm : m <> U "none").
    { intro Hm. rewrite Hm in Hk. cbn [strategy_kinds In] in Hk.
      destruct Hk as [E|[E|[E|[E|[E|[]]]]]]; vm_compute in E;
        discriminate E. }
    assert (G : forall w' : Q,
               let r :=
                 new_ExtractionResult f (_normalize_field_value f v)
                   (calculate_confidence_score w'
                      (errors (_validate_field_value compare f
                                 (_normalize_field_value f v) input)) m)
                   (determine_quality_level
                      (calculate_confidence_score w'
                         (errors (_validate_field_value compare f
                                    (_normalize_field_value f v) input)) m))
                   m (contains (U "fallback") m)
                   (errors (_validate_field_value compare f
                              (_normalize_field_value f v) input))
                   (get_normalization_applied repr f v
                      (_normalize_field_value f v)) now in
               (extracted_value r = VNone
                <-> Model.extraction_method r = U "none")
               /\ (Derived.is_successful r = true
                   <-> (0 < Model.confidence_score r)%Q)).
    { intro w'. cbv zeta.
      cbn [new_ExtractionResult extracted_value Model.extraction_method
           Model.confidence_score].
      split; [split; intro H; contradiction|].
      unfold Derived.is_successful.
      cbn [new_ExtractionResult extracted_value Model.quality_level].
      set (c := calculate_confidence_score w' _ m).
      destruct (_normalize_field_value f v) eqn:Ev; [congruence| | | |];
        cbn [andb];
        destruct (quality_level_cases c)
          as [[-> H]|[[-> [H _]]|[[-> [H _]]|[[-> [H _]]|[-> H]]]]];
        split; intro X; try reflexivity; try discriminate; lra. }
    destruct Hsel as [(_ & _ & ->)|(_ & ->)]; cbn [try_except]; apply G.
Qed.

End ValuesOfResults.
